(** * cultmagic backend: a shallow embedding of the request handlers

    The development follows the source tree [backend/app]:
    - [routes.py]: [fetch_entity_id], [get_insights], [get_popular_books],
      [search_entities], [get_recommendations];
    - [auth_routes.py]: [register], [login], [get_current_user_info],
      [save_preferences], [get_preferences];
    - [saved_items_routes.py]: [save_item], [get_saved_items],
      [remove_saved_item], [check_if_saved];
    - [gemini_routes.py]: [convert_natural_language];
    - [database.py]: the three tables.

    Python values that come out of [response.json()] / [json.loads] are the
    inductive [value]; Python exceptions are explicit ([result]); the calls to
    the upstream HTTP API are answered by an oracle indexed by the number of
    calls made so far, threaded through the monad [M]. *)

From Stdlib Require Import String Ascii List ZArith Bool Lia Floats DecimalString.
Import ListNotations.
Open Scope list_scope.
Open Scope string_scope.
Set Warnings "-register-all".

(* ===================================================================== *)
(** * Python values and exceptions *)
(* ===================================================================== *)

(** What [json.loads] produces.  [str] values are sequences of code points
    below 256; a [dict] is an association list read by first match. *)
Inductive value : Type :=
| VNone
| VBool (b : bool)
| VInt (z : Z)
| VFloat (f : float)
| VStr (s : string)
| VList (l : list value)
| VDict (d : list (string * value)).

Inductive exn_kind : Type :=
| TypeError
| AttributeError
| KeyError
| IndexError
| ValueError
| JSONDecodeError
| RequestException
| HTTPException (status_code : Z).

(** An exception with the text that [str(e)] gives; for an [HTTPException]
    the text is its [detail]. *)
Record exn : Type := Exn { kind : exn_kind; str_of : string }.

Inductive result (A : Type) : Type :=
| Ok (a : A)
| Raise (e : exn).
Arguments Ok {A} a.
Arguments Raise {A} e.

Definition rbind {A B} (m : result A) (k : A -> result B) : result B :=
  match m with
  | Ok a => k a
  | Raise e => Raise e
  end.

Notation "x <~ m ;; k" := (rbind m (fun x => k))
  (at level 61, m at next level, right associativity).

Definition type_name (v : value) : string :=
  match v with
  | VNone => "NoneType"
  | VBool _ => "bool"
  | VInt _ => "int"
  | VFloat _ => "float"
  | VStr _ => "str"
  | VList _ => "list"
  | VDict _ => "dict"
  end.

(** [bool(v)] *)
Definition truthy (v : value) : bool :=
  match v with
  | VNone => false
  | VBool b => b
  | VInt z => negb (z =? 0)%Z
  | VFloat f => negb (PrimFloat.eqb f 0%float)
  | VStr s => negb (s =? "")
  | VList l => match l with [] => false | _ :: _ => true end
  | VDict d => match d with [] => false | _ :: _ => true end
  end.

(** [a or b], with [b] possibly raising. *)
Definition py_or (a b : result value) : result value :=
  x <~ a ;; if truthy x then Ok x else b.

(** [a and b] on conditions, short-circuit. *)
Definition py_and (a b : result bool) : result bool :=
  x <~ a ;; if x then b else Ok false.

Fixpoint dict_get (d : list (string * value)) (k : string) : option value :=
  match d with
  | [] => None
  | (k', v) :: d' => if k' =? k then Some v else dict_get d' k
  end.

(** [needle in hay] for two [str]. *)
Definition str_contains (needle hay : string) : bool :=
  match index 0 needle hay with
  | Some _ => true
  | None => false
  end.

Definition is_str (k : string) (v : value) : bool :=
  match v with
  | VStr s => s =? k
  | _ => false
  end.

(** [k in v] for a [str] constant [k]. *)
Definition py_in (k : string) (v : value) : result bool :=
  match v with
  | VDict d => Ok (match dict_get d k with Some _ => true | None => false end)
  | VList l => Ok (existsb (is_str k) l)
  | VStr s => Ok (str_contains k s)
  | _ => Raise (Exn TypeError
                 ("argument of type '" ++ type_name v ++ "' is not iterable"))
  end.

(** [v[k]] for a [str] key [k]. *)
Definition py_getitem (v : value) (k : string) : result value :=
  match v with
  | VDict d => match dict_get d k with
               | Some x => Ok x
               | None => Raise (Exn KeyError ("'" ++ k ++ "'"))
               end
  | VList _ => Raise (Exn TypeError
                 "list indices must be integers or slices, not str")
  | VStr _ => Raise (Exn TypeError "string indices must be integers, not 'str'")
  | _ => Raise (Exn TypeError
                 ("'" ++ type_name v ++ "' object is not subscriptable"))
  end.

(** [v[0]] *)
Definition py_getitem0 (v : value) : result value :=
  match v with
  | VList l => match l with
               | x :: _ => Ok x
               | [] => Raise (Exn IndexError "list index out of range")
               end
  | VStr s => match s with
              | String c _ => Ok (VStr (String c ""))
              | EmptyString => Raise (Exn IndexError "string index out of range")
              end
  | VDict _ => Raise (Exn KeyError "0")
  | _ => Raise (Exn TypeError
                 ("'" ++ type_name v ++ "' object is not subscriptable"))
  end.

(** [len(v)]; a [dict] counts its distinct keys. *)
Definition py_len (v : value) : result nat :=
  match v with
  | VList l => Ok (List.length l)
  | VStr s => Ok (String.length s)
  | VDict d => Ok (List.length (nodup string_dec (map fst d)))
  | _ => Raise (Exn TypeError
                 ("object of type '" ++ type_name v ++ "' has no len()"))
  end.

(** [v.get(k, default)] *)
Definition py_get (v : value) (k : string) (default : value) : result value :=
  match v with
  | VDict d => Ok (match dict_get d k with Some x => x | None => default end)
  | _ => Raise (Exn AttributeError
                 ("'" ++ type_name v ++ "' object has no attribute 'get'"))
  end.

Fixpoint chars (s : string) : list value :=
  match s with
  | EmptyString => []
  | String c s' => VStr (String c "") :: chars s'
  end.

(** The items that [for x in v[:5]] visits. *)
Definition py_iter_first5 (v : value) : result (list value) :=
  match v with
  | VList l => Ok (firstn 5 l)
  | VStr s => Ok (firstn 5 (chars s))
  | VDict _ => Raise (Exn TypeError "unhashable type: 'slice'")
  | _ => Raise (Exn TypeError
                 ("'" ++ type_name v ++ "' object is not subscriptable"))
  end.

Definition isinstance_list (v : value) : bool :=
  match v with
  | VList _ => true
  | _ => false
  end.

(** [Optional[str]] as a Python value. *)
Definition of_opt (o : option string) : value :=
  match o with
  | Some s => VStr s
  | None => VNone
  end.

(** Truth value of an [Optional[str]]. *)
Definition truthy_opt (o : option string) : bool :=
  match o with
  | Some (String _ _) => true
  | _ => false
  end.

(** [a or b] on [Optional[str]]. *)
Definition opt_or (a b : option string) : option string :=
  if truthy_opt a then a else b.

(** [d.get(k)] on a [dict] whose values are [str] or [None]. *)
Fixpoint opt_dict_get (d : list (string * option string)) (k : string)
    : option string :=
  match d with
  | [] => None
  | (k', v) :: d' => if k' =? k then v else opt_dict_get d' k
  end.

(** ** [str] methods *)

Definition code (c : ascii) : nat := nat_of_ascii c.

(** [c.isspace()] for a code point below 256. *)
Definition isspace (c : ascii) : bool :=
  ((9 <=? code c) && (code c <=? 13))%nat
  || ((28 <=? code c) && (code c <=? 32))%nat
  || (code c =? 133)%nat || (code c =? 160)%nat.

Fixpoint lstrip (s : string) : string :=
  match s with
  | String c s' => if isspace c then lstrip s' else s
  | EmptyString => EmptyString
  end.

Definition reverse (s : string) : string :=
  string_of_list_ascii (rev (list_ascii_of_string s)).

(** [s.strip()] *)
Definition strip (s : string) : string :=
  reverse (lstrip (reverse (lstrip s))).

(** [s.startswith(p)] *)
Definition startswith (s p : string) : bool := prefix p s.

(** [s.endswith(p)] *)
Definition endswith (s p : string) : bool := prefix (reverse p) (reverse s).

(** [s[n:]] *)
Definition drop_prefix (n : nat) (s : string) : string :=
  substring n (String.length s - n) s.

(** [s[:-n]] for [0 < n] *)
Definition drop_suffix (n : nat) (s : string) : string :=
  substring 0 (String.length s - n) s.

Definition newline : string := String (ascii_of_nat 10) "".

(** [c.lower()] for a code point below 256. *)
Definition lower_char (c : ascii) : ascii :=
  if (((65 <=? code c) && (code c <=? 90))
      || ((192 <=? code c) && (code c <=? 222) && negb (code c =? 215)))%nat
  then ascii_of_nat (code c + 32)
  else c.

(** [s.lower()] *)
Fixpoint lower (s : string) : string :=
  match s with
  | String c s' => String (lower_char c) (lower s')
  | EmptyString => EmptyString
  end.

(** [v < 0.3]: a [bool] counts as 0 or 1, an [int] is compared exactly (it
    is below 0.3 when it is at most 0), a [float] by the IEEE comparison. *)
Definition lt_threshold (v : value) : result bool :=
  match v with
  | VBool b => Ok (negb b)
  | VInt z => Ok (z <=? 0)%Z
  | VFloat f => Ok (PrimFloat.ltb f 0x1.3333333333333p-2%float)
  | _ => Raise (Exn TypeError
                 ("'<' not supported between instances of '"
                    ++ type_name v ++ "' and 'float'"))
  end.

(* ===================================================================== *)
(** * The upstream HTTP API and the handler monad *)
(* ===================================================================== *)

(** The arguments of one [requests.get]. *)
Record request : Type := Request {
  url : string;
  params : list (string * value);
  headers : list (string * value)
}.

(** What one [requests.get] does: it raises (the service is unreachable, a
    timeout), or it returns a response with its [ok] flag and what
    [response.json()] will do. *)
Inductive outcome : Type :=
| Unreachable (e : exn)
| Response (ok : bool) (json : result value).

(** The answer of the upstream service to the [n]-th call of a handler. *)
Definition upstream_api : Type := nat -> request -> outcome.

(** A handler computation: it counts the upstream calls made so far. *)
Definition M (A : Type) : Type := upstream_api -> nat -> result A * nat.

Definition ret {A} (a : A) : M A := fun _ n => (Ok a, n).

Definition raise {A} (e : exn) : M A := fun _ n => (Raise e, n).

Definition bind {A B} (m : M A) (k : A -> M B) : M B :=
  fun up n =>
    match m up n with
    | (Ok a, n') => k a up n'
    | (Raise e, n') => (Raise e, n')
    end.

Notation "x <- m ;; k" := (bind m (fun x => k))
  (at level 61, m at next level, right associativity).

Definition lift {A} (r : result A) : M A := fun _ n => (r, n).

(** [try: m  except Exception as e: h e] *)
Definition try_except {A} (m : M A) (h : exn -> M A) : M A :=
  fun up n =>
    match m up n with
    | (Ok a, n') => (Ok a, n')
    | (Raise e, n') => h e up n'
    end.

(** [requests.get(url, params=..., headers=...)], giving [(response.ok,
    response.json())]. *)
Definition requests_get (r : request) : M (bool * result value) :=
  fun up n =>
    match up n r with
    | Unreachable e => (Raise e, S n)
    | Response ok json => (Ok (ok, json), S n)
    end.

(* ===================================================================== *)
(** * database.py *)
(* ===================================================================== *)

(** The tables, one record per row.  Columns the handlers test for
    emptiness keep their [NULL]. *)
Module User.
Record t : Type := mk {
  id : Z;
  email : string;
  username : string;
  hashed_password : string
}.
End User.

Module UserPreference.
Record t : Type := mk {
  id : Z;
  user_id : Z;
  movie_name : option string;
  book_name : option string;
  place_name : option string;
  age : option string;
  gender : option string
}.
End UserPreference.

Module SavedItem.
Record t : Type := mk {
  id : Z;
  user_id : Z;
  item_id : option string;
  item_name : string;
  item_type : string;
  item_image : string;
  item_description : string;
  favorited : bool;
  saved_at : Z
}.
End SavedItem.

(** What a [Session] reads and writes; rows are kept in insertion order, the
    order in which [.first()] and [.all()] see them. *)
Record database : Type := Database {
  users : list User.t;
  user_preferences : list UserPreference.t;
  saved_items : list SavedItem.t
}.

(** [db.query(User).filter(User.username == username).first()] *)
Definition query_user (db : database) (username : string) : option User.t :=
  find (fun u => User.username u =? username) (users db).

(** [db.query(UserPreference).filter(UserPreference.user_id == uid).first()] *)
Definition query_preference (db : database) (uid : Z)
    : option UserPreference.t :=
  find (fun p => (UserPreference.user_id p =? uid)%Z) (user_preferences db).

Definition item_id_is (iid : string) (row : SavedItem.t) : bool :=
  match SavedItem.item_id row with
  | Some s => s =? iid
  | None => false
  end.

(** The filter [SavedItem.user_id == uid, SavedItem.item_id == iid]. *)
Definition saved_item_matches (uid : Z) (iid : string) (row : SavedItem.t)
    : bool :=
  (SavedItem.user_id row =? uid)%Z && item_id_is iid row.

Definition query_saved_item (db : database) (uid : Z) (iid : string)
    : option SavedItem.t :=
  find (saved_item_matches uid iid) (saved_items db).

(* ===================================================================== *)
(** * routes.py *)
(* ===================================================================== *)

Module PreferenceInput.
Record t : Type := mk {
  book_name : option string;
  movie_name : option string;
  place_name : option string;
  age : option string;
  gender : option string
}.
End PreferenceInput.

(** The [dict] that [get_current_user] returns; the handlers read ["id"]. *)
Record current_user_dict : Type := CurrentUser { cu_id : Z }.

Section routes.

(** [app.auth.get_current_user], imported from a module outside this tree.
    [get_current_user_optional] calls it without arguments. *)
Variable get_current_user : unit -> result current_user_dict.

Definition get_current_user_optional : option current_user_dict :=
  match get_current_user tt with
  | Ok user => Some user
  | Raise _ => None
  end.

(** Module-level configuration, read from the environment at import. *)
Variable QLOO_API_BASE : string.
Variable QLOO_API_KEY : option string.

Definition HEADERS : list (string * value) :=
  [("accept", VStr "application/json"); ("x-api-key", of_opt QLOO_API_KEY)].

(** [data['results'][0].get('entity_id')] *)
Definition first_result_entity_id (data : value) : result value :=
  results <~ py_getitem data "results" ;;
  first <~ py_getitem0 results ;;
  py_get first "entity_id" VNone.

(** The body of [if response.ok:] in [fetch_entity_id]; falling out of the
    [if]/[elif] reaches [return None]. *)
Definition entity_id_of_data (data : value) : result value :=
  new_format <~ py_and (py_in "results" data)
                  (results <~ py_getitem data "results" ;;
                   n <~ py_len results ;;
                   Ok (0 <? n)%nat) ;;
  if new_format then first_result_entity_id data
  else
    old_format <~ py_and (Ok (isinstance_list data))
                    (py_and (n <~ py_len data ;; Ok (0 <? n)%nat)
                            (first <~ py_getitem0 data ;;
                             py_in "entity_id" first)) ;;
    if old_format then
      first <~ py_getitem0 data ;;
      py_getitem first "entity_id"
    else Ok VNone.

Definition search_request (name entity_type : string) : request :=
  {| url := QLOO_API_BASE ++ "/search";
     params := [("query", VStr name);
                ("types", VStr ("urn:entity:" ++ entity_type))];
     headers := HEADERS |}.

Definition fetch_entity_id (name entity_type : string) : M value :=
  if negb (truthy_opt QLOO_API_KEY) then ret VNone
  else
    try_except
      (response <- requests_get (search_request name entity_type) ;;
       let (ok, json) := response in
       if ok then
         data <- lift json ;;
         lift (entity_id_of_data data)
       else ret VNone)
      (fun _ => ret VNone).

(** [if 'results' in data and 'entities' in data['results']] *)
Definition has_results_entities (data : value) : result bool :=
  py_and (py_in "results" data)
         (results <~ py_getitem data "results" ;; py_in "entities" results).

(** [data['results']['entities']] *)
Definition results_entities (data : value) : result value :=
  results <~ py_getitem data "results" ;; py_getitem results "entities".

(** [",".join(entity_ids)]: a [TypeError] unless every item is a [str]. *)
Fixpoint join_comma (entity_ids : list value) (i : nat) : result string :=
  match entity_ids with
  | [] => Ok ""
  | v :: rest =>
      match v with
      | VStr s =>
          match rest with
          | [] => Ok s
          | _ :: _ => tl <~ join_comma rest (S i) ;; Ok (s ++ "," ++ tl)
          end
      | _ => Raise (Exn TypeError
               ("sequence item " ++ NilZero.string_of_uint (Nat.to_uint i)
                  ++ ": expected str instance, " ++ type_name v ++ " found"))
      end
  end.

Definition insights_url : string := QLOO_API_BASE ++ "/v2/insights".

(** The shared tail of [get_insights] and [get_popular_books]. *)
Definition entities_or_empty (r : request) : M value :=
  try_except
    (response <- requests_get r ;;
     let (ok, json) := response in
     if ok then
       data <- lift json ;;
       found <- lift (has_results_entities data) ;;
       if found then lift (results_entities data) else ret (VList [])
     else ret (VList []))
    (fun _ => ret (VList [])).

Definition get_insights (entity_ids : list value) (age gender : option string)
    (domain : string) : M value :=
  joined_ids <- lift (join_comma entity_ids 0) ;;
  entities_or_empty
    {| url := insights_url;
       params := [("filter.type", VStr ("urn:entity:" ++ domain));
                  ("signal.interests.entities", VStr joined_ids);
                  ("signal.demographics.age", of_opt age);
                  ("signal.demographics.gender", of_opt gender);
                  ("feature.explainability", VStr "true");
                  ("take", VStr "10")];
       headers := HEADERS |}.

Definition get_popular_books (entity_ids : list value)
    (age gender : option string) : M value :=
  entities_or_empty
    {| url := insights_url;
       params := [("filter.type", VStr "urn:entity:book");
                  ("filter.popularity.min", VStr "0.95");
                  ("feature.explainability", VStr "true");
                  ("take", VStr "10")];
       headers := HEADERS |}.

(** ** [search_entities] *)

(** [details.get(k) or details.get('properties', {}).get(k)] *)
Definition top_or_property (details : value) (k : string) : result value :=
  py_or (py_get details k VNone)
        (properties <~ py_get details "properties" (VDict []) ;;
         py_get properties k VNone).

(** The four candidates for the image, in order. *)
Definition image_url_of (details : value) : result value :=
  py_or (py_get details "image_url" VNone)
    (py_or (py_get details "image" VNone)
      (py_or (py_get details "cover_image" VNone)
        (guard <~ py_get details "properties" VNone ;;
         if truthy guard then
           properties <~ py_get details "properties" (VDict []) ;;
           image <~ py_get properties "image" (VDict []) ;;
           py_get image "url" VNone
         else Ok VNone))).

(** [details.get('goodreads_id') or details.get('external', {}).get('goodreads')] *)
Definition goodreads_of (details : value) : result value :=
  py_or (py_get details "goodreads_id" VNone)
        (external <~ py_get details "external" (VDict []) ;;
         py_get external "goodreads" VNone).

(** The normalizer: the [entity] built from [details] in the loop of
    [search_entities]. *)
Definition normalize (details : value) (query entity_type : string)
    : result value :=
  image_url <~ image_url_of details ;;
  entity_id <~ py_get details "entity_id" VNone ;;
  name <~ py_get details "name" (VStr query) ;;
  rating <~ py_get details "rating" VNone ;;
  rating_count <~ py_get details "rating_count" VNone ;;
  author <~ py_get details "author" VNone ;;
  short_description <~ top_or_property details "short_description" ;;
  description <~ top_or_property details "description" ;;
  publication_year <~ top_or_property details "publication_year" ;;
  publication_date <~ top_or_property details "publication_date" ;;
  genre <~ top_or_property details "genre" ;;
  page_count <~ top_or_property details "page_count" ;;
  language <~ top_or_property details "language" ;;
  publisher <~ top_or_property details "publisher" ;;
  isbn13 <~ top_or_property details "isbn13" ;;
  format <~ top_or_property details "format" ;;
  has_goodreads <~ goodreads_of details ;;
  external <~ (if truthy has_goodreads then
                 goodreads <~ goodreads_of details ;;
                 Ok (VDict [("goodreads", goodreads)])
               else Ok VNone) ;;
  Ok (VDict
        [("entity_id", entity_id);
         ("name", name);
         ("type", VStr entity_type);
         ("image", image_url);
         ("image_url", image_url);
         ("rating", rating);
         ("rating_count", rating_count);
         ("author", author);
         ("properties",
          VDict [("short_description", short_description);
                 ("description", description);
                 ("publication_year", publication_year);
                 ("publication_date", publication_date);
                 ("genre", genre);
                 ("page_count", page_count);
                 ("language", language);
                 ("publisher", publisher);
                 ("isbn13", isbn13);
                 ("format", format);
                 ("image", if truthy image_url
                           then VDict [("url", image_url)] else VNone)]);
         ("external", external)]).

Definition entity_details_request (entity_type : string) (entity_id : value)
    : request :=
  {| url := insights_url;
     params := [("filter.type", VStr ("urn:entity:" ++ entity_type));
                ("filter.entity_id", entity_id);
                ("feature.explainability", VStr "true");
                ("take", VStr "1")];
     headers := HEADERS |}.

(** The condition that guards [full_details = ...['entities'][0]]. *)
Definition has_first_entity (insights_data : value) : result bool :=
  py_and (py_in "results" insights_data)
    (py_and (results <~ py_getitem insights_data "results" ;;
             py_in "entities" results)
            (entities <~ results_entities insights_data ;;
             n <~ py_len entities ;;
             Ok (0 <? n)%nat)).

(** [full_details] for one search result: the guarded insights lookup. *)
Definition full_details_of (entity_type : string) (entity_id : value)
    : M value :=
  if truthy entity_id then
    try_except
      (insights_response <- requests_get
                              (entity_details_request entity_type entity_id) ;;
       let (ok, json) := insights_response in
       if ok then
         insights_data <- lift json ;;
         found <- lift (has_first_entity insights_data) ;;
         if found then
           lift (entities <~ results_entities insights_data ;;
                 py_getitem0 entities)
         else ret VNone
       else ret VNone)
      (fun _ => ret VNone)
  else ret VNone.

(** [for result in data['results'][:5]: ... entities.append(entity)] *)
Fixpoint collect_entities (query entity_type : string) (results : list value)
    (entities : list value) : M (list value) :=
  match results with
  | [] => ret entities
  | result :: rest =>
      entity_id <- lift (py_get result "entity_id" VNone) ;;
      full_details <- full_details_of entity_type entity_id ;;
      let details := if truthy full_details then full_details else result in
      entity <- lift (normalize details query entity_type) ;;
      collect_entities query entity_type rest (entities ++ [entity])%list
  end.

(** The first block of the handler: the details of the resolved entity.
    [Some r] stands for [return r], [None] for falling through. *)
Definition resolved_entity_details (entity_type : string) (entity_id : value)
    : M (option value) :=
  if truthy entity_id then
    response <- requests_get (entity_details_request entity_type entity_id) ;;
    let (ok, json) := response in
    if ok then
      data <- lift json ;;
      found <- lift (has_results_entities data) ;;
      if found then
        entities <- lift (results_entities data) ;;
        ret (Some (VDict [("results", entities)]))
      else ret None
    else ret None
  else ret None.

(** The second block: the direct search, inside its own [try]. *)
Definition direct_search (query entity_type : string) : M (option value) :=
  try_except
    (response <- requests_get (search_request query entity_type) ;;
     let (ok, json) := response in
     if ok then
       data <- lift json ;;
       nonempty <- lift (py_and (py_in "results" data)
                           (results <~ py_getitem data "results" ;;
                            n <~ py_len results ;;
                            Ok (0 <? n)%nat)) ;;
       if nonempty then
         results <- lift (results <~ py_getitem data "results" ;;
                          py_iter_first5 results) ;;
         entities <- collect_entities query entity_type results [] ;;
         ret (Some (VDict [("results", VList entities)]))
       else ret None
     else ret None)
    (fun _ => ret None).

Definition search_entities (query entity_type : string) : M value :=
  try_except
    (entity_id <- fetch_entity_id query entity_type ;;
     details <- resolved_entity_details entity_type entity_id ;;
     match details with
     | Some r => ret r
     | None =>
         direct <- direct_search query entity_type ;;
         match direct with
         | Some r => ret r
         | None => ret (VDict [("results", VList [])])
         end
     end)
    (fun e => raise (Exn (HTTPException 500) ("Search failed: " ++ str_of e))).

(** ** [get_recommendations] *)

(** [user_preferences]: the stored row as a [dict], or [{}]. *)
Definition user_preferences_of (db : database)
    (current_user : option current_user_dict)
    : list (string * option string) :=
  match current_user with
  | Some user =>
      match query_preference db (cu_id user) with
      | Some user_pref =>
          [("book_name", UserPreference.book_name user_pref);
           ("movie_name", UserPreference.movie_name user_pref);
           ("place_name", UserPreference.place_name user_pref);
           ("age", UserPreference.age user_pref);
           ("gender", UserPreference.gender user_pref)]
      | None => []
      end
  | None => []
  end.

(** [[item.item_id for item in saved_items if item.item_id]] *)
Fixpoint item_ids (rows : list SavedItem.t) : list string :=
  match rows with
  | [] => []
  | item :: rest =>
      match SavedItem.item_id item with
      | Some (String c s) => String c s :: item_ids rest
      | _ => item_ids rest
      end
  end.

(** [favorite_entities]: the ids of the rows with [user_id == id] and
    [favorited == True]. *)
Definition favorite_entities_of (db : database)
    (current_user : option current_user_dict) : list string :=
  match current_user with
  | Some user =>
      item_ids
        (filter (fun item => (SavedItem.user_id item =? cu_id user)%Z
                             && SavedItem.favorited item)
                (saved_items db))
  | None => []
  end.

(** [preference.x or user_preferences.get("x")], for the five fields. *)
Definition effective_preferences (preference : PreferenceInput.t)
    (user_preferences : list (string * option string)) : PreferenceInput.t :=
  {| PreferenceInput.book_name :=
       opt_or (PreferenceInput.book_name preference)
              (opt_dict_get user_preferences "book_name");
     PreferenceInput.movie_name :=
       opt_or (PreferenceInput.movie_name preference)
              (opt_dict_get user_preferences "movie_name");
     PreferenceInput.place_name :=
       opt_or (PreferenceInput.place_name preference)
              (opt_dict_get user_preferences "place_name");
     PreferenceInput.age :=
       opt_or (PreferenceInput.age preference)
              (opt_dict_get user_preferences "age");
     PreferenceInput.gender :=
       opt_or (PreferenceInput.gender preference)
              (opt_dict_get user_preferences "gender") |}.

(** [if name: id = fetch_entity_id(name, t); if id: entity_ids.append(id)] *)
Definition append_resolved (name : option string) (entity_type : string)
    (entity_ids : list value) : M (list value) :=
  match name with
  | Some (String c s) =>
      id <- fetch_entity_id (String c s) entity_type ;;
      ret (if truthy id then (entity_ids ++ [id])%list else entity_ids)
  | _ => ret entity_ids
  end.

(** The ids resolved from the book, movie and place names, in this order. *)
Definition resolved_ids (effective : PreferenceInput.t) : M (list value) :=
  ids <- append_resolved (PreferenceInput.book_name effective) "book" [] ;;
  ids <- append_resolved (PreferenceInput.movie_name effective) "movie" ids ;;
  append_resolved (PreferenceInput.place_name effective) "place" ids.

(** [entity_ids] when the handler reaches [if not entity_ids]. *)
Definition signal_set (effective : PreferenceInput.t)
    (favorite_entities : list string) : M (list value) :=
  entity_ids <- resolved_ids effective ;;
  ret (match favorite_entities with
       | [] => entity_ids
       | _ :: _ => (entity_ids ++ map VStr favorite_entities)%list
       end).

Definition message_no_api_key : string :=
  "API key not configured. Please set QLOO_API_KEY in your .env file.".

Definition message_no_preferences : string :=
  "No preferences found. Please set your preferences first.".

Definition empty_recommendations (message : string) : value :=
  VDict [("book_recs", VList []);
         ("popular_books", VList []);
         ("movie_recs", VList []);
         ("tv_show_recs", VList []);
         ("message", VStr message)].

Definition get_recommendations (preference : PreferenceInput.t)
    (db : database) : M value :=
  let current_user := get_current_user_optional in
  let user_preferences := user_preferences_of db current_user in
  let favorite_entities := favorite_entities_of db current_user in
  let effective := effective_preferences preference user_preferences in
  entity_ids <- signal_set effective favorite_entities ;;
  match entity_ids with
  | [] =>
      if negb (truthy_opt QLOO_API_KEY)
      then ret (empty_recommendations message_no_api_key)
      else ret (empty_recommendations message_no_preferences)
  | _ :: _ =>
      let age := PreferenceInput.age effective in
      let gender := PreferenceInput.gender effective in
      book_recs <- get_insights entity_ids age gender "book" ;;
      popular_books <- get_popular_books entity_ids age gender ;;
      movie_recs <- get_insights entity_ids age gender "movie" ;;
      tv_show_recs <- get_insights entity_ids age gender "tv_show" ;;
      ret (VDict [("book_recs", book_recs);
                  ("popular_books", popular_books);
                  ("movie_recs", movie_recs);
                  ("tv_show_recs", tv_show_recs)])
  end.

End routes.

(* ===================================================================== *)
(** * auth_routes.py *)
(* ===================================================================== *)

Module UserLogin.
Record t : Type := mk { username : string; password : string }.
End UserLogin.

Module Token.
Record t : Type := mk { access_token : string; token_type : string }.
End Token.

(** [1 +] the largest primary key in use. *)
Definition next_id (ids : list Z) : Z :=
  (1 + fold_right Z.max 0 ids)%Z.

(** Apply [f] to the row that [.first()] returns for the filter [p]. *)
Fixpoint update_first {A} (p : A -> bool) (f : A -> A) (rows : list A)
    : list A :=
  match rows with
  | [] => []
  | row :: rest =>
      if p row then f row :: rest else row :: update_first p f rest
  end.

Definition unauthorized {A} (detail : string) : result A :=
  Raise (Exn (HTTPException 401) detail).

Section auth_routes.

(** From [app.auth], a module outside this tree. *)
Variable verify_password : string -> string -> bool.
Variable verify_token : string -> option string.
Variable create_access_token : string -> Z -> string.
Variable ACCESS_TOKEN_EXPIRE_MINUTES : Z.

Definition login (user_data : UserLogin.t) (db : database) : result Token.t :=
  match query_user db (UserLogin.username user_data) with
  | None => unauthorized "Incorrect username or password"
  | Some user =>
      if negb (verify_password (UserLogin.password user_data)
                               (User.hashed_password user))
      then unauthorized "Incorrect username or password"
      else
        Ok {| Token.access_token :=
                create_access_token (User.username user)
                                    ACCESS_TOKEN_EXPIRE_MINUTES;
              Token.token_type := "bearer" |}
  end.

(** The assignments to the five columns, from [preferences.get(...)]. *)
Definition assign_preferences (preferences : list (string * option string))
    (row : UserPreference.t) : UserPreference.t :=
  {| UserPreference.id := UserPreference.id row;
     UserPreference.user_id := UserPreference.user_id row;
     UserPreference.movie_name := opt_dict_get preferences "movie_name";
     UserPreference.book_name := opt_dict_get preferences "book_name";
     UserPreference.place_name := opt_dict_get preferences "place_name";
     UserPreference.age := opt_dict_get preferences "age";
     UserPreference.gender := opt_dict_get preferences "gender" |}.

(** The request body is a [dict]; its values are [str] or [None], what the
    [String] columns hold. *)
Definition save_preferences (preferences : list (string * option string))
    (token : string) (db : database) : result value * database :=
  match verify_token token with
  | None => (unauthorized "Could not validate credentials", db)
  | Some username =>
      match query_user db username with
      | None => (unauthorized "User not found", db)
      | Some user =>
          let owned p := (UserPreference.user_id p =? User.id user)%Z in
          let rows :=
            match query_preference db (User.id user) with
            | Some existing_pref =>
                update_first owned (assign_preferences preferences)
                             (user_preferences db)
            | None =>
                (user_preferences db ++
                 [assign_preferences preferences
                    {| UserPreference.id :=
                         next_id (map UserPreference.id (user_preferences db));
                       UserPreference.user_id := User.id user;
                       UserPreference.movie_name := None;
                       UserPreference.book_name := None;
                       UserPreference.place_name := None;
                       UserPreference.age := None;
                       UserPreference.gender := None |}])%list
            end in
          (Ok (VDict [("message", VStr "Preferences saved successfully")]),
           {| users := users db;
              user_preferences := rows;
              saved_items := saved_items db |})
      end
  end.

(** The body of [GET /preferences] once the user is resolved. *)
Definition stored_preferences (db : database) (uid : Z)
    : list (string * option string) :=
  match query_preference db uid with
  | None => []
  | Some preferences =>
      [("movie_name", UserPreference.movie_name preferences);
       ("book_name", UserPreference.book_name preferences);
       ("place_name", UserPreference.place_name preferences);
       ("age", UserPreference.age preferences);
       ("gender", UserPreference.gender preferences)]
  end.

End auth_routes.

(* ===================================================================== *)
(** * saved_items_routes.py *)
(* ===================================================================== *)

Module SavedItemCreate.
Record t : Type := mk {
  item_id : string;
  item_name : string;
  item_type : string;
  item_image : string;
  item_description : string;
  favorited : bool
}.
End SavedItemCreate.

Module SavedItemResponse.
Record t : Type := mk {
  id : Z;
  item_id : string;
  item_name : string;
  item_type : string;
  item_image : string;
  item_description : string;
  favorited : bool;
  saved_at : Z
}.
End SavedItemResponse.

Definition set_favorited (b : bool) (row : SavedItem.t) : SavedItem.t :=
  {| SavedItem.id := SavedItem.id row;
     SavedItem.user_id := SavedItem.user_id row;
     SavedItem.item_id := SavedItem.item_id row;
     SavedItem.item_name := SavedItem.item_name row;
     SavedItem.item_type := SavedItem.item_type row;
     SavedItem.item_image := SavedItem.item_image row;
     SavedItem.item_description := SavedItem.item_description row;
     SavedItem.favorited := b;
     SavedItem.saved_at := SavedItem.saved_at row |}.

(** [SavedItemResponse(id=row.id, item_id=row.item_id, ...)]; the response
    model requires [item_id] to be a [str], and a validation error is caught
    by the handler's [except Exception] (the text after the prefix stands
    for the validator's). *)
Definition response_of (row : SavedItem.t) : result SavedItemResponse.t :=
  match SavedItem.item_id row with
  | Some iid =>
      Ok {| SavedItemResponse.id := SavedItem.id row;
            SavedItemResponse.item_id := iid;
            SavedItemResponse.item_name := SavedItem.item_name row;
            SavedItemResponse.item_type := SavedItem.item_type row;
            SavedItemResponse.item_image := SavedItem.item_image row;
            SavedItemResponse.item_description :=
              SavedItem.item_description row;
            SavedItemResponse.favorited := SavedItem.favorited row;
            SavedItemResponse.saved_at := SavedItem.saved_at row |}
  | None =>
      Raise (Exn (HTTPException 500)
               "Database error: validation error for SavedItemResponse")
  end.

Section saved_items_routes.

Variable verify_token : string -> option string.

(** [now] is the clock of the store, the [server_default] of [saved_at]. *)
Definition save_item (item : SavedItemCreate.t) (token : string) (now : Z)
    (db : database) : result SavedItemResponse.t * database :=
  if (SavedItemCreate.item_id item =? "")
     || (SavedItemCreate.item_name item =? "")
  then (Raise (Exn (HTTPException 400) "item_id and item_name are required"),
        db)
  else
    match verify_token token with
    | None => (unauthorized "Could not validate credentials", db)
    | Some username =>
        match query_user db username with
        | None => (unauthorized "User not found", db)
        | Some user =>
            let mine :=
              saved_item_matches (User.id user)
                                 (SavedItemCreate.item_id item) in
            match query_saved_item db (User.id user)
                                   (SavedItemCreate.item_id item) with
            | Some existing_item =>
                if negb (Bool.eqb (SavedItem.favorited existing_item)
                                  (SavedItemCreate.favorited item))
                then
                  (response_of
                     (set_favorited (SavedItemCreate.favorited item)
                                    existing_item),
                   {| users := users db;
                      user_preferences := user_preferences db;
                      saved_items :=
                        update_first mine
                          (set_favorited (SavedItemCreate.favorited item))
                          (saved_items db) |})
                else (response_of existing_item, db)
            | None =>
                let saved_item :=
                  {| SavedItem.id :=
                       next_id (map SavedItem.id (saved_items db));
                     SavedItem.user_id := User.id user;
                     SavedItem.item_id := Some (SavedItemCreate.item_id item);
                     SavedItem.item_name := SavedItemCreate.item_name item;
                     SavedItem.item_type := SavedItemCreate.item_type item;
                     SavedItem.item_image := SavedItemCreate.item_image item;
                     SavedItem.item_description :=
                       SavedItemCreate.item_description item;
                     SavedItem.favorited := SavedItemCreate.favorited item;
                     SavedItem.saved_at := now |} in
                (response_of saved_item,
                 {| users := users db;
                    user_preferences := user_preferences db;
                    saved_items := (saved_items db ++ [saved_item])%list |})
            end
        end
    end.

End saved_items_routes.

(* ===================================================================== *)
(** * gemini_routes.py *)
(* ===================================================================== *)

Module GeminiQuery.
Record t : Type := mk { query : string; entity_type : string }.
End GeminiQuery.

(** The response model; a field left at its default is [VNone].
    [confidence] holds the number that was passed, which the model reads as
    a [float]. *)
Module GeminiResponse.
Record t : Type := mk {
  success : bool;
  entity_name : value;
  entity_type : value;
  confidence : value;
  explanation : value
}.
End GeminiResponse.

(** What [model.generate_content(prompt)] and then [response.text] do. *)
Inductive generation : Type :=
| GenerateRaises (e : exn)
| TextRaises (e : exn)
| Text (text : string).

Definition failure (explanation : string) : GeminiResponse.t :=
  {| GeminiResponse.success := false;
     GeminiResponse.entity_name := VNone;
     GeminiResponse.entity_type := VNone;
     GeminiResponse.confidence := VNone;
     GeminiResponse.explanation := VStr explanation |}.

(** The two slices that remove a Markdown fence, then [strip]. *)
Definition unfence (text : string) : string :=
  let response_text := strip text in
  let response_text :=
    if startswith response_text "```json"
    then drop_prefix 7 response_text else response_text in
  let response_text :=
    if endswith response_text "```"
    then drop_suffix 3 response_text else response_text in
  strip response_text.

(** The [except Exception as e] branch of the handler. *)
Definition map_error (e : exn) : exn :=
  let error_message := str_of e in
  if str_contains "429" error_message
     || str_contains "quota" (lower error_message)
  then Exn (HTTPException 429)
         "Gemini API rate limit exceeded. Please try again later or use exact search mode."
  else if str_contains "404" error_message
          && str_contains "model" (lower error_message)
  then Exn (HTTPException 503)
         "Gemini model not available. Please check API configuration."
  else Exn (HTTPException 500)
         ("Failed to process natural language query: " ++ error_message).

Definition isinstance_str (v : value) : bool :=
  match v with
  | VStr _ => true
  | _ => false
  end.

(** Whether the [float] field of the response model takes the number: a
    [float] or a [bool] always, an [int] when its conversion to a float does
    not overflow, that is, when it rounds to a finite double. *)
Definition fits_float (v : value) : bool :=
  match v with
  | VFloat _ => true
  | VBool _ => true
  | VInt z => (Z.abs z <? 2 ^ 1024 - 2 ^ 970)%Z
  | _ => false
  end.

(** The arguments of [GeminiResponse(success=True, entity_name=...,
    entity_type=..., confidence=..., explanation=...)] that the model
    refuses, in the order of its fields: a [str] field takes only a [str]. *)
Definition rejected_fields (entity_name entity_type confidence explanation
                            : value) : list (string * value) :=
  ((if isinstance_str entity_name then [] else [("entity_name", entity_name)])
   ++ (if isinstance_str entity_type then []
       else [("entity_type", entity_type)])
   ++ (if fits_float confidence then [] else [("confidence", confidence)])
   ++ (if isinstance_str explanation then []
       else [("explanation", explanation)]))%list.

Section gemini_routes.

(** [json.loads]: [None] stands for [json.JSONDecodeError]. *)
Variable json_loads : string -> option value.

(** How an f-string prints a value. *)
Variable format : value -> string.

(** Whether the module-level [model] was constructed. *)
Variable model_available : bool.

(** The generative service; the prompt is a fixed template filled with the
    two fields of the query. *)
Variable generate_content : GeminiQuery.t -> generation.

(** The text of the validation error that the response model raises for the
    fields it refuses. *)
Variable validation_message : list (string * value) -> string.

(** The statements after [result = json.loads(response_text)]. *)
Definition validate (loaded : value) : result GeminiResponse.t :=
  entity_name <~ py_get loaded "entity_name" VNone ;;
  missing <~ (if negb (truthy entity_name) then Ok true
              else entity_type <~ py_get loaded "entity_type" VNone ;;
                   Ok (negb (truthy entity_type))) ;;
  if (missing : bool) then
    Ok (failure "Could not extract a valid entity name from the response")
  else
    confidence <~ py_get loaded "confidence" (VInt 0) ;;
    low <~ lt_threshold confidence ;;
    if (low : bool) then
      Ok (failure ("Low confidence (" ++ format confidence
                     ++ ") in the suggested entity"))
    else
      entity_name <~ py_getitem loaded "entity_name" ;;
      entity_type <~ py_getitem loaded "entity_type" ;;
      explanation <~ py_get loaded "explanation" (VStr "") ;;
      match rejected_fields entity_name entity_type confidence explanation
      with
      | [] =>
          Ok {| GeminiResponse.success := true;
                GeminiResponse.entity_name := entity_name;
                GeminiResponse.entity_type := entity_type;
                GeminiResponse.confidence := confidence;
                GeminiResponse.explanation := explanation |}
      | rejected => Raise (Exn ValueError (validation_message rejected))
      end.

(** The outer [try] block. *)
Definition convert_body (query : GeminiQuery.t) : result GeminiResponse.t :=
  match generate_content query with
  | GenerateRaises e => Raise e
  | TextRaises e => Raise e
  | Text text =>
      match json_loads (unfence text) with
      | None => Ok (failure "Failed to parse Gemini response")
      | Some loaded => validate loaded
      end
  end.

Definition convert_natural_language (query : GeminiQuery.t)
    : result GeminiResponse.t :=
  if negb model_available then
    Raise (Exn (HTTPException 503)
             "Gemini model not available - check API key and model configuration")
  else
    match convert_body query with
    | Ok response => Ok response
    | Raise e => Raise (map_error e)
    end.

End gemini_routes.

(* ===================================================================== *)
(** * Predicates and sample inputs used in the statements *)
(* ===================================================================== *)

(** Upstream responses in which no entity matches: an empty result list in
    either shape, no result list at all, or a first result without an
    [entity_id]. *)
Inductive no_match : value -> Prop :=
| no_match_empty_results d :
    dict_get d "results" = Some (VList []) -> no_match (VDict d)
| no_match_no_results d :
    dict_get d "results" = None -> no_match (VDict d)
| no_match_empty_array :
    no_match (VList [])
| no_match_first_result d r rest :
    dict_get d "results" = Some (VList (VDict r :: rest)) ->
    dict_get r "entity_id" = None ->
    no_match (VDict d)
| no_match_first_item r rest :
    dict_get r "entity_id" = None ->
    no_match (VList (VDict r :: rest)).

(** The outcomes of the search call that count as a failed resolution: the
    call raises, the status is not ok, the body cannot be read, or the body
    holds no match. *)
Inductive resolution_failure : outcome -> Prop :=
| failure_transport e : resolution_failure (Unreachable e)
| failure_status json : resolution_failure (Response false json)
| failure_body e : resolution_failure (Response true (Raise e))
| failure_no_match data :
    no_match data -> resolution_failure (Response true (Ok data)).

(** An object that carries an [entity_id]. *)
Definition is_entity_object (v : value) : bool :=
  match v with
  | VDict d => match dict_get d "entity_id" with
               | Some _ => true
               | None => false
               end
  | _ => false
  end.

Definition sample_upstream_array : upstream_api :=
  fun _ _ =>
    Response true
      (Ok (VList [VDict [("entity_id", VStr "E1"); ("name", VStr "Dune")];
                  VDict [("entity_id", VStr "E2")]])).

Definition sample_upstream_wrapped : upstream_api :=
  fun _ _ =>
    Response true
      (Ok (VDict
             [("results",
               VList [VDict [("entity_id", VStr "E1"); ("name", VStr "Dune")];
                      VDict [("entity_id", VStr "E2")]])])).

Definition sample_upstream_down : upstream_api :=
  fun _ _ => Unreachable (Exn RequestException "Connection refused").


(** The keys that [normalize] consults besides [entity_id] and [name]. *)
Definition optional_fields : list string :=
  ["image_url"; "image"; "cover_image"; "properties"; "rating";
   "rating_count"; "author"; "short_description"; "description";
   "publication_year"; "publication_date"; "genre"; "page_count";
   "language"; "publisher"; "isbn13"; "format"; "goodreads_id"; "external"].

Definition lacks (d : list (string * value)) (k : string) : bool :=
  match dict_get d k with
  | Some _ => false
  | None => true
  end.

(** A record without any of the optional fields. *)
Definition lacks_optional_fields (d : list (string * value)) : bool :=
  forallb (lacks d) optional_fields.

(** [e[k]] of a normalized entity, [None] when [e] has no such key. *)
Definition attribute (e : value) (k : string) : option value :=
  match e with
  | VDict d => dict_get d k
  | _ => None
  end.

(** [e["properties"][k]] *)
Definition property (e : value) (k : string) : option value :=
  match attribute e "properties" with
  | Some p => attribute p k
  | None => None
  end.

Definition sample_bare_record : list (string * value) :=
  [("entity_id", VStr "E1"); ("name", VStr "Dune")].

(** The search finds an entity; the lookup of its details that follows
    cannot reach the service. *)
Definition sample_upstream_insights_down : upstream_api :=
  fun n _ =>
    match n with
    | 0 =>
        Response true
          (Ok (VDict [("results",
                       VList [VDict [("entity_id", VStr "E1");
                                     ("name", VStr "Dune")]])]))
    | _ => Unreachable (Exn RequestException "Connection refused")
    end.

(** The search finds an entity; the lookup of its details answers with a
    body that is not JSON. *)
Definition sample_upstream_insights_garbled : upstream_api :=
  fun n _ =>
    match n with
    | 0 =>
        Response true
          (Ok (VDict [("results",
                       VList [VDict [("entity_id", VStr "E1");
                                     ("name", VStr "Dune")]])]))
    | _ => Response true (Raise (Exn JSONDecodeError "Expecting value"))
    end.

Definition sample_preference_row : UserPreference.t :=
  {| UserPreference.id := 1;
     UserPreference.user_id := 7;
     UserPreference.movie_name := None;
     UserPreference.book_name := Some "Dune";
     UserPreference.place_name := None;
     UserPreference.age := Some "35_and_younger";
     UserPreference.gender := None |}.

Definition sample_favorite : SavedItem.t :=
  {| SavedItem.id := 1;
     SavedItem.user_id := 7;
     SavedItem.item_id := Some "E9";
     SavedItem.item_name := "Arrival";
     SavedItem.item_type := "movie";
     SavedItem.item_image := "";
     SavedItem.item_description := "";
     SavedItem.favorited := true;
     SavedItem.saved_at := 0 |}.

Definition sample_database : database :=
  {| users := [ {| User.id := 7; User.email := "a@x.com";
                   User.username := "alice";
                   User.hashed_password := "hash-of-pw123" |} ];
     user_preferences := [sample_preference_row];
     saved_items := [sample_favorite] |}.

Definition empty_database : database :=
  {| users := []; user_preferences := []; saved_items := [] |}.

Definition no_preference : PreferenceInput.t :=
  {| PreferenceInput.book_name := None;
     PreferenceInput.movie_name := None;
     PreferenceInput.place_name := None;
     PreferenceInput.age := None;
     PreferenceInput.gender := None |}.

(** A request that sends an empty book name. *)
Definition empty_book_preference : PreferenceInput.t :=
  {| PreferenceInput.book_name := Some "";
     PreferenceInput.movie_name := None;
     PreferenceInput.place_name := None;
     PreferenceInput.age := None;
     PreferenceInput.gender := None |}.

Definition signed_in_as (uid : Z) : unit -> result current_user_dict :=
  fun _ => Ok (CurrentUser uid).

Definition not_signed_in : unit -> result current_user_dict :=
  fun _ => Raise (Exn (HTTPException 401) "Could not validate credentials").

(** Stand-ins for [app.auth] on the sample data. *)
Definition sample_verify_password (plain hashed : string) : bool :=
  hashed =? "hash-of-" ++ plain.

Definition sample_create_access_token (subject : string) (minutes : Z)
    : string :=
  "token-for-" ++ subject.

Definition sample_verify_token (token : string) : option string :=
  if token =? "token-for-alice" then Some "alice" else None.

Definition sample_item (favorited : bool) : SavedItemCreate.t :=
  {| SavedItemCreate.item_id := "m1";
     SavedItemCreate.item_name := "Dune";
     SavedItemCreate.item_type := "movie";
     SavedItemCreate.item_image := "";
     SavedItemCreate.item_description := "";
     SavedItemCreate.favorited := favorited |}.

(** The number of rows stored for a pair (account, item id). *)
Definition rows_for (uid : Z) (iid : string) (db : database) : nat :=
  List.length (filter (saved_item_matches uid iid) (saved_items db)).

(** The five fields of a preference row. *)
Definition preference_fields : list string :=
  ["movie_name"; "book_name"; "place_name"; "age"; "gender"].

(** The row that [save_item] adds for an item never saved before. *)
Definition new_row (item : SavedItemCreate.t) (uid : Z) (now : Z)
    (db : database) : SavedItem.t :=
  {| SavedItem.id := next_id (map SavedItem.id (saved_items db));
     SavedItem.user_id := uid;
     SavedItem.item_id := Some (SavedItemCreate.item_id item);
     SavedItem.item_name := SavedItemCreate.item_name item;
     SavedItem.item_type := SavedItemCreate.item_type item;
     SavedItem.item_image := SavedItemCreate.item_image item;
     SavedItem.item_description := SavedItemCreate.item_description item;
     SavedItem.favorited := SavedItemCreate.favorited item;
     SavedItem.saved_at := now |}.


(** A stand-in for [json.loads] on the sample texts: the empty array, one
    object, and nothing else. *)
Definition sample_json_loads (text : string) : option value :=
  if text =? "[]" then Some (VList [])
  else if text =? "{}" then Some (VDict [])
  else None.

Definition sample_format (v : value) : string := type_name v.

Definition sample_query : GeminiQuery.t :=
  {| GeminiQuery.query := "a book about a wizard school";
     GeminiQuery.entity_type := "book" |}.

(** The service answers with an empty JSON array inside a Markdown fence. *)
Definition sample_generation_array : GeminiQuery.t -> generation :=
  fun _ => Text ("```json" ++ newline ++ "[]" ++ newline ++ "```" ++ newline).

(** The search finds an entity; every lookup of details answers with an
    error status. *)
Definition sample_upstream_insights_error_status : upstream_api :=
  fun n _ =>
    match n with
    | 0 | 2 =>
        Response true
          (Ok (VDict [("results",
                       VList [VDict [("entity_id", VStr "E1");
                                     ("name", VStr "Dune")]])]))
    | _ => Response false (Ok (VDict [("error", VStr "unavailable")]))
    end.

(** A record whose [properties] field is [null]. *)
Definition sample_null_properties_record : list (string * value) :=
  [("entity_id", VStr "E1"); ("name", VStr "Dune"); ("properties", VNone)].

(* ===================================================================== *)
(** * auth_routes.py: the remaining handlers *)
(* ===================================================================== *)

Module UserCreate.
Record t : Type := mk {
  username : string;
  email : string;
  password : string
}.
End UserCreate.

Module UserResponse.
Record t : Type := mk {
  id : Z;
  username : string;
  email : string
}.
End UserResponse.

(** The filter [(User.username == username) | (User.email == email)]. *)
Definition same_username_or_email (username email : string) (u : User.t)
    : bool :=
  (User.username u =? username) || (User.email u =? email).

(** The block every protected handler starts with: [verify_token], then the
    lookup of the account, each failing with status 401. *)
Definition resolve_user (verify_token : string -> option string)
    (token : string) (db : database) : result User.t :=
  match verify_token token with
  | None => unauthorized "Could not validate credentials"
  | Some username =>
      match query_user db username with
      | None => unauthorized "User not found"
      | Some user => Ok user
      end
  end.

Section auth_routes_accounts.

(** From [app.auth], a module outside this tree. *)
Variable get_password_hash : string -> string.
Variable verify_token : string -> option string.
Variable create_access_token : string -> Z -> string.
Variable ACCESS_TOKEN_EXPIRE_MINUTES : Z.

Definition register (user_data : UserCreate.t) (db : database)
    : result Token.t * database :=
  match find (same_username_or_email (UserCreate.username user_data)
                                     (UserCreate.email user_data))
             (users db) with
  | Some existing_user =>
      (Raise (Exn (HTTPException 400) "Username or email already registered"),
       db)
  | None =>
      let db_user :=
        {| User.id := next_id (map User.id (users db));
           User.email := UserCreate.email user_data;
           User.username := UserCreate.username user_data;
           User.hashed_password :=
             get_password_hash (UserCreate.password user_data) |} in
      (Ok {| Token.access_token :=
               create_access_token (User.username db_user)
                                   ACCESS_TOKEN_EXPIRE_MINUTES;
             Token.token_type := "bearer" |},
       {| users := (users db ++ [db_user])%list;
          user_preferences := user_preferences db;
          saved_items := saved_items db |})
  end.

(** [GET /me].  The two [raise HTTPException(401)] sit inside the [try]
    whose [except Exception] answers with status 500. *)
Definition get_current_user_info (token : string) (db : database)
    : result UserResponse.t :=
  match resolve_user verify_token token db with
  | Ok user =>
      Ok {| UserResponse.id := User.id user;
            UserResponse.username := User.username user;
            UserResponse.email := User.email user |}
  | Raise e => Raise (Exn (HTTPException 500) "Internal server error")
  end.

(** [GET /preferences]: [except HTTPException: raise] lets the 401 pass. *)
Definition get_preferences (token : string) (db : database)
    : result (list (string * option string)) :=
  match resolve_user verify_token token db with
  | Ok user => Ok (stored_preferences db (User.id user))
  | Raise e => Raise e
  end.

End auth_routes_accounts.

(* ===================================================================== *)
(** * saved_items_routes.py: the remaining handlers *)
(* ===================================================================== *)

(** [db.delete(row)] for the row that [.first()] returned for [p]. *)
Fixpoint delete_first {A} (p : A -> bool) (rows : list A) : list A :=
  match rows with
  | [] => []
  | row :: rest => if p row then rest else row :: delete_first p rest
  end.

(** [SavedItemResponse(...)] outside any [try]: a row without [item_id]
    fails the validation of the response model (the text stands for the
    validator's). *)
Definition listed_response_of (row : SavedItem.t)
    : result SavedItemResponse.t :=
  match SavedItem.item_id row with
  | Some iid =>
      Ok {| SavedItemResponse.id := SavedItem.id row;
            SavedItemResponse.item_id := iid;
            SavedItemResponse.item_name := SavedItem.item_name row;
            SavedItemResponse.item_type := SavedItem.item_type row;
            SavedItemResponse.item_image := SavedItem.item_image row;
            SavedItemResponse.item_description :=
              SavedItem.item_description row;
            SavedItemResponse.favorited := SavedItem.favorited row;
            SavedItemResponse.saved_at := SavedItem.saved_at row |}
  | None => Raise (Exn ValueError "validation error for SavedItemResponse")
  end.

(** The list comprehension of [get_saved_items]. *)
Fixpoint listed_responses (rows : list SavedItem.t)
    : result (list SavedItemResponse.t) :=
  match rows with
  | [] => Ok []
  | row :: rest =>
      response <~ listed_response_of row ;;
      responses <~ listed_responses rest ;;
      Ok (response :: responses)
  end.

Section saved_items_routes_rest.

Variable verify_token : string -> option string.

Definition get_saved_items (token : string) (db : database)
    : result (list SavedItemResponse.t) :=
  user <~ resolve_user verify_token token db ;;
  listed_responses
    (filter (fun item => (SavedItem.user_id item =? User.id user)%Z)
            (saved_items db)).

Definition remove_saved_item (item_id : string) (token : string)
    (db : database) : result value * database :=
  match resolve_user verify_token token db with
  | Raise e => (Raise e, db)
  | Ok user =>
      match query_saved_item db (User.id user) item_id with
      | None =>
          (Raise (Exn (HTTPException 404) "Saved item not found"), db)
      | Some saved_item =>
          (Ok (VDict [("message", VStr "Item removed from saved list")]),
           {| users := users db;
              user_preferences := user_preferences db;
              saved_items :=
                delete_first (saved_item_matches (User.id user) item_id)
                             (saved_items db) |})
      end
  end.

Definition check_if_saved (item_id : string) (token : string)
    (db : database) : result value :=
  user <~ resolve_user verify_token token db ;;
  Ok (VDict [("is_saved",
              VBool (match query_saved_item db (User.id user) item_id with
                     | Some _ => true
                     | None => false
                     end))]).

End saved_items_routes_rest.

(* ===================================================================== *)
(** * Further predicates and sample inputs *)
(* ===================================================================== *)

Definition is_vstr (v : value) : bool :=
  match v with
  | VStr _ => true
  | _ => false
  end.

(** The outcomes of an insights call that give no entities: the call
    raises, the status is not ok, the body cannot be read, or the body is an
    object without [results]. *)
Inductive insights_failure : outcome -> Prop :=
| insights_transport e : insights_failure (Unreachable e)
| insights_status json : insights_failure (Response false json)
| insights_body e : insights_failure (Response true (Raise e))
| insights_no_results d :
    dict_get d "results" = None ->
    insights_failure (Response true (Ok (VDict d))).

Definition dict_or_absent (o : option value) : bool :=
  match o with
  | None => true
  | Some (VDict _) => true
  | Some _ => false
  end.

(** A record whose [external] and [properties] fields, when present, are
    objects, and likewise the [image] field of [properties]. *)
Definition well_shaped (d : list (string * value)) : bool :=
  dict_or_absent (dict_get d "external")
  && match dict_get d "properties" with
     | None => true
     | Some (VDict p) => dict_or_absent (dict_get p "image")
     | Some _ => false
     end.

Definition well_shaped_value (v : value) : bool :=
  match v with
  | VDict d => well_shaped d
  | _ => false
  end.

(** The entries of [properties] that are merged from two places. *)
Definition property_keys : list string :=
  ["short_description"; "description"; "publication_year";
   "publication_date"; "genre"; "page_count"; "language"; "publisher";
   "isbn13"; "format"].

(** [d.get(k)] as a value. *)
Definition get_or_none (d : list (string * value)) (k : string) : value :=
  match dict_get d k with
  | Some v => v
  | None => VNone
  end.

(** From call [n] on, no call gets an ok response. *)
Definition down_from (n : nat) (up : upstream_api) : Prop :=
  forall m req, n <= m ->
    (exists e, up m req = Unreachable e)
    \/ (exists json, up m req = Response false json).

(** The search answers with a numeric entity id. *)
Definition sample_upstream_numeric_id : upstream_api :=
  fun _ _ =>
    Response true (Ok (VDict [("results", VList [VDict [("entity_id", VInt 42)]])])).

Definition dune_preference : PreferenceInput.t :=
  {| PreferenceInput.book_name := Some "Dune";
     PreferenceInput.movie_name := None;
     PreferenceInput.place_name := None;
     PreferenceInput.age := None;
     PreferenceInput.gender := None |}.

Definition sample_full_record : list (string * value) :=
  [("entity_id", VStr "E1"); ("name", VStr "Dune");
   ("image", VStr "https://img/dune.jpg");
   ("description", VStr "");
   ("properties",
    VDict [("description", VStr "A desert planet.");
           ("genre", VStr "science fiction");
           ("image", VDict [("url", VStr "https://img/other.jpg")])])].

(** The search finds two records; no later call gets through. *)
Definition sample_upstream_search_only : upstream_api :=
  fun n _ =>
    match n with
    | 0 =>
        Response true
          (Ok (VDict [("results",
                       VList [VDict sample_full_record;
                              VDict sample_bare_record])]))
    | _ => Unreachable (Exn RequestException "Connection refused")
    end.

(** The top-level candidates for the image, in the order they are tried. *)
Definition image_candidates : list string :=
  ["image_url"; "image"; "cover_image"].

(** [properties.image.url], the last candidate: consulted when
    [properties] is truthy. *)
Definition nested_image_url (d : list (string * value)) : value :=
  match dict_get d "properties" with
  | Some (VDict (kv :: p)) =>
      match dict_get (kv :: p) "image" with
      | Some (VDict i) => get_or_none i "url"
      | _ => VNone
      end
  | _ => VNone
  end.

Definition sample_get_password_hash (plain : string) : string :=
  "hash-of-" ++ plain.

Definition sample_registration : UserCreate.t :=
  {| UserCreate.username := "bob";
     UserCreate.email := "b@x.com";
     UserCreate.password := "hunter2" |}.

(** A token codec on the sample data: [sample_create_access_token] read
    back. *)
Definition sample_decode_token (token : string) : option string :=
  if prefix "token-for-" token
  then Some (substring 10 (String.length token - 10) token)
  else None.

(** The rows of the preference table that belong to an account. *)
Definition preference_rows_of (uid : Z) (db : database)
    : list UserPreference.t :=
  filter (fun p => (UserPreference.user_id p =? uid)%Z) (user_preferences db).

(** The body that [GET /preferences] returns for a stored request body. *)
Definition preferences_view (preferences : list (string * option string))
    : list (string * option string) :=
  [("movie_name", opt_dict_get preferences "movie_name");
   ("book_name", opt_dict_get preferences "book_name");
   ("place_name", opt_dict_get preferences "place_name");
   ("age", opt_dict_get preferences "age");
   ("gender", opt_dict_get preferences "gender")].

(** A row whose [item_id] is a non-empty [str], as [save_item] writes it. *)
Definition has_item_id (row : SavedItem.t) : bool :=
  match SavedItem.item_id row with
  | Some (String _ _) => true
  | _ => false
  end.

(** Every stored row has an item id. *)
Definition all_have_item_id (db : database) : bool :=
  forallb has_item_id (saved_items db).

(** The bodies of [check_if_saved]. *)
Definition is_saved (b : bool) : value := VDict [("is_saved", VBool b)].

Definition sample_other_item : SavedItem.t :=
  {| SavedItem.id := 2;
     SavedItem.user_id := 9;
     SavedItem.item_id := Some "m1";
     SavedItem.item_name := "Dune";
     SavedItem.item_type := "movie";
     SavedItem.item_image := "";
     SavedItem.item_description := "";
     SavedItem.favorited := false;
     SavedItem.saved_at := 5 |}.

(** Two accounts; the second one has saved the item "m1". *)
Definition sample_database_two : database :=
  {| users := [ {| User.id := 7; User.email := "a@x.com";
                   User.username := "alice";
                   User.hashed_password := "hash-of-pw123" |};
                {| User.id := 9; User.email := "c@x.com";
                   User.username := "carol";
                   User.hashed_password := "hash-of-secret" |} ];
     user_preferences := [sample_preference_row];
     saved_items := [sample_favorite; sample_other_item] |}.

(** The object that the sample service answer stands for. *)
Definition sample_answer : list (string * value) :=
  [("entity_name", VStr "Friends");
   ("entity_type", VStr "tv_show");
   ("confidence", VFloat 0x1.3333333333333p-2%float);
   ("explanation", VStr "A show about friends in New York")].

(** The same without a confidence. *)
Definition sample_answer_without_confidence : list (string * value) :=
  [("entity_name", VStr "Friends"); ("entity_type", VStr "tv_show")].

(** A stand-in for [json.loads] on two sample texts. *)
Definition sample_json_loads_answers (text : string) : option value :=
  if text =? "answer" then Some (VDict sample_answer)
  else if text =? "short answer"
       then Some (VDict sample_answer_without_confidence)
  else None.

Definition sample_generation_answer : GeminiQuery.t -> generation :=
  fun _ => Text " answer ".

Definition sample_generation_short_answer : GeminiQuery.t -> generation :=
  fun _ => Text "short answer".

Definition sample_generation_quota : GeminiQuery.t -> generation :=
  fun _ => GenerateRaises (Exn ValueError "Quota exceeded for this project").

(** A stand-in for the printing of a value inside an f-string, on the
    sample values. *)
Definition sample_render (v : value) : string :=
  match v with
  | VInt 0 => "0"
  | VStr s => s
  | _ => type_name v
  end.

(** The entity id of the first object of an array, [None] for the empty
    array. *)
Definition first_entity_id (objs : list value) : value :=
  match objs with
  | VDict r :: _ => get_or_none r "entity_id"
  | _ => VNone
  end.

(** Modelled from the spec: [app.auth.get_current_user], of which this tree
    has only the import and the call in [routes.py].  Section 4.2: a
    protected operation extracts the bearer token from the request,
    validates it, resolves it to an account, and fails with Unauthorized
    when a step fails.  [credentials] is the bearer token of the request,
    [None] when the function is given none. *)
Definition auth_get_current_user (verify_token : string -> option string)
    (credentials : option string) (db : database)
    : result current_user_dict :=
  match credentials with
  | None => unauthorized "Could not validate credentials"
  | Some token =>
      user <~ resolve_user verify_token token db ;;
      Ok (CurrentUser (User.id user))
  end.

(** [get_current_user()] as [get_current_user_optional] calls it: without
    arguments, hence without the credentials of the request. *)
Definition get_current_user_without_arguments
    (verify_token : string -> option string) (db : database)
    : unit -> result current_user_dict :=
  fun _ => auth_get_current_user verify_token None db.

(** A stand-in for the text of the validation error. *)
Definition sample_validation_message (rejected : list (string * value))
    : string :=
  "validation error for GeminiResponse".

(** The first call gets a list of books; no later call gets through. *)
Definition sample_upstream_books_only : upstream_api :=
  fun n _ =>
    match n with
    | 0 =>
        Response true
          (Ok (VDict [("results",
                       VDict [("entities",
                               VList [VDict [("name", VStr "Hyperion")]])])]))
    | 2 => Response false (Ok VNone)
    | _ => Unreachable (Exn RequestException "Connection refused")
    end.

(* ===================================================================== *)
(** * Properties of the entity resolver *)
(* ===================================================================== *)

Section resolver_properties.

Variable QLOO_API_BASE : string.
Variable QLOO_API_KEY : option string.

Local Abbreviation fetch := (fetch_entity_id QLOO_API_BASE QLOO_API_KEY).
Local Abbreviation request_for := (search_request QLOO_API_BASE QLOO_API_KEY).

(** The resolver makes at most one call and never raises. *)
Lemma fetch_entity_id_returns name entity_type (up : upstream_api) n :
  exists v n', fetch name entity_type up n = (Ok v, n').
Proof.
  unfold fetch_entity_id.
  destruct (truthy_opt QLOO_API_KEY); cbn [negb]; [| now eexists; eexists].
  unfold try_except, bind, requests_get, lift, ret.
  destruct (up n (request_for name entity_type)) as [e | ok json].
  - now eexists; eexists.
  - destruct ok; [| now eexists; eexists].
    destruct json as [data | e]; [| now eexists; eexists].
    destruct (entity_id_of_data data); now eexists; eexists.
Qed.

Lemma fetch_entity_id_without_key name entity_type (up : upstream_api) n :
  truthy_opt QLOO_API_KEY = false ->
  fetch name entity_type up n = (Ok VNone, n).
Proof. intros H. unfold fetch_entity_id. now rewrite H. Qed.

(** With a key, the result is read off the outcome of the one call. *)
Lemma fetch_entity_id_with_key name entity_type (up : upstream_api) n :
  truthy_opt QLOO_API_KEY = true ->
  fetch name entity_type up n =
  (match up n (request_for name entity_type) with
   | Response true (Ok data) =>
       match entity_id_of_data data with
       | Ok v => Ok v
       | Raise _ => Ok VNone
       end
   | _ => Ok VNone
   end, S n).
Proof.
  intros H. unfold fetch_entity_id. rewrite H. cbn [negb].
  unfold try_except, bind, requests_get, lift, ret.
  destruct (up n (request_for name entity_type)) as [e | ok json];
    [reflexivity |].
  destruct ok; [| reflexivity].
  destruct json as [data | e]; [| reflexivity].
  destruct (entity_id_of_data data); reflexivity.
Qed.

Lemma no_match_gives_none data :
  no_match data ->
  match entity_id_of_data data with
  | Ok v => v = VNone
  | Raise _ => True
  end.
Proof.
  intros H. destruct H as [d H | d H | | d r rest H1 H2 | r rest H].
  - unfold entity_id_of_data, py_and, py_in, py_getitem, rbind.
    rewrite H. reflexivity.
  - unfold entity_id_of_data, py_and, py_in, rbind.
    rewrite H. reflexivity.
  - reflexivity.
  - unfold entity_id_of_data, first_result_entity_id, py_and, py_in,
      py_getitem, rbind.
    rewrite H1. cbn. now rewrite H2.
  - unfold entity_id_of_data, py_and, py_in, rbind.
    cbn [existsb is_str orb].
    destruct (existsb (is_str "results") rest); [exact I |].
    cbn. now rewrite H.
Qed.

Lemma entity_objects_hold_no_str k objs :
  forallb is_entity_object objs = true -> existsb (is_str k) objs = false.
Proof.
  induction objs as [| o rest IH]; [reflexivity |].
  cbn [forallb existsb]. intros H.
  apply andb_true_iff in H as [Ho Hrest].
  rewrite (IH Hrest). destruct o; try discriminate Ho. reflexivity.
Qed.

Lemma entity_id_of_data_both_shapes objs d :
  forallb is_entity_object objs = true ->
  dict_get d "results" = Some (VList objs) ->
  entity_id_of_data (VList objs) = entity_id_of_data (VDict d).
Proof.
  intros Hobjs Hd.
  unfold entity_id_of_data, first_result_entity_id, py_and, py_in,
    py_getitem, rbind.
  rewrite Hd, (entity_objects_hold_no_str "results" objs Hobjs).
  destruct objs as [| o rest]; [reflexivity |].
  cbn [forallb] in Hobjs. apply andb_true_iff in Hobjs as [Ho _].
  destruct o as [| | | | | | r]; try discriminate Ho.
  cbn in Ho |- *.
  destruct (dict_get r "entity_id"); [reflexivity | discriminate Ho].
Qed.

(** C8: on a transport failure, a non-ok status, an unreadable body or a
    response without a matching entity, [fetch_entity_id] returns [None];
    it does not raise, whatever the name and the category. *)
Theorem fetch_entity_id_none_on_failure name entity_type
    (up : upstream_api) n :
  resolution_failure (up n (request_for name entity_type)) ->
  exists n', fetch name entity_type up n = (Ok VNone, n').
Proof.
  intros H.
  destruct (truthy_opt QLOO_API_KEY) eqn:Hkey.
  - exists (S n). rewrite (fetch_entity_id_with_key _ _ _ _ Hkey).
    destruct H as [e | json | e | data Hdata]; try reflexivity.
    apply no_match_gives_none in Hdata.
    destruct (entity_id_of_data data); [now subst | reflexivity].
  - exists n. now apply fetch_entity_id_without_key.
Qed.

Lemma entity_id_of_array objs :
  forallb is_entity_object objs = true ->
  entity_id_of_data (VList objs) = Ok (first_entity_id objs).
Proof.
  intros Hobjs.
  unfold entity_id_of_data, py_and, py_in, rbind.
  rewrite (entity_objects_hold_no_str "results" objs Hobjs).
  destruct objs as [| o rest]; [reflexivity |].
  cbn [forallb] in Hobjs. apply andb_true_iff in Hobjs as [Ho _].
  destruct o as [| | | | | | r]; try discriminate Ho.
  cbn in Ho |- *. unfold get_or_none.
  destruct (dict_get r "entity_id"); [reflexivity | discriminate Ho].
Qed.

(** C6: when the upstream answers with a bare array of objects that carry
    an [entity_id], and when it answers with the same array under the key
    [results], [fetch_entity_id] returns the same entity id: with a key and
    an ok status it is the [entity_id] of the first object in both cases
    ([None] for the empty array), and [None] in both cases otherwise. *)
Theorem fetch_entity_id_array_or_wrapped name entity_type
    (up_array up_wrapped : upstream_api) n ok objs d :
  forallb is_entity_object objs = true ->
  dict_get d "results" = Some (VList objs) ->
  up_array n (request_for name entity_type) = Response ok (Ok (VList objs)) ->
  up_wrapped n (request_for name entity_type) = Response ok (Ok (VDict d)) ->
  let entity_id :=
    if truthy_opt QLOO_API_KEY && ok then first_entity_id objs else VNone in
  let calls := if truthy_opt QLOO_API_KEY then S n else n in
  fetch name entity_type up_array n = (Ok entity_id, calls)
  /\ fetch name entity_type up_wrapped n = (Ok entity_id, calls).
Proof.
  intros Hobjs Hd Harray Hwrapped entity_id calls. subst entity_id calls.
  destruct (truthy_opt QLOO_API_KEY) eqn:Hkey; cbn [andb].
  - rewrite !(fetch_entity_id_with_key _ _ _ _ Hkey), Harray, Hwrapped.
    rewrite <- (entity_id_of_data_both_shapes objs d Hobjs Hd).
    rewrite (entity_id_of_array objs Hobjs).
    now destruct ok.
  - now rewrite !(fetch_entity_id_without_key _ _ _ _ Hkey).
Qed.

(** With a key, an ok status and a first object whose id is [x], both
    shapes resolve to [x]. *)
Lemma fetch_entity_id_first_id name entity_type (up : upstream_api) n
    r rest x :
  truthy_opt QLOO_API_KEY = true ->
  dict_get r "entity_id" = Some x ->
  forallb is_entity_object rest = true ->
  up n (request_for name entity_type)
    = Response true (Ok (VList (VDict r :: rest))) ->
  fetch name entity_type up n = (Ok x, S n).
Proof.
  intros Hkey Hr Hrest Hup.
  rewrite (fetch_entity_id_with_key _ _ _ _ Hkey), Hup.
  unfold entity_id_of_data, py_and, py_in, rbind.
  cbn [existsb is_str orb].
  rewrite (entity_objects_hold_no_str "results" rest Hrest).
  cbn. now rewrite Hr.
Qed.

End resolver_properties.

Lemma fetch_entity_id_none_on_failure_witness :
  exists n',
    fetch_entity_id "https://hackathon.api.qloo.com" (Some "key")
      "Dune" "book" sample_upstream_down 0 = (Ok VNone, n').
Proof.
  apply fetch_entity_id_none_on_failure.
  unfold sample_upstream_down. constructor.
Defined.

Lemma fetch_entity_id_array_or_wrapped_witness :
  fetch_entity_id "https://hackathon.api.qloo.com" (Some "key")
    "Dune" "book" sample_upstream_array 0 = (Ok (VStr "E1"), 1)
  /\ fetch_entity_id "https://hackathon.api.qloo.com" (Some "key")
       "Dune" "book" sample_upstream_wrapped 0 = (Ok (VStr "E1"), 1).
Proof.
  apply (fetch_entity_id_array_or_wrapped "https://hackathon.api.qloo.com"
           (Some "key") "Dune" "book" sample_upstream_array
           sample_upstream_wrapped 0 true
           [VDict [("entity_id", VStr "E1"); ("name", VStr "Dune")];
            VDict [("entity_id", VStr "E2")]]
           [("results",
             VList [VDict [("entity_id", VStr "E1"); ("name", VStr "Dune")];
                    VDict [("entity_id", VStr "E2")]])]);
    reflexivity.
Defined.

Example fetch_entity_id_array_sample :
  fetch_entity_id "https://hackathon.api.qloo.com" (Some "key")
    "Dune" "book" sample_upstream_array 0 = (Ok (VStr "E1"), 1).
Proof. reflexivity. Qed.

Example fetch_entity_id_wrapped_sample :
  fetch_entity_id "https://hackathon.api.qloo.com" (Some "key")
    "Dune" "book" sample_upstream_wrapped 0 = (Ok (VStr "E1"), 1).
Proof. reflexivity. Qed.

(* ===================================================================== *)
(** * Properties of the normalizer *)
(* ===================================================================== *)

Lemma lacks_field d k :
  lacks_optional_fields d = true -> In k optional_fields ->
  dict_get d k = None.
Proof.
  unfold lacks_optional_fields. rewrite forallb_forall.
  intros H Hk. specialize (H k Hk). unfold lacks in H.
  now destruct (dict_get d k).
Qed.

Ltac absent_field H :=
  match goal with
  | |- context [dict_get ?d ?k] =>
      rewrite (lacks_field d k H) by (cbn; tauto)
  end.

(** C7: on a record that has none of the optional fields, [normalize] does
    not raise, and in the entity it returns the image, the rating, the
    author, every entry of [properties] (descriptions, publication year and
    date, genre, page count, language, publisher, isbn, format, image) and
    the external ids are [None]. *)
Theorem normalize_record_without_optional_fields d query entity_type :
  lacks_optional_fields d = true ->
  exists e,
    normalize (VDict d) query entity_type = Ok e
    /\ attribute e "image" = Some VNone
    /\ attribute e "image_url" = Some VNone
    /\ attribute e "rating" = Some VNone
    /\ attribute e "rating_count" = Some VNone
    /\ attribute e "author" = Some VNone
    /\ property e "short_description" = Some VNone
    /\ property e "description" = Some VNone
    /\ property e "publication_year" = Some VNone
    /\ property e "publication_date" = Some VNone
    /\ property e "genre" = Some VNone
    /\ property e "page_count" = Some VNone
    /\ property e "language" = Some VNone
    /\ property e "publisher" = Some VNone
    /\ property e "isbn13" = Some VNone
    /\ property e "format" = Some VNone
    /\ property e "image" = Some VNone
    /\ attribute e "external" = Some VNone.
Proof.
  intros H.
  unfold normalize, image_url_of, top_or_property, goodreads_of, py_or,
    py_get, rbind.
  repeat absent_field H.
  cbn.
  eexists. split; [reflexivity |].
  cbn. repeat split.
Qed.

Lemma normalize_record_without_optional_fields_witness :
  exists e,
    normalize (VDict sample_bare_record) "dune" "book" = Ok e
    /\ attribute e "image" = Some VNone
    /\ attribute e "image_url" = Some VNone
    /\ attribute e "rating" = Some VNone
    /\ attribute e "rating_count" = Some VNone
    /\ attribute e "author" = Some VNone
    /\ property e "short_description" = Some VNone
    /\ property e "description" = Some VNone
    /\ property e "publication_year" = Some VNone
    /\ property e "publication_date" = Some VNone
    /\ property e "genre" = Some VNone
    /\ property e "page_count" = Some VNone
    /\ property e "language" = Some VNone
    /\ property e "publisher" = Some VNone
    /\ property e "isbn13" = Some VNone
    /\ property e "format" = Some VNone
    /\ property e "image" = Some VNone
    /\ attribute e "external" = Some VNone.
Proof.
  apply normalize_record_without_optional_fields. reflexivity.
Defined.

(** A field that is present but [null] is another matter: with
    ["properties": null] the default of [.get('properties', {})] is not
    used and the next [.get] is called on [None]. *)
Example normalize_null_properties_raises :
  normalize (VDict sample_null_properties_record) "dune" "book"
  = Raise (Exn AttributeError "'NoneType' object has no attribute 'get'").
Proof. reflexivity. Qed.

(* ===================================================================== *)
(** * Properties of [search_entities] *)
(* ===================================================================== *)

Section search_properties.

Variable QLOO_API_BASE : string.
Variable QLOO_API_KEY : option string.

Local Abbreviation search := (search_entities QLOO_API_BASE QLOO_API_KEY).

(** Whatever the first block raises reaches the outer handler. *)
Lemma search_entities_first_block_raises query entity_type
    (up : upstream_api) n id n1 e n2 :
  fetch_entity_id QLOO_API_BASE QLOO_API_KEY query entity_type up n
    = (Ok id, n1) ->
  resolved_entity_details QLOO_API_BASE QLOO_API_KEY entity_type id up n1
    = (Raise e, n2) ->
  search query entity_type up n
  = (Raise (Exn (HTTPException 500) ("Search failed: " ++ str_of e)), n2).
Proof.
  intros Hfetch Hdetails.
  unfold search_entities, try_except, bind.
  now rewrite Hfetch, Hdetails.
Qed.

(** C3, at the failing input: the search call resolves an entity id and the
    call for its details then cannot reach the service.  The handler answers
    with status 500, not with a list of results. *)
Theorem search_entities_details_unreachable_is_500 query entity_type
    (up : upstream_api) n id e :
  fetch_entity_id QLOO_API_BASE QLOO_API_KEY query entity_type up n
    = (Ok id, S n) ->
  truthy id = true ->
  up (S n) (entity_details_request QLOO_API_BASE QLOO_API_KEY entity_type id)
    = Unreachable e ->
  search query entity_type up n
  = (Raise (Exn (HTTPException 500) ("Search failed: " ++ str_of e)),
     S (S n)).
Proof.
  intros Hfetch Hid Hup.
  apply (search_entities_first_block_raises _ _ _ _ _ _ _ _ Hfetch).
  unfold resolved_entity_details. rewrite Hid.
  unfold bind, requests_get. now rewrite Hup.
Qed.

End search_properties.

Lemma search_entities_details_unreachable_is_500_witness :
  search_entities "https://hackathon.api.qloo.com" (Some "key")
    "Dune" "book" sample_upstream_insights_down 0
  = (Raise (Exn (HTTPException 500) "Search failed: Connection refused"), 2).
Proof.
  apply (search_entities_details_unreachable_is_500
           "https://hackathon.api.qloo.com" (Some "key") "Dune" "book"
           sample_upstream_insights_down 0 (VStr "E1")
           (Exn RequestException "Connection refused"));
    reflexivity.
Defined.

(** The same when the details call answers with a body that is not JSON. *)
Example search_entities_details_garbled_is_500 :
  search_entities "https://hackathon.api.qloo.com" (Some "key")
    "Dune" "book" sample_upstream_insights_garbled 0
  = (Raise (Exn (HTTPException 500) "Search failed: Expecting value"), 2).
Proof. reflexivity. Qed.

(** When the search call itself fails, the handler degrades to an empty
    list: both calls to [/search] are guarded. *)
Example search_entities_search_down_is_empty :
  search_entities "https://hackathon.api.qloo.com" (Some "key")
    "Dune" "book" sample_upstream_down 0
  = (Ok (VDict [("results", VList [])]), 2).
Proof. reflexivity. Qed.

(** An error status on the details call is not an exception: the handler
    goes on to the direct search and builds the entity from the search
    record. *)
Example search_entities_details_error_status_degrades :
  exists entity,
    search_entities "https://hackathon.api.qloo.com" (Some "key")
      "Dune" "book" sample_upstream_insights_error_status 0
    = (Ok (VDict [("results", VList [entity])]), 4)
    /\ attribute entity "entity_id" = Some (VStr "E1")
    /\ attribute entity "name" = Some (VStr "Dune").
Proof. eexists. split; [reflexivity | split; reflexivity]. Qed.

(* ===================================================================== *)
(** * Properties of [get_recommendations] *)
(* ===================================================================== *)

Lemma item_ids_spec rows s :
  In s (item_ids rows) <->
  s <> "" /\ exists item, In item rows /\ SavedItem.item_id item = Some s.
Proof.
  induction rows as [| item rest IH]; cbn [item_ids In].
  - split; [intros [] | intros [_ [item [[] _]]]].
  - destruct (SavedItem.item_id item) as [[| c t] |] eqn:Hid.
    + rewrite IH. split.
      * intros [Hs [x [Hx Hxs]]]. split; [exact Hs | eauto].
      * intros [Hs [x [[<- | Hx] Hxs]]]; [congruence | eauto].
    + cbn [In]. rewrite IH. split.
      * intros [<- | [Hs [x [Hx Hxs]]]].
        -- split; [discriminate | eauto].
        -- split; [exact Hs | eauto].
      * intros [Hs [x [[<- | Hx] Hxs]]]; [left; congruence | right; eauto].
    + rewrite IH. split.
      * intros [Hs [x [Hx Hxs]]]. split; [exact Hs | eauto].
      * intros [Hs [x [[<- | Hx] Hxs]]]; [congruence | eauto].
Qed.

Lemma favorite_entities_spec db user s :
  In s (favorite_entities_of db (Some user)) <->
  s <> ""
  /\ exists item,
       In item (saved_items db)
       /\ SavedItem.user_id item = cu_id user
       /\ SavedItem.favorited item = true
       /\ SavedItem.item_id item = Some s.
Proof.
  unfold favorite_entities_of. rewrite item_ids_spec.
  split; intros [Hs [item H]]; (split; [exact Hs |]); exists item.
  - destruct H as [Hin Hid]. apply filter_In in Hin as [Hin Hb].
    apply andb_true_iff in Hb as [Hu Hf]. apply Z.eqb_eq in Hu. auto.
  - destruct H as (Hin & Hu & Hf & Hid). split; [| exact Hid].
    apply filter_In. split; [exact Hin |].
    apply andb_true_iff. split; [now apply Z.eqb_eq | exact Hf].
Qed.

Section recommendation_properties.

Variable QLOO_API_BASE : string.
Variable QLOO_API_KEY : option string.
Variable get_current_user : unit -> result current_user_dict.

Local Abbreviation current_user := (get_current_user_optional get_current_user).

Lemma append_resolved_returns name entity_type ids (up : upstream_api) n :
  exists ids' n',
    append_resolved QLOO_API_BASE QLOO_API_KEY name entity_type ids up n
    = (Ok ids', n').
Proof.
  unfold append_resolved.
  destruct name as [[| c s] |]; try (now eexists; eexists).
  unfold bind.
  destruct (fetch_entity_id_returns QLOO_API_BASE QLOO_API_KEY
              (String c s) entity_type up n) as (v & n' & ->).
  now eexists; eexists.
Qed.

(** Resolving the three names never raises. *)
Lemma resolved_ids_returns effective (up : upstream_api) n :
  exists resolved n',
    resolved_ids QLOO_API_BASE QLOO_API_KEY effective up n
    = (Ok resolved, n').
Proof.
  unfold resolved_ids, bind.
  destruct (append_resolved_returns (PreferenceInput.book_name effective)
              "book" [] up n) as (ids1 & n1 & ->).
  destruct (append_resolved_returns (PreferenceInput.movie_name effective)
              "movie" ids1 up n1) as (ids2 & n2 & ->).
  apply append_resolved_returns.
Qed.

Lemma signal_set_appends_favorites effective favorites (up : upstream_api)
    n resolved n' :
  resolved_ids QLOO_API_BASE QLOO_API_KEY effective up n
    = (Ok resolved, n') ->
  signal_set QLOO_API_BASE QLOO_API_KEY effective favorites up n
  = (Ok (resolved ++ map VStr favorites)%list, n').
Proof.
  intros H. unfold signal_set, bind, ret. rewrite H.
  destruct favorites; [now rewrite app_nil_r | reflexivity].
Qed.

(** When [get_current_user] raises, nothing stored is read. *)
Lemma recommendations_without_user preference db e :
  get_current_user tt = Raise e ->
  effective_preferences preference (user_preferences_of db current_user)
  = effective_preferences preference []
  /\ favorite_entities_of db current_user = [].
Proof.
  intros H. unfold get_current_user_optional. now rewrite H.
Qed.

(** What the handler computes once [get_current_user_optional] has
    yielded a user: each effective preference is the value of the request
    when that value is present and not empty, otherwise the value stored in
    the account's preference row, otherwise [None]; the favorited ids of the
    account that are not empty are appended to the resolved ids, whatever
    the resolution of the names gave. *)
Lemma recommendations_effective_values_and_favorites
    preference db user (up : upstream_api) n :
  get_current_user tt = Ok user ->
  let effective :=
    effective_preferences preference (user_preferences_of db current_user) in
  let stored (field : UserPreference.t -> option string) :=
    match query_preference db (cu_id user) with
    | Some row => field row
    | None => None
    end in
  let chosen (requested : option string) field :=
    if truthy_opt requested then requested else stored field in
  PreferenceInput.book_name effective
    = chosen (PreferenceInput.book_name preference) UserPreference.book_name
  /\ PreferenceInput.movie_name effective
     = chosen (PreferenceInput.movie_name preference)
              UserPreference.movie_name
  /\ PreferenceInput.place_name effective
     = chosen (PreferenceInput.place_name preference)
              UserPreference.place_name
  /\ PreferenceInput.age effective
     = chosen (PreferenceInput.age preference) UserPreference.age
  /\ PreferenceInput.gender effective
     = chosen (PreferenceInput.gender preference) UserPreference.gender
  /\ (forall s,
        In s (favorite_entities_of db current_user) <->
        s <> ""
        /\ exists item,
             In item (saved_items db)
             /\ SavedItem.user_id item = cu_id user
             /\ SavedItem.favorited item = true
             /\ SavedItem.item_id item = Some s)
  /\ exists resolved n',
       resolved_ids QLOO_API_BASE QLOO_API_KEY effective up n
         = (Ok resolved, n')
       /\ signal_set QLOO_API_BASE QLOO_API_KEY effective
            (favorite_entities_of db current_user) up n
          = (Ok (resolved ++ map VStr (favorite_entities_of db current_user))%list,
             n').
Proof.
  intros Huser effective stored chosen.
  assert (Hcu : current_user = Some user)
    by (unfold get_current_user_optional; now rewrite Huser).
  subst effective stored chosen. rewrite Hcu.
  unfold effective_preferences, user_preferences_of, opt_or.
  cbn [PreferenceInput.book_name PreferenceInput.movie_name
       PreferenceInput.place_name PreferenceInput.age PreferenceInput.gender].
  do 5 (split; [destruct (query_preference db (cu_id user)); reflexivity |]).
  split; [intros s; apply favorite_entities_spec |].
  - match goal with
    | |- context [resolved_ids _ _ ?eff up n] =>
        destruct (resolved_ids_returns eff up n) as (resolved & n' & H)
    end.
    exists resolved, n'. split; [exact H |].
    now apply signal_set_appends_favorites.
Qed.

(** C5: when the signal set is empty the handler returns a result, not an
    error: the four lists are empty and the message tells a missing API key
    from missing preferences. *)
Theorem get_recommendations_no_signals preference db (up : upstream_api)
    n n' :
  signal_set QLOO_API_BASE QLOO_API_KEY
    (effective_preferences preference (user_preferences_of db current_user))
    (favorite_entities_of db current_user) up n = (Ok [], n') ->
  exists r,
    get_recommendations get_current_user QLOO_API_BASE QLOO_API_KEY
      preference db up n = (Ok r, n')
    /\ attribute r "book_recs" = Some (VList [])
    /\ attribute r "popular_books" = Some (VList [])
    /\ attribute r "movie_recs" = Some (VList [])
    /\ attribute r "tv_show_recs" = Some (VList [])
    /\ attribute r "message"
       = Some (VStr (if truthy_opt QLOO_API_KEY
                     then message_no_preferences
                     else message_no_api_key))
    /\ message_no_api_key <> message_no_preferences.
Proof.
  intros H.
  unfold get_recommendations, bind. rewrite H.
  destruct (truthy_opt QLOO_API_KEY); cbn [negb]; unfold ret;
    (eexists; split; [reflexivity |]); cbn; repeat split; discriminate.
Qed.

End recommendation_properties.

Lemma recommendations_effective_values_and_favorites_witness :
  PreferenceInput.book_name
    (effective_preferences no_preference
       (user_preferences_of sample_database
          (get_current_user_optional (signed_in_as 7))))
  = Some "Dune"
  /\ signal_set "https://hackathon.api.qloo.com" (Some "key")
       (effective_preferences no_preference
          (user_preferences_of sample_database
             (get_current_user_optional (signed_in_as 7))))
       (favorite_entities_of sample_database
          (get_current_user_optional (signed_in_as 7)))
       sample_upstream_down 0
     = (Ok [VStr "E9"], 1).
Proof.
  destruct (recommendations_effective_values_and_favorites
              "https://hackathon.api.qloo.com" (Some "key") (signed_in_as 7)
              no_preference sample_database (CurrentUser 7)
              sample_upstream_down 0 eq_refl)
    as (Hbook & _).
  split; [exact Hbook | reflexivity].
Defined.

(** Python's [or]: a request that carries an empty book name does not get
    that value; the stored one is used. *)
Example effective_value_empty_request_uses_stored :
  PreferenceInput.book_name
    (effective_preferences empty_book_preference
       (user_preferences_of sample_database
          (get_current_user_optional (signed_in_as 7))))
  = Some "Dune".
Proof. reflexivity. Qed.

Lemma get_recommendations_no_signals_witness :
  exists r,
    get_recommendations not_signed_in "https://hackathon.api.qloo.com"
      (Some "key") no_preference empty_database sample_upstream_down 0
    = (Ok r, 0)
    /\ attribute r "book_recs" = Some (VList [])
    /\ attribute r "popular_books" = Some (VList [])
    /\ attribute r "movie_recs" = Some (VList [])
    /\ attribute r "tv_show_recs" = Some (VList [])
    /\ attribute r "message" = Some (VStr message_no_preferences)
    /\ message_no_api_key <> message_no_preferences.
Proof.
  apply (get_recommendations_no_signals "https://hackathon.api.qloo.com"
           (Some "key") not_signed_in no_preference empty_database
           sample_upstream_down 0 0).
  reflexivity.
Defined.

(** ** The account of an authenticated request *)

Section recommendation_account.

Variable QLOO_API_BASE : string.
Variable QLOO_API_KEY : option string.
Variable verify_token : string -> option string.

(** Called without credentials, [get_current_user] resolves no account,
    whatever the store holds. *)
Lemma get_current_user_optional_without_arguments db :
  get_current_user_optional (get_current_user_without_arguments verify_token db)
  = None.
Proof. reflexivity. Qed.

(** The answer to any request is the answer that an anonymous caller gets
    on an empty store. *)
Lemma get_recommendations_reads_no_account preference db other
    (up : upstream_api) n :
  get_recommendations (get_current_user_without_arguments verify_token db)
    QLOO_API_BASE QLOO_API_KEY preference db up n
  = get_recommendations not_signed_in QLOO_API_BASE QLOO_API_KEY preference
      other up n.
Proof. reflexivity. Qed.

(** C1, at the failing input: a request whose bearer token verifies and
    resolves to an account.  [get_current_user_optional] calls
    [get_current_user] without the credentials, so it yields no user: the
    effective preferences are those of the request alone, no favorite is
    added to the signal set, and [get_recommendations] answers as it
    answers an anonymous caller on an empty store.  With an empty request
    body that is the result without signals, whatever preferences and
    favorites the account has stored. *)
Theorem get_recommendations_ignores_authenticated_account preference token db
    username user (up : upstream_api) n :
  verify_token token = Some username ->
  query_user db username = Some user ->
  let call := get_current_user_without_arguments verify_token db in
  auth_get_current_user verify_token (Some token) db
    = Ok (CurrentUser (User.id user))
  /\ get_current_user_optional call = None
  /\ effective_preferences preference
       (user_preferences_of db (get_current_user_optional call))
     = effective_preferences preference []
  /\ favorite_entities_of db (get_current_user_optional call) = []
  /\ get_recommendations call QLOO_API_BASE QLOO_API_KEY preference db up n
     = get_recommendations not_signed_in QLOO_API_BASE QLOO_API_KEY
         preference empty_database up n
  /\ get_recommendations call QLOO_API_BASE QLOO_API_KEY no_preference db
       up n
     = (Ok (empty_recommendations
              (if truthy_opt QLOO_API_KEY then message_no_preferences
               else message_no_api_key)), n).
Proof.
  intros Htoken Huser call.
  split.
  - unfold auth_get_current_user, resolve_user.
    now rewrite Htoken, Huser.
  - repeat split.
    unfold get_recommendations, bind, signal_set, resolved_ids,
      append_resolved, ret.
    cbn. now destruct (truthy_opt QLOO_API_KEY).
Qed.

End recommendation_account.

Lemma get_recommendations_ignores_authenticated_account_witness :
  auth_get_current_user sample_verify_token (Some "token-for-alice")
    sample_database = Ok (CurrentUser 7)
  /\ UserPreference.book_name sample_preference_row = Some "Dune"
  /\ favorite_entities_of sample_database (Some (CurrentUser 7)) = ["E9"]
  /\ get_recommendations
       (get_current_user_without_arguments sample_verify_token
          sample_database)
       "https://hackathon.api.qloo.com" (Some "key") no_preference
       sample_database sample_upstream_array 0
     = (Ok (empty_recommendations message_no_preferences), 0).
Proof.
  destruct (get_recommendations_ignores_authenticated_account
              "https://hackathon.api.qloo.com" (Some "key")
              sample_verify_token no_preference "token-for-alice"
              sample_database "alice"
              {| User.id := 7; User.email := "a@x.com";
                 User.username := "alice";
                 User.hashed_password := "hash-of-pw123" |}
              sample_upstream_array 0 eq_refl eq_refl)
    as (Hauth & _ & _ & _ & _ & Hanswer).
  split; [exact Hauth |]. split; [reflexivity |].
  split; [reflexivity | exact Hanswer].
Defined.

(* ===================================================================== *)
(** * Properties of [login] and [save_preferences] *)
(* ===================================================================== *)

Lemma find_update_first {A} (p : A -> bool) (f : A -> A) rows x :
  (forall y, p (f y) = p y) ->
  find p rows = Some x ->
  find p (update_first p f rows) = Some (f x).
Proof.
  intros Hp. induction rows as [| row rest IH]; cbn [find update_first].
  - discriminate.
  - destruct (p row) eqn:Hrow.
    + intros [= <-]. cbn [find]. now rewrite Hp, Hrow.
    + intros H. cbn [find]. rewrite Hrow. auto.
Qed.

Lemma length_update_first {A} (p : A -> bool) (f : A -> A) rows :
  List.length (update_first p f rows) = List.length rows.
Proof.
  induction rows as [| row rest IH]; cbn [update_first]; [reflexivity |].
  destruct (p row); cbn [List.length]; congruence.
Qed.

Lemma opt_dict_get_absent d k :
  (forall v, ~ In (k, v) d) -> opt_dict_get d k = None.
Proof.
  induction d as [| [k' v] rest IH]; cbn [opt_dict_get In]; [reflexivity |].
  intros H. destruct (String.eqb_spec k' k) as [-> | Hk].
  - exfalso. apply (H v). now left.
  - apply IH. intros v' Hin. apply (H v'). now right.
Qed.

Section auth_properties.

Variable verify_password : string -> string -> bool.
Variable verify_token : string -> option string.
Variable create_access_token : string -> Z -> string.
Variable ACCESS_TOKEN_EXPIRE_MINUTES : Z.

Local Abbreviation login_ :=
  (login verify_password create_access_token ACCESS_TOKEN_EXPIRE_MINUTES).

(** C2: a login with an unknown username and a login with a known username
    and a password that does not verify fail with the same error: status
    401 and the same message. *)
Theorem login_uniform_denial unknown wrong db user :
  query_user db (UserLogin.username unknown) = None ->
  query_user db (UserLogin.username wrong) = Some user ->
  verify_password (UserLogin.password wrong) (User.hashed_password user)
    = false ->
  login_ unknown db
    = Raise (Exn (HTTPException 401) "Incorrect username or password")
  /\ login_ wrong db = login_ unknown db.
Proof.
  intros Hunknown Hknown Hpw. unfold login.
  now rewrite Hunknown, Hknown, Hpw.
Qed.

(** With the password that verifies, the login succeeds. *)
Lemma login_correct_password user_data db user :
  query_user db (UserLogin.username user_data) = Some user ->
  verify_password (UserLogin.password user_data) (User.hashed_password user)
    = true ->
  exists token, login_ user_data db = Ok token.
Proof.
  intros Hknown Hpw. unfold login. rewrite Hknown, Hpw. now eexists.
Qed.

(** C10: when the account has a preference row, [save_preferences] succeeds
    and the five stored fields become what [preferences.get] gives for the
    request body; a field that the body does not have becomes [None].  No
    row is added. *)
Theorem save_preferences_overwrites_all_fields preferences token db
    username user existing :
  verify_token token = Some username ->
  query_user db username = Some user ->
  query_preference db (User.id user) = Some existing ->
  let outcome := save_preferences verify_token preferences token db in
  fst outcome
    = Ok (VDict [("message", VStr "Preferences saved successfully")])
  /\ query_preference (snd outcome) (User.id user)
     = Some {| UserPreference.id := UserPreference.id existing;
               UserPreference.user_id := UserPreference.user_id existing;
               UserPreference.movie_name :=
                 opt_dict_get preferences "movie_name";
               UserPreference.book_name :=
                 opt_dict_get preferences "book_name";
               UserPreference.place_name :=
                 opt_dict_get preferences "place_name";
               UserPreference.age := opt_dict_get preferences "age";
               UserPreference.gender := opt_dict_get preferences "gender" |}
  /\ (forall k,
        In k preference_fields ->
        (forall v, ~ In (k, v) preferences) ->
        opt_dict_get (stored_preferences (snd outcome) (User.id user)) k
          = None)
  /\ List.length (user_preferences (snd outcome))
     = List.length (user_preferences db).
Proof.
  intros Htoken Huser Hpref outcome.
  assert (Hq : query_preference (snd outcome) (User.id user)
               = Some (assign_preferences preferences existing)).
  { subst outcome. unfold save_preferences.
    rewrite Htoken, Huser, Hpref. cbn [snd].
    unfold query_preference in *. cbn [user_preferences].
    now apply find_update_first. }
  split; [| split; [exact Hq | split]].
  - subst outcome. unfold save_preferences. now rewrite Htoken, Huser.
  - intros k Hk Habsent. unfold stored_preferences. rewrite Hq.
    pose proof (opt_dict_get_absent preferences k Habsent) as Hnone.
    cbn in Hk.
    destruct Hk as [<- | [<- | [<- | [<- | [<- | []]]]]]; cbn; exact Hnone.
  - subst outcome. unfold save_preferences.
    rewrite Htoken, Huser, Hpref. cbn [snd user_preferences].
    apply length_update_first.
Qed.

End auth_properties.

Lemma login_uniform_denial_witness :
  login sample_verify_password sample_create_access_token 30
    (UserLogin.mk "mallory" "pw123") sample_database
  = Raise (Exn (HTTPException 401) "Incorrect username or password")
  /\ login sample_verify_password sample_create_access_token 30
       (UserLogin.mk "alice" "guess") sample_database
     = login sample_verify_password sample_create_access_token 30
         (UserLogin.mk "mallory" "pw123") sample_database.
Proof.
  apply (login_uniform_denial sample_verify_password
           sample_create_access_token 30
           (UserLogin.mk "mallory" "pw123") (UserLogin.mk "alice" "guess")
           sample_database
           {| User.id := 7; User.email := "a@x.com";
              User.username := "alice";
              User.hashed_password := "hash-of-pw123" |});
    reflexivity.
Defined.

Lemma save_preferences_overwrites_all_fields_witness :
  query_preference
    (snd (save_preferences sample_verify_token [("movie_name", Some "Arrival")]
            "token-for-alice" sample_database)) 7
  = Some {| UserPreference.id := 1;
            UserPreference.user_id := 7;
            UserPreference.movie_name := Some "Arrival";
            UserPreference.book_name := None;
            UserPreference.place_name := None;
            UserPreference.age := None;
            UserPreference.gender := None |}.
Proof.
  exact (proj1 (proj2
    (save_preferences_overwrites_all_fields sample_verify_token
       [("movie_name", Some "Arrival")] "token-for-alice" sample_database
       "alice"
       {| User.id := 7; User.email := "a@x.com"; User.username := "alice";
          User.hashed_password := "hash-of-pw123" |}
       sample_preference_row eq_refl eq_refl eq_refl))).
Defined.

(* ===================================================================== *)
(** * Properties of [save_item] *)
(* ===================================================================== *)

Lemma find_none_filter {A} (p : A -> bool) rows :
  find p rows = None -> filter p rows = [].
Proof.
  induction rows as [| row rest IH]; cbn [find filter]; [reflexivity |].
  destruct (p row); [discriminate | exact IH].
Qed.

Lemma find_some_filter {A} (p : A -> bool) rows x :
  find p rows = Some x -> exists rest, filter p rows = x :: rest.
Proof.
  induction rows as [| row rest IH]; cbn [find filter]; [discriminate |].
  destruct (p row); [intros [= <-]; now eexists | exact IH].
Qed.

(** The rows that pass [p], after the first of them went through [f]. *)
Lemma filter_update_first {A} (p : A -> bool) (f : A -> A) rows :
  (forall y, p (f y) = p y) ->
  filter p (update_first p f rows)
  = match filter p rows with
    | [] => []
    | x :: rest => f x :: rest
    end.
Proof.
  intros Hp. induction rows as [| row rest IH]; cbn [update_first filter];
    [reflexivity |].
  destruct (p row) eqn:Hrow; cbn [filter].
  - now rewrite Hp, Hrow.
  - now rewrite Hrow.
Qed.

Lemma filter_length_update_first {A} (p q : A -> bool) (f : A -> A) rows :
  (forall y, q (f y) = q y) ->
  List.length (filter q (update_first p f rows))
  = List.length (filter q rows).
Proof.
  intros Hq. induction rows as [| row rest IH]; cbn [update_first filter];
    [reflexivity |].
  destruct (p row); cbn [filter].
  - rewrite Hq. now destruct (q row).
  - destruct (q row); cbn [List.length]; congruence.
Qed.

Lemma matches_set_favorited uid iid b row :
  saved_item_matches uid iid (set_favorited b row)
  = saved_item_matches uid iid row.
Proof. reflexivity. Qed.

Lemma set_favorited_same row :
  set_favorited (SavedItem.favorited row) row = row.
Proof. now destruct row. Qed.

Lemma matches_inj uid iid uid' iid' row :
  saved_item_matches uid iid row = true ->
  saved_item_matches uid' iid' row = true ->
  uid' = uid /\ iid' = iid.
Proof.
  unfold saved_item_matches, item_id_is.
  intros H H'.
  apply andb_true_iff in H as [Hu Hi], H' as [Hu' Hi'].
  apply Z.eqb_eq in Hu, Hu'.
  destruct (SavedItem.item_id row); [| discriminate].
  apply String.eqb_eq in Hi, Hi'. split; congruence.
Qed.

Section saved_items_properties.

Variable verify_token : string -> option string.

Local Abbreviation save := (save_item verify_token).

(** One accepted save: the rows of the pair afterwards, and the response. *)
Lemma save_item_accepted item token now db username user :
  SavedItemCreate.item_id item <> "" ->
  SavedItemCreate.item_name item <> "" ->
  verify_token token = Some username ->
  query_user db username = Some user ->
  let mine :=
    saved_item_matches (User.id user) (SavedItemCreate.item_id item) in
  let outcome := save item token now db in
  users (snd outcome) = users db
  /\ filter mine (saved_items (snd outcome))
     = match filter mine (saved_items db) with
       | [] => [new_row item (User.id user) now db]
       | x :: rest => set_favorited (SavedItemCreate.favorited item) x :: rest
       end
  /\ exists response,
       fst outcome = Ok response
       /\ SavedItemResponse.favorited response
          = SavedItemCreate.favorited item.
Proof.
  intros Hid Hname Htoken Huser mine outcome.
  subst outcome. unfold save_item.
  apply String.eqb_neq in Hid, Hname. rewrite Hid, Hname. cbn [orb].
  rewrite Htoken, Huser.
  unfold query_saved_item. fold mine.
  destruct (find mine (saved_items db)) as [existing |] eqn:Hfind.
  - destruct (find_some_filter _ _ _ Hfind) as [rest Hfilter].
    assert (Hmine : mine existing = true) by (now apply find_some in Hfind).
    assert (Hsome : exists iid, SavedItem.item_id existing = Some iid).
    { unfold mine, saved_item_matches, item_id_is in Hmine.
      destruct (SavedItem.item_id existing); [now eexists |].
      now rewrite andb_false_r in Hmine. }
    destruct Hsome as [iid Hiid].
    destruct (Bool.eqb (SavedItem.favorited existing)
                       (SavedItemCreate.favorited item)) eqn:Hfav;
      cbn [negb fst snd users saved_items].
    + apply Bool.eqb_prop in Hfav.
      split; [reflexivity |]. split.
      * rewrite Hfilter, <- Hfav. now rewrite set_favorited_same.
      * unfold response_of. rewrite Hiid. eexists. split; [reflexivity |].
        exact Hfav.
    + split; [reflexivity |]. split.
      * rewrite filter_update_first by (intros y; apply matches_set_favorited).
        now rewrite Hfilter.
      * unfold response_of. cbn [set_favorited SavedItem.item_id].
        rewrite Hiid. eexists. split; reflexivity.
  - cbn [fst snd users saved_items].
    split; [reflexivity |]. split.
    + rewrite filter_app, (find_none_filter _ _ Hfind). cbn [filter app].
      fold (new_row item (User.id user) now db).
      unfold mine at 1, saved_item_matches, item_id_is, new_row.
      cbn [SavedItem.user_id SavedItem.item_id].
      now rewrite Z.eqb_refl, String.eqb_refl.
    + unfold response_of. cbn [SavedItem.item_id]. eexists.
      split; reflexivity.
Qed.

(** A save never adds a row to a pair that already has one. *)
Lemma save_item_no_duplicate item token now db uid iid :
  rows_for uid iid (snd (save item token now db))
  <= Nat.max 1 (rows_for uid iid db).
Proof.
  unfold rows_for, save_item.
  destruct (_ || _); [cbn [snd]; lia |].
  destruct (verify_token token) as [username |]; [| cbn [snd]; lia].
  destruct (query_user db username) as [user |]; [| cbn [snd]; lia].
  unfold query_saved_item.
  destruct (find _ (saved_items db)) as [existing |] eqn:Hfind.
  - destruct (negb _); cbn [snd saved_items]; [| lia].
    rewrite filter_length_update_first
      by (intros y; apply matches_set_favorited).
    lia.
  - cbn [snd saved_items]. rewrite filter_app, length_app.
    cbn [filter].
    match goal with
    | |- context [saved_item_matches uid iid ?row] =>
        destruct (saved_item_matches uid iid row) eqn:Hnew;
        [| cbn [List.length]; lia]
    end.
    assert (Hsame : uid = User.id user
                    /\ iid = SavedItemCreate.item_id item).
    { eapply matches_inj; [| exact Hnew].
      unfold saved_item_matches, item_id_is.
      cbn [SavedItem.user_id SavedItem.item_id].
      now rewrite Z.eqb_refl, String.eqb_refl. }
    destruct Hsame as [-> ->].
    rewrite (find_none_filter _ _ Hfind). cbn [List.length]. lia.
Qed.

(** C4: two accepted saves of the same item id by the same account, on a
    store that holds at most one row for the pair, leave exactly one row for
    the pair; its [favorited] is the value of the second save.  A save never
    adds a row to a pair that has one. *)
Theorem save_item_twice_single_row item1 item2 token now1 now2 db
    username user :
  SavedItemCreate.item_id item2 = SavedItemCreate.item_id item1 ->
  SavedItemCreate.item_id item1 <> "" ->
  SavedItemCreate.item_name item1 <> "" ->
  SavedItemCreate.item_name item2 <> "" ->
  verify_token token = Some username ->
  query_user db username = Some user ->
  rows_for (User.id user) (SavedItemCreate.item_id item1) db <= 1 ->
  let first := save item1 token now1 db in
  let second := save item2 token now2 (snd first) in
  (exists response1, fst first = Ok response1)
  /\ (exists response2,
        fst second = Ok response2
        /\ SavedItemResponse.favorited response2
           = SavedItemCreate.favorited item2)
  /\ (exists row,
        filter (saved_item_matches (User.id user)
                                   (SavedItemCreate.item_id item1))
               (saved_items (snd second)) = [row]
        /\ SavedItem.favorited row = SavedItemCreate.favorited item2)
  /\ (forall uid iid,
        rows_for uid iid (snd second) <= Nat.max 1 (rows_for uid iid db)).
Proof.
  intros Hsame Hid1 Hname1 Hname2 Htoken Huser Hone first second.
  assert (Hid2 : SavedItemCreate.item_id item2 <> "") by congruence.
  destruct (save_item_accepted item1 token now1 db username user
              Hid1 Hname1 Htoken Huser) as (Husers1 & Hrows1 & Hresp1).
  fold first in Husers1, Hrows1, Hresp1.
  assert (Huser1 : query_user (snd first) username = Some user)
    by (unfold query_user; now rewrite Husers1).
  destruct (save_item_accepted item2 token now2 (snd first) username user
              Hid2 Hname2 Htoken Huser1) as (_ & Hrows2 & Hresp2).
  fold second in Hrows2, Hresp2. rewrite Hsame in Hrows2.
  split; [| split; [| split]].
  - destruct Hresp1 as [r [H _]]. now exists r.
  - exact Hresp2.
  - rewrite Hrows2, Hrows1. unfold rows_for in Hone.
    destruct (filter _ (saved_items db)) as [| x [| y rest]].
    + eexists. split; reflexivity.
    + eexists. split; reflexivity.
    + cbn [List.length] in Hone. lia.
  - intros uid iid.
    pose proof (save_item_no_duplicate item2 token now2 (snd first) uid iid).
    pose proof (save_item_no_duplicate item1 token now1 db uid iid).
    fold first in H, H0. fold second in H. lia.
Qed.

End saved_items_properties.

Lemma save_item_twice_single_row_witness :
  exists row,
    filter (saved_item_matches 7 "m1")
      (saved_items
         (snd (save_item sample_verify_token (sample_item true)
                 "token-for-alice" 20
                 (snd (save_item sample_verify_token (sample_item false)
                         "token-for-alice" 10 sample_database)))))
    = [row]
    /\ SavedItem.favorited row = true.
Proof.
  refine (proj1 (proj2 (proj2
    (save_item_twice_single_row sample_verify_token
       (sample_item false) (sample_item true) "token-for-alice" 10 20
       sample_database "alice"
       {| User.id := 7; User.email := "a@x.com"; User.username := "alice";
          User.hashed_password := "hash-of-pw123" |}
       eq_refl _ _ _ eq_refl eq_refl _)))).
  all: cbv; try discriminate; lia.
Defined.

(* ===================================================================== *)
(** * Properties of [convert_natural_language] *)
(* ===================================================================== *)

Section gemini_properties.

Variable json_loads : string -> option value.
Variable format : value -> string.
Variable generate_content : GeminiQuery.t -> generation.
Variable validation_message : list (string * value) -> string.

Local Abbreviation convert :=
  (convert_natural_language json_loads format true generate_content
     validation_message).

(** Text that is not JSON is answered with [success=False]. *)
Lemma convert_unparseable_is_failure query text :
  generate_content query = Text text ->
  json_loads (unfence text) = None ->
  convert query = Ok (failure "Failed to parse Gemini response").
Proof.
  intros Hgen Hloads.
  unfold convert_natural_language, convert_body. cbn [negb].
  now rewrite Hgen, Hloads.
Qed.

(** An object without a usable [entity_name] or [entity_type] is answered
    with [success=False]. *)
Lemma convert_missing_name_is_failure query text d :
  generate_content query = Text text ->
  json_loads (unfence text) = Some (VDict d) ->
  (forall v, dict_get d "entity_name" = Some v -> truthy v = false)
  \/ (forall v, dict_get d "entity_type" = Some v -> truthy v = false) ->
  convert query
  = Ok (failure "Could not extract a valid entity name from the response").
Proof.
  intros Hgen Hloads Hmissing.
  unfold convert_natural_language, convert_body. cbn [negb].
  rewrite Hgen, Hloads. unfold validate, py_get, rbind.
  destruct (dict_get d "entity_name") as [name |] eqn:Hname;
    [| reflexivity].
  destruct (truthy name) eqn:Htruthy; [| reflexivity].
  cbn [negb].
  destruct Hmissing as [H | H].
  - rewrite (H name eq_refl) in Htruthy. discriminate.
  - destruct (dict_get d "entity_type") as [type |] eqn:Htype;
      [| reflexivity].
    now rewrite (H type eq_refl).
Qed.

(** An object with both names and a numeric confidence below the threshold
    is answered with [success=False]. *)
Lemma convert_low_confidence_is_failure query text d name type confidence :
  generate_content query = Text text ->
  json_loads (unfence text) = Some (VDict d) ->
  dict_get d "entity_name" = Some name -> truthy name = true ->
  dict_get d "entity_type" = Some type -> truthy type = true ->
  dict_get d "confidence" = Some confidence ->
  lt_threshold confidence = Ok true ->
  convert query
  = Ok (failure ("Low confidence (" ++ format confidence
                   ++ ") in the suggested entity")).
Proof.
  intros Hgen Hloads Hname Hn Htype Ht Hconf Hlow.
  unfold convert_natural_language, convert_body. cbn [negb].
  rewrite Hgen, Hloads. unfold validate, py_get, rbind.
  rewrite Hname, Hn. cbn [negb]. rewrite Htype, Ht. cbn [negb].
  now rewrite Hconf, Hlow.
Qed.

(** C9, at the failing input: the service answers with text that is JSON
    but not an object.  The handler answers with status 500, not with
    [success=False]. *)
Theorem convert_non_object_output_is_500 query text loaded :
  generate_content query = Text text ->
  json_loads (unfence text) = Some loaded ->
  (forall d, loaded <> VDict d) ->
  convert query
  = Raise (Exn (HTTPException 500)
             ("Failed to process natural language query: '"
                ++ type_name loaded ++ "' object has no attribute 'get'")).
Proof.
  intros Hgen Hloads Hshape.
  unfold convert_natural_language, convert_body. cbn [negb].
  rewrite Hgen, Hloads.
  destruct loaded as [| b | z | f | s | l | d]; try reflexivity.
  now destruct (Hshape d).
Qed.

End gemini_properties.

Lemma convert_non_object_output_is_500_witness :
  convert_natural_language sample_json_loads sample_format true
    sample_generation_array sample_validation_message sample_query
  = Raise (Exn (HTTPException 500)
             "Failed to process natural language query: 'list' object has no attribute 'get'").
Proof.
  apply (convert_non_object_output_is_500 sample_json_loads sample_format
           sample_generation_array sample_validation_message sample_query
           ("```json" ++ newline ++ "[]" ++ newline ++ "```" ++ newline)
           (VList []));
    [reflexivity | reflexivity | discriminate].
Defined.

(* ===================================================================== *)
(** * Further properties of routes.py *)
(* ===================================================================== *)

(** ** The aggregator *)

(** One call, no exception, and the entities of the body or the empty
    list. *)
Lemma entities_or_empty_spec r (up : upstream_api) n :
  entities_or_empty r up n
  = (Ok (match up n r with
         | Response true (Ok data) =>
             match has_results_entities data with
             | Ok true =>
                 match results_entities data with
                 | Ok entities => entities
                 | Raise _ => VList []
                 end
             | _ => VList []
             end
         | _ => VList []
         end), S n).
Proof.
  unfold entities_or_empty, try_except, bind, requests_get, lift, ret.
  destruct (up n r) as [e | ok json]; [reflexivity |].
  destruct ok; [| reflexivity].
  destruct json as [data | e]; [| reflexivity].
  destruct (has_results_entities data) as [[|] | e]; try reflexivity.
  destruct (results_entities data); reflexivity.
Qed.

Lemma entities_or_empty_failure r (up : upstream_api) n :
  insights_failure (up n r) ->
  entities_or_empty r up n = (Ok (VList []), S n).
Proof.
  intros H. rewrite entities_or_empty_spec.
  destruct H as [e | json | e | d Hd]; try reflexivity.
  unfold has_results_entities, py_and, py_in, rbind. now rewrite Hd.
Qed.

Lemma join_comma_strings ids i :
  forallb is_vstr ids = true -> exists s, join_comma ids i = Ok s.
Proof.
  revert i. induction ids as [| v rest IH]; intros i H.
  - now exists "".
  - cbn [forallb] in H. apply andb_true_iff in H as [Hv Hrest].
    destruct v; try discriminate Hv. cbn [join_comma].
    destruct rest as [| w rest']; [now eexists |].
    destruct (IH (S i) Hrest) as [tl ->]. now eexists.
Qed.

Lemma join_comma_not_string ids i :
  forallb is_vstr ids = false ->
  exists e, join_comma ids i = Raise e /\ kind e = TypeError.
Proof.
  revert i. induction ids as [| v rest IH]; intros i H; [discriminate H |].
  cbn [forallb] in H.
  destruct v; try (cbn [join_comma]; eexists; split; reflexivity).
  cbn [is_vstr andb] in H. cbn [join_comma].
  destruct rest as [| w rest']; [discriminate H |].
  destruct (IH (S i) H) as (e & -> & He). exists e. now split.
Qed.

Section aggregator_properties.

Variable QLOO_API_BASE : string.
Variable QLOO_API_KEY : option string.
Variable get_current_user : unit -> result current_user_dict.

Local Abbreviation insights := (get_insights QLOO_API_BASE QLOO_API_KEY).
Local Abbreviation popular := (get_popular_books QLOO_API_BASE QLOO_API_KEY).
Local Abbreviation recommendations :=
  (get_recommendations get_current_user QLOO_API_BASE QLOO_API_KEY).
Local Abbreviation signals := (signal_set QLOO_API_BASE QLOO_API_KEY).

Lemma get_insights_strings ids age gender domain (up : upstream_api) n :
  forallb is_vstr ids = true ->
  exists v,
    insights ids age gender domain up n = (Ok v, S n)
    /\ ((forall req, insights_failure (up n req)) -> v = VList []).
Proof.
  intros H. unfold get_insights, bind, lift.
  destruct (join_comma_strings ids 0 H) as [s ->].
  rewrite entities_or_empty_spec. eexists. split; [reflexivity |].
  intros Hfail.
  match goal with
  | |- context [up n ?r] =>
      pose proof (entities_or_empty_failure r up n (Hfail r)) as E;
      rewrite entities_or_empty_spec in E
  end.
  now injection E.
Qed.

Lemma get_popular_books_spec ids age gender (up : upstream_api) n :
  exists v,
    popular ids age gender up n = (Ok v, S n)
    /\ ((forall req, insights_failure (up n req)) -> v = VList []).
Proof.
  unfold get_popular_books. rewrite entities_or_empty_spec.
  eexists. split; [reflexivity |].
  intros Hfail.
  match goal with
  | |- context [up n ?r] =>
      pose proof (entities_or_empty_failure r up n (Hfail r)) as E;
      rewrite entities_or_empty_spec in E
  end.
  now injection E.
Qed.

(** X1: [get_popular_books] makes exactly one upstream call and never
    raises; it returns the empty list when that call fails, and its result
    does not depend on the entity ids, the age or the gender it is given. *)
Theorem get_popular_books_isolated_and_unpersonalized ids age gender
    (up : upstream_api) n :
  (exists v, popular ids age gender up n = (Ok v, S n))
  /\ ((forall req, insights_failure (up n req)) ->
      popular ids age gender up n = (Ok (VList []), S n))
  /\ popular ids age gender up n = popular [] None None up n.
Proof.
  destruct (get_popular_books_spec ids age gender up n) as (v & Hv & Hfail).
  split; [now exists v |]. split; [| reflexivity].
  intros H. now rewrite Hv, (Hfail H).
Qed.

(** X2: when every entity id is a [str], [get_insights] makes exactly one
    upstream call and never raises; it returns the empty list when that call
    fails. *)
Theorem get_insights_isolated ids age gender domain (up : upstream_api) n :
  forallb is_vstr ids = true ->
  (exists v, insights ids age gender domain up n = (Ok v, S n))
  /\ ((forall req, insights_failure (up n req)) ->
      insights ids age gender domain up n = (Ok (VList []), S n)).
Proof.
  intros H.
  destruct (get_insights_strings ids age gender domain up n H)
    as (v & Hv & Hfail).
  split; [now exists v |]. intros Hf. now rewrite Hv, (Hfail Hf).
Qed.

Lemma get_insights_not_strings ids age gender domain (up : upstream_api) n :
  forallb is_vstr ids = false ->
  exists e,
    insights ids age gender domain up n = (Raise e, n)
    /\ kind e = TypeError.
Proof.
  intros H. unfold get_insights, bind, lift.
  destruct (join_comma_not_string ids 0 H) as (e & -> & He).
  now exists e.
Qed.

(** X3: when some entity id is not a [str], [get_insights] raises a
    [TypeError] before any upstream call: the join of the ids is outside its
    [try]. *)
Theorem get_insights_non_string_id_raises ids age gender domain
    (up : upstream_api) n :
  forallb is_vstr ids = false ->
  exists e,
    insights ids age gender domain up n = (Raise e, n)
    /\ kind e = TypeError.
Proof. apply get_insights_not_strings. Qed.

Lemma get_insights_own_call ids age gender domain
    (up up' : upstream_api) n :
  (forall req, up' n req = up n req) ->
  insights ids age gender domain up' n = insights ids age gender domain up n.
Proof.
  intros Hsame. unfold get_insights, bind, lift.
  destruct (join_comma ids 0); [| reflexivity].
  now rewrite !entities_or_empty_spec, Hsame.
Qed.

Lemma get_popular_books_own_call ids age gender (up up' : upstream_api) n :
  (forall req, up' n req = up n req) ->
  popular ids age gender up' n = popular ids age gender up n.
Proof.
  intros Hsame. unfold get_popular_books.
  now rewrite !entities_or_empty_spec, Hsame.
Qed.

(** X4: with a signal set that is not empty and holds only [str] ids, the
    handler makes exactly four more upstream calls and returns the four
    lists, in the order books, popular books, movies, tv shows, without a
    message.  Each list is what its own call returns: it is the result of
    [get_insights] or [get_popular_books] at that call, it is the same
    under every upstream that answers that one call in the same way, and it
    is empty when that call fails. *)
Theorem get_recommendations_four_lists preference db (up : upstream_api)
    n id ids n1 :
  signals
    (effective_preferences preference
       (user_preferences_of db (get_current_user_optional get_current_user)))
    (favorite_entities_of db (get_current_user_optional get_current_user))
    up n = (Ok (id :: ids), n1) ->
  forallb is_vstr (id :: ids) = true ->
  let effective :=
    effective_preferences preference
      (user_preferences_of db (get_current_user_optional get_current_user)) in
  let age := PreferenceInput.age effective in
  let gender := PreferenceInput.gender effective in
  exists book_recs popular_books movie_recs tv_show_recs,
    recommendations preference db up n
    = (Ok (VDict [("book_recs", book_recs);
                  ("popular_books", popular_books);
                  ("movie_recs", movie_recs);
                  ("tv_show_recs", tv_show_recs)]),
       4 + n1)
    /\ (forall up' : upstream_api,
          (forall req, up' n1 req = up n1 req) ->
          insights (id :: ids) age gender "book" up' n1
          = (Ok book_recs, 1 + n1))
    /\ (forall up' : upstream_api,
          (forall req, up' (1 + n1) req = up (1 + n1) req) ->
          popular (id :: ids) age gender up' (1 + n1)
          = (Ok popular_books, 2 + n1))
    /\ (forall up' : upstream_api,
          (forall req, up' (2 + n1) req = up (2 + n1) req) ->
          insights (id :: ids) age gender "movie" up' (2 + n1)
          = (Ok movie_recs, 3 + n1))
    /\ (forall up' : upstream_api,
          (forall req, up' (3 + n1) req = up (3 + n1) req) ->
          insights (id :: ids) age gender "tv_show" up' (3 + n1)
          = (Ok tv_show_recs, 4 + n1))
    /\ ((forall req, insights_failure (up n1 req)) ->
        book_recs = VList [])
    /\ ((forall req, insights_failure (up (1 + n1) req)) ->
        popular_books = VList [])
    /\ ((forall req, insights_failure (up (2 + n1) req)) ->
        movie_recs = VList [])
    /\ ((forall req, insights_failure (up (3 + n1) req)) ->
        tv_show_recs = VList []).
Proof.
  intros Hsignals Hstr effective age gender.
  unfold get_recommendations, bind. rewrite Hsignals.
  fold effective. fold age. fold gender.
  destruct (get_insights_strings (id :: ids) age gender "book" up n1 Hstr)
    as (b & Eb & Hb).
  destruct (get_popular_books_spec (id :: ids) age gender up (S n1))
    as (p & Ep & Hp).
  destruct (get_insights_strings (id :: ids) age gender "movie" up
              (S (S n1)) Hstr) as (m & Em & Hm).
  destruct (get_insights_strings (id :: ids) age gender "tv_show" up
              (S (S (S n1))) Hstr) as (t & Et & Ht).
  rewrite Eb, Ep, Em, Et.
  exists b, p, m, t.
  split; [reflexivity |].
  split; [intros up' H; now rewrite (get_insights_own_call _ _ _ _ up up' _ H) |].
  split; [intros up' H;
          now rewrite (get_popular_books_own_call _ _ _ up up' _ H) |].
  split; [intros up' H; now rewrite (get_insights_own_call _ _ _ _ up up' _ H) |].
  split; [intros up' H; now rewrite (get_insights_own_call _ _ _ _ up up' _ H) |].
  repeat split; assumption.
Qed.

(** X5: when the signal set holds an id that is not a [str] (the upstream
    search answered with a number, say), the handler raises a [TypeError]:
    nothing catches the exception of the first [get_insights]. *)
Theorem get_recommendations_non_string_signal_raises preference db
    (up : upstream_api) n ids n1 :
  signals
    (effective_preferences preference
       (user_preferences_of db (get_current_user_optional get_current_user)))
    (favorite_entities_of db (get_current_user_optional get_current_user))
    up n = (Ok ids, n1) ->
  forallb is_vstr ids = false ->
  exists e,
    recommendations preference db up n = (Raise e, n1)
    /\ kind e = TypeError.
Proof.
  intros Hsignals Hstr.
  unfold get_recommendations, bind. rewrite Hsignals.
  destruct ids as [| id ids]; [discriminate Hstr |].
  set (eff := effective_preferences _ _).
  destruct (get_insights_not_strings (id :: ids) (PreferenceInput.age eff)
              (PreferenceInput.gender eff) "book" up n1 Hstr)
    as (e & -> & He).
  now exists e.
Qed.

Lemma append_resolved_without_key name entity_type ids (up : upstream_api) n :
  truthy_opt QLOO_API_KEY = false ->
  append_resolved QLOO_API_BASE QLOO_API_KEY name entity_type ids up n
  = (Ok ids, n).
Proof.
  intros Hkey. unfold append_resolved.
  destruct name as [[| c s] |]; try reflexivity.
  unfold bind. now rewrite (fetch_entity_id_without_key _ _ _ _ _ _ Hkey).
Qed.

(** X6: without an API key no name is resolved and no upstream call is
    made for it: the signal set is exactly the favorites; with no favorites
    the handler answers with the message about the key, whatever the
    preferences are. *)
Theorem get_recommendations_without_key preference db (up : upstream_api) n :
  truthy_opt QLOO_API_KEY = false ->
  signals
    (effective_preferences preference
       (user_preferences_of db (get_current_user_optional get_current_user)))
    (favorite_entities_of db (get_current_user_optional get_current_user))
    up n
  = (Ok (map VStr
           (favorite_entities_of db
              (get_current_user_optional get_current_user))), n)
  /\ (favorite_entities_of db (get_current_user_optional get_current_user)
      = [] ->
      recommendations preference db up n
      = (Ok (empty_recommendations message_no_api_key), n)).
Proof.
  intros Hkey.
  assert (Hsignals : forall eff favs,
             signals eff favs up n = (Ok (map VStr favs), n)).
  { intros eff favs. unfold signal_set, resolved_ids, bind, ret.
    rewrite !(append_resolved_without_key _ _ _ _ _ Hkey).
    now destruct favs. }
  split; [apply Hsignals |].
  intros Hfavs. unfold get_recommendations, bind.
  rewrite Hsignals, Hfavs, Hkey. reflexivity.
Qed.

End aggregator_properties.

Lemma get_insights_isolated_witness :
  get_insights "https://hackathon.api.qloo.com" (Some "key")
    [VStr "E1"; VStr "E9"] (Some "35_and_younger") None "movie"
    sample_upstream_down 0
  = (Ok (VList []), 1).
Proof.
  apply (proj2 (get_insights_isolated "https://hackathon.api.qloo.com"
                  (Some "key") [VStr "E1"; VStr "E9"] (Some "35_and_younger")
                  None "movie" sample_upstream_down 0 eq_refl)).
  intros req. unfold sample_upstream_down. constructor.
Defined.

Lemma get_insights_non_string_id_raises_witness :
  exists e,
    get_insights "https://hackathon.api.qloo.com" (Some "key")
      [VStr "E1"; VInt 42] None None "book" sample_upstream_array 0
    = (Raise e, 0)
    /\ kind e = TypeError.
Proof.
  apply get_insights_non_string_id_raises. reflexivity.
Defined.

Lemma get_recommendations_four_lists_witness :
  exists popular_books tv_show_recs,
    get_recommendations (signed_in_as 7) "https://hackathon.api.qloo.com"
      None no_preference sample_database sample_upstream_books_only 0
    = (Ok (VDict [("book_recs", VList [VDict [("name", VStr "Hyperion")]]);
                  ("popular_books", popular_books);
                  ("movie_recs", VList []);
                  ("tv_show_recs", tv_show_recs)]),
       4).
Proof.
  destruct (get_recommendations_four_lists "https://hackathon.api.qloo.com"
              None (signed_in_as 7) no_preference sample_database
              sample_upstream_books_only 0 (VStr "E9") [] 0 eq_refl eq_refl)
    as (b & p & m & t & H & Hb & _ & _ & _ & _ & _ & Hm & _).
  rewrite H.
  specialize (Hb sample_upstream_books_only (fun _ => eq_refl)).
  injection Hb as <-.
  rewrite Hm by (intros req; constructor).
  now exists p, t.
Defined.

Lemma get_recommendations_non_string_signal_raises_witness :
  exists e,
    get_recommendations not_signed_in "https://hackathon.api.qloo.com"
      (Some "key") dune_preference empty_database
      sample_upstream_numeric_id 0
    = (Raise e, 1)
    /\ kind e = TypeError.
Proof.
  apply (get_recommendations_non_string_signal_raises
           "https://hackathon.api.qloo.com" (Some "key") not_signed_in
           dune_preference empty_database sample_upstream_numeric_id 0
           [VInt 42] 1);
    reflexivity.
Defined.

Lemma get_recommendations_without_key_witness :
  get_recommendations not_signed_in "https://hackathon.api.qloo.com" None
    dune_preference sample_database sample_upstream_array 0
  = (Ok (empty_recommendations message_no_api_key), 0).
Proof.
  apply (proj2 (get_recommendations_without_key
                  "https://hackathon.api.qloo.com" None not_signed_in
                  dune_preference sample_database sample_upstream_array 0
                  eq_refl)).
  reflexivity.
Defined.

(** ** The normalizer *)

Ltac invert_bind H :=
  match type of H with
  | rbind ?m _ = Ok _ =>
      let E := fresh "E" in
      destruct m eqn:E; cbn [rbind] in H; [| discriminate H]
  end.

Lemma py_or_inv a b v :
  py_or a b = Ok v ->
  (a = Ok v /\ truthy v = true)
  \/ (exists x, a = Ok x /\ truthy x = false /\ b = Ok v).
Proof.
  unfold py_or, rbind. destruct a as [x | e]; [| discriminate].
  destruct (truthy x) eqn:Hx.
  - intros [= <-]. now left.
  - intros Hb. right. now exists x.
Qed.

(** What the merge of a top-level field and its twin in [properties]
    returns. *)
Lemma top_or_property_value d k v :
  top_or_property (VDict d) k = Ok v ->
  (dict_get d k = Some v /\ truthy v = true)
  \/ (truthy (get_or_none d k) = false
      /\ match dict_get d "properties" with
         | None => v = VNone
         | Some (VDict p) => v = get_or_none p k
         | Some _ => False
         end).
Proof.
  unfold top_or_property. intros H.
  apply py_or_inv in H as [[H Hv] | (x & H & Hx & Hb)]; cbn [py_get] in H.
  - left. unfold get_or_none.
    destruct (dict_get d k); injection H as <-; [now split | discriminate Hv].
  - right. injection H as <-. split; [exact Hx |].
    cbn [py_get rbind] in Hb.
    destruct (dict_get d "properties") as [[| | | | | | p] |];
      cbn [py_get] in Hb; try discriminate Hb.
    + unfold get_or_none. injection Hb as <-. reflexivity.
    + cbn [dict_get] in Hb. now injection Hb as <-.
Qed.

Lemma top_or_property_returns d k :
  match dict_get d "properties" with
  | None | Some (VDict _) => True
  | Some _ => False
  end ->
  exists v, top_or_property (VDict d) k = Ok v.
Proof.
  intros H. unfold top_or_property, py_or, rbind. cbn [py_get].
  destruct (truthy _); [now eexists |].
  destruct (dict_get d "properties") as [[| | | | | | p] |];
    try contradiction; cbn [py_get]; now eexists.
Qed.

Lemma image_url_of_returns d :
  well_shaped d = true -> exists v, image_url_of (VDict d) = Ok v.
Proof.
  unfold well_shaped. intros H. apply andb_true_iff in H as [_ H].
  unfold image_url_of, py_or, rbind. cbn [py_get].
  repeat (destruct (truthy _); [now eexists |]).
  destruct (dict_get d "properties") as [[| | | | | | p] |];
    try discriminate H; cbn [truthy]; [| now eexists].
  destruct p as [| kv p']; [now eexists |].
  cbn [py_get].
  destruct (dict_get (kv :: p') "image") as [[| | | | | | i] |];
    try discriminate H; cbn [py_get]; now eexists.
Qed.

Lemma goodreads_of_returns d :
  well_shaped d = true -> exists v, goodreads_of (VDict d) = Ok v.
Proof.
  unfold well_shaped. intros H. apply andb_true_iff in H as [H _].
  unfold goodreads_of, py_or, rbind. cbn [py_get].
  destruct (truthy _); [now eexists |].
  destruct (dict_get d "external") as [[| | | | | | x] |];
    try discriminate H; cbn [py_get]; now eexists.
Qed.

Lemma well_shaped_properties d :
  well_shaped d = true ->
  match dict_get d "properties" with
  | None | Some (VDict _) => True
  | Some _ => False
  end.
Proof.
  unfold well_shaped. intros H. apply andb_true_iff in H as [_ H].
  destruct (dict_get d "properties") as [[| | | | | | p] |];
    try discriminate H; exact I.
Qed.

Lemma normalize_returns d query entity_type :
  well_shaped d = true ->
  exists e, normalize (VDict d) query entity_type = Ok e.
Proof.
  intros H. pose proof (well_shaped_properties d H) as Hp.
  unfold normalize.
  destruct (image_url_of_returns d H) as [img ->]. cbn [rbind py_get].
  repeat match goal with
         | |- context [top_or_property (VDict d) ?k] =>
             destruct (top_or_property_returns d k Hp) as [? ->];
             cbn [rbind]
         end.
  destruct (goodreads_of_returns d H) as [g ->]. cbn [rbind].
  destruct (truthy g); cbn [rbind]; now eexists.
Qed.

(** X7: [normalize] does not raise on a record whose [properties] and
    [external] fields, when present, are objects, and whose
    [properties.image], when present, is an object. *)
Theorem normalize_total_on_well_shaped_records d query entity_type :
  well_shaped d = true ->
  exists e, normalize (VDict d) query entity_type = Ok e.
Proof. apply normalize_returns. Qed.

Lemma normalize_total_on_well_shaped_records_witness :
  exists e, normalize (VDict sample_full_record) "dune" "book" = Ok e.
Proof.
  apply normalize_total_on_well_shaped_records. reflexivity.
Defined.

(** X8: whatever the record, an entity that [normalize] returns has the
    requested type, the same value under [image] and [image_url], a
    [properties.image] that is [None] or wraps that value as its [url], and
    an [external] that is [None] or holds a [goodreads] id that is truthy. *)
Theorem normalize_output_shape details query entity_type e :
  normalize details query entity_type = Ok e ->
  attribute e "type" = Some (VStr entity_type)
  /\ attribute e "image" = attribute e "image_url"
  /\ (exists image,
        attribute e "image" = Some image
        /\ property e "image"
           = Some (if truthy image then VDict [("url", image)] else VNone))
  /\ (attribute e "external" = Some VNone
      \/ exists goodreads,
           truthy goodreads = true
           /\ attribute e "external"
              = Some (VDict [("goodreads", goodreads)])).
Proof.
  intros H. unfold normalize in H.
  repeat invert_bind H.
  injection H as <-. cbn.
  split; [reflexivity |]. split; [reflexivity |].
  split; [eexists; split; reflexivity |].
  match goal with
  | E : (if truthy ?g then _ else _) = Ok _ |- _ =>
      destruct (truthy g) eqn:Hg; injection E as <-
  end.
  - right. eexists. split; [exact Hg | reflexivity].
  - now left.
Qed.

Lemma normalize_output_shape_witness :
  exists e,
    normalize (VDict sample_full_record) "dune" "book" = Ok e
    /\ attribute e "type" = Some (VStr "book")
    /\ attribute e "image" = attribute e "image_url".
Proof.
  eexists. split; [reflexivity |].
  destruct (normalize_output_shape (VDict sample_full_record) "dune" "book"
              _ eq_refl) as (Ht & Hi & _).
  now split.
Defined.

Lemma normalize_properties d query entity_type e k :
  In k property_keys ->
  normalize (VDict d) query entity_type = Ok e ->
  exists v, top_or_property (VDict d) k = Ok v /\ property e k = Some v.
Proof.
  intros Hk H. unfold normalize in H.
  repeat invert_bind H.
  injection H as <-.
  cbn in Hk.
  repeat (destruct Hk as [<- | Hk]; [eexists; split; [eassumption | reflexivity] |]).
  contradiction.
Qed.

(** X9: in the entity built from a record, each merged entry of
    [properties] is the top-level field of the record when that field is
    truthy, and otherwise the field of the same name inside the record's
    [properties] ([None] when there is none).  A top-level value that is
    present but falsy (an empty string, zero) is replaced in the same way as
    a missing one. *)
Theorem normalize_property_fallback d query entity_type e k :
  In k property_keys ->
  normalize (VDict d) query entity_type = Ok e ->
  (forall v, dict_get d k = Some v -> truthy v = true ->
             property e k = Some v)
  /\ (truthy (get_or_none d k) = false ->
      property e k
      = Some (match dict_get d "properties" with
              | Some (VDict p) => get_or_none p k
              | _ => VNone
              end)).
Proof.
  intros Hk H.
  destruct (normalize_properties d query entity_type e k Hk H)
    as (v & Hv & ->).
  apply top_or_property_value in Hv.
  split.
  - intros top Htop Htruthy.
    destruct Hv as [[Hd _] | [Hfalsy _]]; [congruence |].
    unfold get_or_none in Hfalsy. rewrite Htop in Hfalsy. congruence.
  - intros Hfalsy.
    destruct Hv as [[Hd Ht] | [_ Hp]].
    + unfold get_or_none in Hfalsy. rewrite Hd in Hfalsy. congruence.
    + destruct (dict_get d "properties") as [[| | | | | | p] |];
        try contradiction; now subst.
Qed.

Lemma normalize_property_fallback_witness :
  exists e,
    normalize (VDict sample_full_record) "dune" "book" = Ok e
    /\ property e "description" = Some (VStr "A desert planet.").
Proof.
  eexists. split; [reflexivity |].
  apply (proj2 (normalize_property_fallback sample_full_record "dune" "book"
                  _ "description" (or_intror (or_introl eq_refl)) eq_refl)).
  reflexivity.
Defined.

Lemma image_url_of_value d v :
  image_url_of (VDict d) = Ok v ->
  v = (if truthy (get_or_none d "image_url") then get_or_none d "image_url"
       else if truthy (get_or_none d "image") then get_or_none d "image"
       else if truthy (get_or_none d "cover_image")
            then get_or_none d "cover_image"
       else nested_image_url d).
Proof.
  unfold image_url_of, py_or, rbind. cbn [py_get]. fold (get_or_none d "image_url").
  fold (get_or_none d "image"). fold (get_or_none d "cover_image").
  destruct (truthy (get_or_none d "image_url")); [congruence |].
  destruct (truthy (get_or_none d "image")); [congruence |].
  destruct (truthy (get_or_none d "cover_image")); [congruence |].
  unfold nested_image_url.
  destruct (dict_get d "properties") as [[| b | z | f | s | l | p] |];
    cbn [truthy py_get].
  - congruence.
  - destruct b; [discriminate | congruence].
  - destruct (negb _); [discriminate | congruence].
  - destruct (negb _); [discriminate | congruence].
  - destruct (negb _); [discriminate | congruence].
  - destruct l; [congruence | discriminate].
  - destruct p as [| kv p']; [congruence |].
    destruct (dict_get (kv :: p') "image") as [[| | | | | | i] |];
      cbn [py_get]; try discriminate.
    + unfold get_or_none. congruence.
    + cbn [dict_get]. congruence.
  - congruence.
Qed.

(** X10: the image of the entity is the first truthy value among the
    record's [image_url], [image] and [cover_image], in this order; when
    none of the three is truthy it is [properties.image.url] ([None] when
    [properties] is missing or empty). *)
Theorem normalize_image_priority d query entity_type e :
  normalize (VDict d) query entity_type = Ok e ->
  (forall tried k rest v,
     image_candidates = (tried ++ k :: rest)%list ->
     (forall k', In k' tried -> truthy (get_or_none d k') = false) ->
     dict_get d k = Some v -> truthy v = true ->
     attribute e "image" = Some v)
  /\ ((forall k, In k image_candidates -> truthy (get_or_none d k) = false) ->
      attribute e "image" = Some (nested_image_url d)).
Proof.
  intros H. unfold normalize in H.
  invert_bind H. apply image_url_of_value in E.
  repeat invert_bind H. injection H as <-. cbn [attribute dict_get String.eqb Ascii.eqb Bool.eqb].
  cbn. split.
  - intros tried k rest v Hsplit Htried Hk Hv.
    assert (Hget : get_or_none d k = v) by (unfold get_or_none; now rewrite Hk).
    destruct tried as [| k1 [| k2 [| k3 tried]]]; cbn in Hsplit.
    + injection Hsplit as <- _. rewrite Hget, Hv in E. congruence.
    + injection Hsplit as <- <- _.
      rewrite (Htried "image_url" (or_introl eq_refl)), Hget, Hv in E.
      congruence.
    + injection Hsplit as <- <- <- _.
      rewrite (Htried "image_url" (or_introl eq_refl)),
        (Htried "image" (or_intror (or_introl eq_refl))), Hget, Hv in E.
      congruence.
    + injection Hsplit as _ _ _ Hnil. now destruct tried.
  - intros Hnone.
    rewrite (Hnone "image_url"), (Hnone "image"), (Hnone "cover_image") in E
      by (cbn; tauto).
    congruence.
Qed.

Lemma normalize_image_priority_witness :
  exists e,
    normalize (VDict sample_full_record) "dune" "book" = Ok e
    /\ attribute e "image" = Some (VStr "https://img/dune.jpg").
Proof.
  eexists. split; [reflexivity |].
  apply (proj1 (normalize_image_priority sample_full_record "dune" "book"
                  _ eq_refl) ["image_url"] "image" ["cover_image"]);
    try reflexivity.
  intros k' [<- | []]. reflexivity.
Defined.

(** ** [search_entities], continued *)

Lemma down_from_le n m (up : upstream_api) :
  n <= m -> down_from n up -> down_from m up.
Proof. intros Hle H k req Hk. apply H. lia. Qed.

Lemma iter_first5_length v n results :
  py_len v = Ok n -> 0 < n -> py_iter_first5 v = Ok results ->
  1 <= List.length results <= 5.
Proof.
  destruct v as [| | | | s | l | d]; cbn [py_len py_iter_first5];
    try (intros H; discriminate H); try (intros _ _ H; discriminate H).
  - intros H1 Hn H2.
    assert (Hn' : n = String.length s) by congruence.
    assert (Hr : results = firstn 5 (chars s)) by congruence.
    assert (Hlen : List.length (chars s) = String.length s).
    { clear. induction s; cbn [chars List.length String.length]; congruence. }
    rewrite Hr, length_firstn, Hlen. lia.
  - intros H1 Hn H2.
    assert (Hn' : n = List.length l) by congruence.
    assert (Hr : results = firstn 5 l) by congruence.
    rewrite Hr, length_firstn. lia.
Qed.

Lemma in_firstn {A} k (l : list A) x : In x (firstn k l) -> In x l.
Proof.
  revert l. induction k as [| k IH]; intros [| y l]; cbn [firstn In];
    try contradiction.
  intros [-> | H]; [now left | right; auto].
Qed.

Section search_properties_continued.

Variable QLOO_API_BASE : string.
Variable QLOO_API_KEY : option string.

Local Abbreviation search := (search_entities QLOO_API_BASE QLOO_API_KEY).
Local Abbreviation direct := (direct_search QLOO_API_BASE QLOO_API_KEY).
Local Abbreviation collect := (collect_entities QLOO_API_BASE QLOO_API_KEY).
Local Abbreviation lookup := (full_details_of QLOO_API_BASE QLOO_API_KEY).

(** The guarded lookup never raises and makes at most one call. *)
Lemma full_details_of_returns entity_type id (up : upstream_api) n :
  exists v n', lookup entity_type id up n = (Ok v, n') /\ n <= n' <= S n.
Proof.
  unfold full_details_of.
  destruct (truthy id); [| exists VNone, n; split; [reflexivity | lia]].
  unfold try_except, bind, requests_get, lift, ret.
  destruct (up n _) as [e | ok json];
    [exists VNone, (S n); split; [reflexivity | lia] |].
  destruct ok; [| exists VNone, (S n); split; [reflexivity | lia]].
  destruct json as [data | e];
    [| exists VNone, (S n); split; [reflexivity | lia]].
  destruct (has_first_entity data) as [[|] | e];
    try (exists VNone, (S n); split; [reflexivity | lia]).
  destruct (rbind _ _) as [v | e];
    eexists; exists (S n); (split; [reflexivity | lia]).
Qed.

(** Without an ok response the lookup gives [None]. *)
Lemma full_details_of_down entity_type id (up : upstream_api) n :
  down_from n up ->
  exists n', lookup entity_type id up n = (Ok VNone, n') /\ n <= n' <= S n.
Proof.
  intros Hdown. unfold full_details_of.
  destruct (truthy id); [| exists n; split; [reflexivity | lia]].
  unfold try_except, bind, requests_get, lift, ret.
  match goal with
  | |- context [up n ?r] =>
      destruct (Hdown n r (le_n n)) as [[e ->] | [json ->]]
  end; exists (S n); (split; [reflexivity | lia]).
Qed.

Lemma collect_entities_length query entity_type results :
  forall acc (up : upstream_api) n entities n',
    collect query entity_type results acc up n = (Ok entities, n') ->
    List.length entities = List.length acc + List.length results
    /\ n <= n' <= n + List.length results.
Proof.
  induction results as [| r rest IH]; intros acc up n entities n' H.
  - cbn in H. injection H as <- <-. cbn [List.length]. lia.
  - cbn [collect_entities] in H. unfold bind, lift in H.
    destruct (py_get r "entity_id" VNone) as [id | e]; [| discriminate H].
    destruct (full_details_of_returns entity_type id up n)
      as (fd & n1 & Hfd & Hn1).
    rewrite Hfd in H.
    destruct (normalize _ query entity_type) as [entity | e];
      [| discriminate H].
    apply IH in H. rewrite length_app in H. cbn [List.length] in *. lia.
Qed.

Lemma direct_search_returns query entity_type (up : upstream_api) n :
  exists r n', direct query entity_type up n = (Ok r, n').
Proof.
  unfold direct_search, try_except.
  destruct (bind _ _ up n) as [[r | e] n']; now eexists; eexists.
Qed.

(** X11: when the direct search returns results, they are between one and
    five entities, and the block has made at most six upstream calls: the
    search and one lookup per entity. *)
Theorem direct_search_at_most_five query entity_type (up : upstream_api)
    n r n' :
  direct query entity_type up n = (Ok (Some r), n') ->
  exists entities,
    r = VDict [("results", VList entities)]
    /\ 1 <= List.length entities <= 5
    /\ n' <= n + 6.
Proof.
  unfold direct_search, try_except, bind, requests_get, lift, ret.
  destruct (up n _) as [e | ok json]; [discriminate |].
  destruct ok; [| discriminate].
  destruct json as [data | e]; [| discriminate].
  destruct (py_and _ _) as [[|] | e] eqn:Hnonempty; try discriminate.
  unfold py_and, rbind in Hnonempty.
  destruct (py_in "results" data) as [[|] | e]; try discriminate.
  destruct (py_getitem data "results") as [results | e];
    [| discriminate].
  cbn [rbind].
  destruct (py_len results) as [len | e] eqn:Hlen; [| discriminate].
  injection Hnonempty as Hpos. apply Nat.ltb_lt in Hpos.
  destruct (py_iter_first5 results) as [items | e] eqn:Hitems;
    [| discriminate].
  pose proof (iter_first5_length results len items Hlen Hpos Hitems) as Hfive.
  destruct (collect_entities _ _ _ _ items [] up (S n))
    as [[entities | e] n2] eqn:Hcollect; [| discriminate].
  intros [= <- <-].
  apply collect_entities_length in Hcollect. cbn [List.length] in Hcollect.
  exists entities. split; [reflexivity | lia].
Qed.

(** X12: the handler raises exactly when the lookup of the resolved
    entity's details raises, and then with status 500; in every other case
    it returns a result. *)
Theorem search_entities_raises_iff_details_lookup_raises query entity_type
    (up : upstream_api) n e n' :
  search query entity_type up n = (Raise e, n') <->
  exists id n1 e0,
    fetch_entity_id QLOO_API_BASE QLOO_API_KEY query entity_type up n
      = (Ok id, n1)
    /\ resolved_entity_details QLOO_API_BASE QLOO_API_KEY entity_type id
         up n1 = (Raise e0, n')
    /\ e = Exn (HTTPException 500) ("Search failed: " ++ str_of e0).
Proof.
  split.
  - destruct (fetch_entity_id_returns QLOO_API_BASE QLOO_API_KEY
                query entity_type up n) as (id & n1 & Hfetch).
    unfold search_entities, try_except, bind. rewrite Hfetch.
    destruct (resolved_entity_details _ _ entity_type id up n1)
      as [[[r |] | e0] n2] eqn:Hdetails.
    + discriminate.
    + destruct (direct_search_returns query entity_type up n2)
        as ([r |] & n3 & ->); discriminate.
    + intros [= <- <-]. now exists id, n1, e0.
  - intros (id & n1 & e0 & Hfetch & Hdetails & ->).
    now apply (search_entities_first_block_raises _ _ _ _ _ _ _ _ _ _
                 Hfetch Hdetails).
Qed.

Lemma collect_entities_down query entity_type results :
  forall acc (up : upstream_api) n,
    down_from n up ->
    forallb well_shaped_value results = true ->
    exists entities n',
      collect query entity_type results acc up n
        = (Ok (acc ++ entities)%list, n')
      /\ Forall2 (fun record entity =>
                    normalize record query entity_type = Ok entity)
                 results entities.
Proof.
  induction results as [| r rest IH]; intros acc up n Hdown Hshape.
  - exists [], n. rewrite app_nil_r. split; [reflexivity | constructor].
  - cbn [forallb] in Hshape. apply andb_true_iff in Hshape as [Hr Hrest].
    destruct r as [| | | | | | d]; try discriminate Hr.
    cbn [well_shaped_value] in Hr.
    cbn [collect_entities]. unfold bind, lift. cbn [py_get].
    match goal with
    | |- context [full_details_of _ _ entity_type ?id up n] =>
        destruct (full_details_of_down entity_type id up n Hdown)
          as (n1 & -> & Hn1)
    end.
    cbn [truthy].
    destruct (normalize_returns d query entity_type Hr) as [entity Hentity].
    rewrite Hentity.
    destruct (IH (acc ++ [entity])%list up n1
                 (down_from_le n n1 up (proj1 Hn1) Hdown) Hrest)
      as (entities & n2 & Hcollect & Hall).
    exists (entity :: entities), n2.
    rewrite Hcollect, <- app_assoc. split; [reflexivity |].
    now constructor.
Qed.

(** X13: when the search answers with a list of well-shaped records and no
    later call gets an ok response, the direct search still returns one
    entity per record, for the first five records: each is built by
    [normalize] from the search record itself. *)
Theorem direct_search_falls_back_to_search_records query entity_type
    (up : upstream_api) n d record records :
  up n (search_request QLOO_API_BASE QLOO_API_KEY query entity_type)
    = Response true (Ok (VDict d)) ->
  dict_get d "results" = Some (VList (record :: records)) ->
  forallb well_shaped_value (record :: records) = true ->
  down_from (S n) up ->
  exists entities n',
    direct query entity_type up n
      = (Ok (Some (VDict [("results", VList entities)])), n')
    /\ Forall2 (fun r entity => normalize r query entity_type = Ok entity)
               (firstn 5 (record :: records)) entities.
Proof.
  intros Hup Hresults Hshape Hdown.
  assert (Hfirst : forallb well_shaped_value (firstn 5 (record :: records))
                   = true).
  { rewrite forallb_forall in *. intros x Hx. apply Hshape.
    revert Hx. apply in_firstn. }
  destruct (collect_entities_down query entity_type
              (firstn 5 (record :: records)) [] up (S n) Hdown Hfirst)
    as (entities & n' & Hcollect & Hall).
  exists entities, n'. split; [| exact Hall].
  unfold direct_search, try_except, bind, requests_get, lift, ret.
  rewrite Hup.
  unfold py_and, py_in, py_getitem, rbind. rewrite Hresults.
  cbn [py_len List.length Nat.ltb Nat.leb py_iter_first5].
  cbn [app] in Hcollect. now rewrite Hcollect.
Qed.

End search_properties_continued.

Lemma direct_search_at_most_five_witness :
  exists entities,
    VDict [("results",
            VList [VDict [("entity_id", VStr "E1"); ("name", VStr "Dune");
                          ("type", VStr "book"); ("image", VNone);
                          ("image_url", VNone); ("rating", VNone);
                          ("rating_count", VNone); ("author", VNone);
                          ("properties",
                           VDict [("short_description", VNone);
                                  ("description", VNone);
                                  ("publication_year", VNone);
                                  ("publication_date", VNone);
                                  ("genre", VNone); ("page_count", VNone);
                                  ("language", VNone); ("publisher", VNone);
                                  ("isbn13", VNone); ("format", VNone);
                                  ("image", VNone)]);
                          ("external", VNone)]])]
    = VDict [("results", VList entities)]
    /\ 1 <= List.length entities <= 5
    /\ 2 <= 0 + 6.
Proof.
  apply (direct_search_at_most_five "https://hackathon.api.qloo.com"
           (Some "key") "Dune" "book" sample_upstream_insights_down 0 _ 2).
  reflexivity.
Defined.

Lemma search_entities_raises_iff_details_lookup_raises_witness :
  exists id n1 e0,
    fetch_entity_id "https://hackathon.api.qloo.com" (Some "key")
      "Dune" "book" sample_upstream_insights_garbled 0 = (Ok id, n1)
    /\ resolved_entity_details "https://hackathon.api.qloo.com" (Some "key")
         "book" id sample_upstream_insights_garbled n1 = (Raise e0, 2)
    /\ Exn (HTTPException 500) "Search failed: Expecting value"
       = Exn (HTTPException 500) ("Search failed: " ++ str_of e0).
Proof.
  apply (proj1 (search_entities_raises_iff_details_lookup_raises
                  "https://hackathon.api.qloo.com" (Some "key")
                  "Dune" "book" sample_upstream_insights_garbled 0 _ 2)).
  reflexivity.
Defined.

Lemma sample_upstream_search_only_down : down_from 1 sample_upstream_search_only.
Proof.
  intros m req Hm. left. destruct m as [| m']; [lia |].
  now eexists.
Qed.

Lemma direct_search_falls_back_to_search_records_witness :
  exists entities n',
    direct_search "https://hackathon.api.qloo.com" (Some "key")
      "Dune" "book" sample_upstream_search_only 0
    = (Ok (Some (VDict [("results", VList entities)])), n')
    /\ Forall2 (fun r entity => normalize r "Dune" "book" = Ok entity)
               [VDict sample_full_record; VDict sample_bare_record]
               entities.
Proof.
  apply (direct_search_falls_back_to_search_records
           "https://hackathon.api.qloo.com" (Some "key") "Dune" "book"
           sample_upstream_search_only 0
           [("results",
             VList [VDict sample_full_record; VDict sample_bare_record])]
           (VDict sample_full_record) [VDict sample_bare_record]);
    try reflexivity.
  exact sample_upstream_search_only_down.
Defined.

(* ===================================================================== *)
(** * Further properties of auth_routes.py *)
(* ===================================================================== *)

Lemma fold_max_ge ids x : In x ids -> (x <= fold_right Z.max 0 ids)%Z.
Proof.
  induction ids as [| y rest IH]; cbn [In fold_right]; [contradiction |].
  intros [-> | H]; [lia | specialize (IH H); lia].
Qed.

(** The next primary key is not in use. *)
Lemma next_id_fresh ids : ~ In (next_id ids) ids.
Proof.
  intros H. apply fold_max_ge in H. unfold next_id in H. lia.
Qed.

Lemma NoDup_snoc {A} (l : list A) x :
  NoDup l -> ~ In x l -> NoDup (l ++ [x]).
Proof.
  intros Hl Hx. induction Hl as [| y l Hy Hl IH]; cbn [app].
  - constructor; [intros [] | constructor].
  - constructor.
    + rewrite in_app_iff. cbn [In]. intros [H | [-> | []]];
        [now apply Hy | apply Hx; now left].
    + apply IH. intros H. apply Hx. now right.
Qed.

Lemma find_snoc {A} (p : A -> bool) l x :
  find p (l ++ [x]) =
  match find p l with
  | Some y => Some y
  | None => if p x then Some x else None
  end.
Proof.
  induction l as [| y l IH]; cbn [app find]; [reflexivity |].
  now destruct (p y).
Qed.

Lemma find_update_first_other {A} (p q : A -> bool) (f : A -> A) rows :
  (forall y, p y = true -> q y = false) ->
  (forall y, q (f y) = q y) ->
  find q (update_first p f rows) = find q rows.
Proof.
  intros Hpq Hq. induction rows as [| row rest IH];
    cbn [update_first find]; [reflexivity |].
  destruct (p row) eqn:Hp; cbn [find].
  - now rewrite Hq, (Hpq row Hp).
  - now rewrite IH.
Qed.

Lemma find_none_iff {A} (p : A -> bool) l :
  find p l = None <-> forall x, In x l -> p x = false.
Proof.
  split.
  - intros H x Hx. exact (find_none p l H x Hx).
  - induction l as [| y l IH]; cbn [find]; [reflexivity |].
    intros H. rewrite (H y (or_introl eq_refl)). apply IH.
    intros x Hx. apply H. now right.
Qed.

Section account_properties.

Variable get_password_hash : string -> string.
Variable verify_password : string -> string -> bool.
Variable verify_token : string -> option string.
Variable create_access_token : string -> Z -> string.
Variable ACCESS_TOKEN_EXPIRE_MINUTES : Z.

Local Abbreviation register_ :=
  (register get_password_hash create_access_token ACCESS_TOKEN_EXPIRE_MINUTES).
Local Abbreviation login_ :=
  (login verify_password create_access_token ACCESS_TOKEN_EXPIRE_MINUTES).
Local Abbreviation me := (get_current_user_info verify_token).
Local Abbreviation preferences_of := (get_preferences verify_token).
Local Abbreviation save_prefs := (save_preferences verify_token).

(** The account that a successful registration stores. *)
Lemma register_accepted user_data db :
  (forall u, In u (users db) ->
             User.username u <> UserCreate.username user_data
             /\ User.email u <> UserCreate.email user_data) ->
  exists user,
    User.username user = UserCreate.username user_data
    /\ User.email user = UserCreate.email user_data
    /\ User.hashed_password user
       = get_password_hash (UserCreate.password user_data)
    /\ User.id user = next_id (map User.id (users db))
    /\ register_ user_data db
       = (Ok {| Token.access_token :=
                  create_access_token (UserCreate.username user_data)
                                      ACCESS_TOKEN_EXPIRE_MINUTES;
                Token.token_type := "bearer" |},
          {| users := (users db ++ [user])%list;
             user_preferences := user_preferences db;
             saved_items := saved_items db |})
    /\ query_user {| users := (users db ++ [user])%list;
                     user_preferences := user_preferences db;
                     saved_items := saved_items db |}
                  (UserCreate.username user_data) = Some user.
Proof.
  intros Hfree.
  assert (Hfind : find (same_username_or_email
                          (UserCreate.username user_data)
                          (UserCreate.email user_data)) (users db) = None).
  { apply find_none_iff. intros u Hu. destruct (Hfree u Hu) as [Hn He].
    unfold same_username_or_email.
    apply String.eqb_neq in Hn, He. now rewrite Hn, He. }
  exists {| User.id := next_id (map User.id (users db));
            User.email := UserCreate.email user_data;
            User.username := UserCreate.username user_data;
            User.hashed_password :=
              get_password_hash (UserCreate.password user_data) |}.
  do 4 (split; [reflexivity |]).
  split; [unfold register; now rewrite Hfind |].
  unfold query_user. cbn [users]. rewrite find_snoc.
  assert (Hnone : find (fun u => User.username u
                                 =? UserCreate.username user_data)
                       (users db) = None).
  { apply find_none_iff. intros u Hu. destruct (Hfree u Hu) as [Hn _].
    now apply String.eqb_neq. }
  rewrite Hnone. cbn [User.username]. now rewrite String.eqb_refl.
Qed.

(** X14: [register] answers with status 400 exactly when an account with
    the same username or the same email exists, and then it stores
    nothing. *)
Theorem register_conflict_iff user_data db :
  (exists u, In u (users db)
             /\ (User.username u = UserCreate.username user_data
                 \/ User.email u = UserCreate.email user_data))
  <-> register get_password_hash create_access_token
        ACCESS_TOKEN_EXPIRE_MINUTES user_data db
      = (Raise (Exn (HTTPException 400)
                  "Username or email already registered"), db).
Proof.
  unfold register.
  destruct (find _ (users db)) as [u |] eqn:Hfind.
  - split; [reflexivity |]. intros _.
    apply find_some in Hfind as [Hin Hu]. exists u. split; [exact Hin |].
    unfold same_username_or_email in Hu. apply orb_true_iff in Hu.
    destruct Hu as [H | H]; apply String.eqb_eq in H; auto.
  - split; [| discriminate].
    intros (u & Hin & Hu). exfalso.
    pose proof (find_none _ _ Hfind u Hin) as Hnone.
    unfold same_username_or_email in Hnone.
    apply orb_false_iff in Hnone as [Hn He].
    apply String.eqb_neq in Hn, He. tauto.
Qed.

(** X15: after a successful registration, a login with the same username
    and password succeeds, and a login with a password that does not verify
    against the stored hash is denied with status 401.  The hypothesis on
    the hash is the contract of the two functions of [app.auth]. *)
Theorem register_then_login user_data db wrong :
  (forall u, In u (users db) ->
             User.username u <> UserCreate.username user_data
             /\ User.email u <> UserCreate.email user_data) ->
  verify_password (UserCreate.password user_data)
                  (get_password_hash (UserCreate.password user_data))
    = true ->
  verify_password wrong (get_password_hash (UserCreate.password user_data))
    = false ->
  let db' := snd (register get_password_hash create_access_token
    ACCESS_TOKEN_EXPIRE_MINUTES user_data db) in
  (exists token, fst (register get_password_hash create_access_token
    ACCESS_TOKEN_EXPIRE_MINUTES user_data db) = Ok token)
  /\ (exists token,
        login_ {| UserLogin.username := UserCreate.username user_data;
                  UserLogin.password := UserCreate.password user_data |} db'
        = Ok token)
  /\ login_ {| UserLogin.username := UserCreate.username user_data;
               UserLogin.password := wrong |} db'
     = Raise (Exn (HTTPException 401) "Incorrect username or password").
Proof.
  intros Hfree Hgood Hbad db'.
  destruct (register_accepted user_data db Hfree)
    as (user & Hn & He & Hh & Hid & Hreg & Hquery).
  subst db'. rewrite Hreg. cbn [fst snd].
  split; [now eexists |].
  unfold login. cbn [UserLogin.username UserLogin.password].
  rewrite Hquery, Hh, Hgood, Hbad. cbn [negb].
  split; [now eexists | reflexivity].
Qed.

(** X16: after a successful registration, [GET /me] with the token that
    [register] returned gives the username and the email of the new
    account, under an id that no account had before.  The hypothesis says
    that [verify_token] reads the token of the new username back, the
    contract of the two functions of [app.auth]. *)
Theorem register_then_me user_data db :
  (forall u, In u (users db) ->
             User.username u <> UserCreate.username user_data
             /\ User.email u <> UserCreate.email user_data) ->
  verify_token (create_access_token (UserCreate.username user_data)
                                    ACCESS_TOKEN_EXPIRE_MINUTES)
    = Some (UserCreate.username user_data) ->
  exists token id,
    fst (register get_password_hash create_access_token
    ACCESS_TOKEN_EXPIRE_MINUTES user_data db) = Ok token
    /\ me (Token.access_token token) (snd (register get_password_hash create_access_token
    ACCESS_TOKEN_EXPIRE_MINUTES user_data db))
       = Ok {| UserResponse.id := id;
               UserResponse.username := UserCreate.username user_data;
               UserResponse.email := UserCreate.email user_data |}
    /\ ~ In id (map User.id (users db)).
Proof.
  intros Hfree Htoken.
  destruct (register_accepted user_data db Hfree)
    as (user & Hn & He & Hh & Hid & Hreg & Hquery).
  rewrite Hreg. cbn [fst snd]. eexists. exists (User.id user).
  split; [reflexivity |]. split.
  - cbn [Token.access_token].
    unfold get_current_user_info, resolve_user.
    rewrite Htoken, Hquery. now rewrite Hn, He.
  - rewrite Hid. apply next_id_fresh.
Qed.

(** X17: [register] keeps the usernames, the emails and the ids of the
    accounts pairwise distinct. *)
Theorem register_keeps_accounts_distinct user_data db :
  NoDup (map User.username (users db)) ->
  NoDup (map User.email (users db)) ->
  NoDup (map User.id (users db)) ->
  let db' := snd (register get_password_hash create_access_token
    ACCESS_TOKEN_EXPIRE_MINUTES user_data db) in
  NoDup (map User.username (users db'))
  /\ NoDup (map User.email (users db'))
  /\ NoDup (map User.id (users db')).
Proof.
  intros Hn He Hi db'. subst db'. unfold register.
  destruct (find _ (users db)) as [u |] eqn:Hfind; cbn [snd users];
    [now repeat split |].
  rewrite !map_app. cbn [map User.username User.email User.id].
  assert (Hfree : forall u, In u (users db) ->
            User.username u <> UserCreate.username user_data
            /\ User.email u <> UserCreate.email user_data).
  { intros u Hu. pose proof (find_none _ _ Hfind u Hu) as Hnone.
    unfold same_username_or_email in Hnone.
    apply orb_false_iff in Hnone as [H1 H2].
    now apply String.eqb_neq in H1, H2. }
  repeat split; apply NoDup_snoc; try assumption.
  - intros H. apply in_map_iff in H as (u & Hu & Hin).
    now destruct (Hfree u Hin).
  - intros H. apply in_map_iff in H as (u & Hu & Hin).
    now destruct (Hfree u Hin).
  - apply next_id_fresh.
Qed.

(** X18: for a token that does not verify, or whose account no longer
    exists, [GET /me] answers with status 500, not 401: its two
    [HTTPException(401)] are raised inside the [try] whose handler catches
    every exception.  [GET /preferences] answers the same request with
    status 401. *)
Theorem me_answers_500_where_preferences_answers_401 token db e :
  resolve_user verify_token token db = Raise e ->
  me token db = Raise (Exn (HTTPException 500) "Internal server error")
  /\ preferences_of token db = Raise e
  /\ kind e = HTTPException 401.
Proof.
  intros H. unfold get_current_user_info, get_preferences. rewrite H.
  split; [reflexivity |]. split; [reflexivity |].
  unfold resolve_user, unauthorized in H.
  destruct (verify_token token) as [username |];
    [destruct (query_user db username) |]; try discriminate H;
    now injection H as <-.
Qed.

(** What [save_preferences] stores for the account, in both branches. *)
Lemma save_preferences_stores preferences token db username user :
  verify_token token = Some username ->
  query_user db username = Some user ->
  let db' := snd (save_prefs preferences token db) in
  users db' = users db
  /\ saved_items db' = saved_items db
  /\ (exists row,
        query_preference db' (User.id user)
          = Some (assign_preferences preferences row)
        /\ UserPreference.user_id row = User.id user)
  /\ (forall uid, uid <> User.id user ->
        query_preference db' uid = query_preference db uid)
  /\ (forall uid,
        List.length (preference_rows_of uid db')
        = if (uid =? User.id user)%Z
          then Nat.max 1 (List.length (preference_rows_of uid db))
          else List.length (preference_rows_of uid db)).
Proof.
  intros Htoken Huser db'. subst db'. unfold save_preferences.
  rewrite Htoken, Huser. cbn [snd users saved_items user_preferences].
  split; [reflexivity |]. split; [reflexivity |].
  unfold query_preference, preference_rows_of. cbn [user_preferences].
  destruct (find _ (user_preferences db)) as [existing |] eqn:Hfind.
  - split; [| split].
    + exists existing. split.
      * now apply find_update_first.
      * apply find_some in Hfind as [_ H]. now apply Z.eqb_eq in H.
    + intros uid Huid. apply find_update_first_other; [| reflexivity].
      intros y Hy. apply Z.eqb_eq in Hy. apply Z.eqb_neq. congruence.
    + intros uid.
      rewrite filter_length_update_first by reflexivity.
      destruct (Z.eqb_spec uid (User.id user)) as [-> | Hne]; [| reflexivity].
      destruct (find_some_filter _ _ _ Hfind) as [rest ->].
      cbn [List.length]. lia.
  - split; [| split].
    + eexists. rewrite find_snoc, Hfind.
      cbn [assign_preferences UserPreference.user_id].
      rewrite Z.eqb_refl. split; reflexivity.
    + intros uid Huid. rewrite find_snoc.
      cbn [assign_preferences UserPreference.user_id].
      apply Z.eqb_neq in Huid. rewrite Z.eqb_sym in Huid. rewrite Huid.
      match goal with |- match ?f with _ => _ end = _ => now destruct f end.
    + intros uid. rewrite filter_app, length_app. cbn [filter].
      cbn [assign_preferences UserPreference.user_id].
      rewrite (Z.eqb_sym (User.id user) uid).
      destruct (Z.eqb_spec uid (User.id user)) as [-> | Hne];
        cbn [List.length]; [| lia].
      rewrite (find_none_filter _ _ Hfind). reflexivity.
Qed.

(** X19: whether the account had a preference row or not, after a
    successful [POST /preferences] the same account's [GET /preferences]
    returns, for each of the five fields, what the request body held under
    that key, and [None] for a key the body did not have. *)
Theorem save_then_get_preferences preferences token db username user :
  verify_token token = Some username ->
  query_user db username = Some user ->
  preferences_of token (snd (save_prefs preferences token db))
  = Ok (preferences_view preferences).
Proof.
  intros Htoken Huser.
  destruct (save_preferences_stores preferences token db username user
              Htoken Huser) as (Husers & _ & (row & Hrow & _) & _).
  unfold get_preferences, resolve_user, query_user.
  rewrite Htoken, Husers. fold (query_user db username). rewrite Huser.
  unfold stored_preferences. now rewrite Hrow.
Qed.

(** X20: [save_preferences] changes nothing but the caller's preference
    row: the accounts, the saved items and the preferences that every other
    account reads are the same as before; when the token does not resolve
    to an account, the answer is status 401 and the store is unchanged. *)
Theorem save_preferences_frame preferences token db :
  (forall e, resolve_user verify_token token db = Raise e ->
             save_prefs preferences token db = (Raise e, db))
  /\ (forall user, resolve_user verify_token token db = Ok user ->
        let db' := snd (save_prefs preferences token db) in
        users db' = users db
        /\ saved_items db' = saved_items db
        /\ forall uid, uid <> User.id user ->
             stored_preferences db' uid = stored_preferences db uid).
Proof.
  split.
  - intros e H. unfold resolve_user in H. unfold save_preferences.
    destruct (verify_token token) as [username |];
      [destruct (query_user db username) |]; try discriminate H;
      now injection H as <-.
  - intros user H db'.
    unfold resolve_user in H.
    destruct (verify_token token) as [username |] eqn:Htoken;
      [| discriminate H].
    destruct (query_user db username) as [u |] eqn:Huser;
      [| discriminate H].
    injection H as ->.
    destruct (save_preferences_stores preferences token db username user
                Htoken Huser) as (Husers & Hitems & _ & Hother & _).
    split; [exact Husers |]. split; [exact Hitems |].
    intros uid Huid. subst db'. unfold stored_preferences.
    now rewrite (Hother uid Huid).
Qed.

(** X21: [save_preferences] never leaves an account with more than one
    preference row, if none had more than one before: the first save adds
    the row and every later save updates it. *)
Theorem save_preferences_keeps_one_row_per_account preferences token db :
  (forall uid, List.length (preference_rows_of uid db) <= 1) ->
  forall uid,
    List.length (preference_rows_of uid
                   (snd (save_prefs preferences token db))) <= 1.
Proof.
  intros Hone uid.
  destruct (verify_token token) as [username |] eqn:Htoken.
  - destruct (query_user db username) as [user |] eqn:Huser.
    + destruct (save_preferences_stores preferences token db username user
                  Htoken Huser) as (_ & _ & _ & _ & Hlen).
      rewrite (Hlen uid). specialize (Hone uid).
      destruct (uid =? User.id user)%Z; lia.
    + unfold save_preferences. rewrite Htoken, Huser. apply Hone.
  - unfold save_preferences. rewrite Htoken. apply Hone.
Qed.

End account_properties.

Lemma register_then_login_witness :
  exists token,
    login sample_verify_password sample_create_access_token 30
      {| UserLogin.username := "bob"; UserLogin.password := "hunter2" |}
      (snd (register sample_get_password_hash sample_create_access_token 30
              sample_registration sample_database))
    = Ok token.
Proof.
  refine (proj1 (proj2
    (register_then_login sample_get_password_hash sample_verify_password
       sample_create_access_token 30 sample_registration sample_database
       "letmein" _ eq_refl eq_refl))).
  intros u [<- | []]. split; discriminate.
Defined.

Lemma register_then_me_witness :
  exists token id,
    fst (register sample_get_password_hash sample_create_access_token 30
           sample_registration sample_database) = Ok token
    /\ get_current_user_info sample_decode_token (Token.access_token token)
         (snd (register sample_get_password_hash sample_create_access_token
                 30 sample_registration sample_database))
       = Ok {| UserResponse.id := id;
               UserResponse.username := "bob";
               UserResponse.email := "b@x.com" |}
    /\ ~ In id (map User.id (users sample_database)).
Proof.
  apply (register_then_me sample_get_password_hash sample_decode_token
           sample_create_access_token 30 sample_registration
           sample_database).
  - intros u [<- | []]. split; discriminate.
  - reflexivity.
Defined.

Lemma register_keeps_accounts_distinct_witness :
  NoDup (map User.username
           (users (snd (register sample_get_password_hash
                          sample_create_access_token 30 sample_registration
                          sample_database)))).
Proof.
  refine (proj1 (register_keeps_accounts_distinct sample_get_password_hash
                   sample_create_access_token 30 sample_registration
                   sample_database _ _ _));
    repeat constructor; intros [].
Defined.

Lemma me_answers_500_where_preferences_answers_401_witness :
  get_current_user_info sample_verify_token "expired" sample_database
  = Raise (Exn (HTTPException 500) "Internal server error")
  /\ get_preferences sample_verify_token "expired" sample_database
     = Raise (Exn (HTTPException 401) "Could not validate credentials").
Proof.
  destruct (me_answers_500_where_preferences_answers_401
              sample_verify_token "expired" sample_database
              (Exn (HTTPException 401) "Could not validate credentials")
              eq_refl) as (Hme & Hpref & _).
  now split.
Defined.

Lemma save_then_get_preferences_witness :
  get_preferences sample_verify_token "token-for-alice"
    (snd (save_preferences sample_verify_token
            [("movie_name", Some "Arrival"); ("age", Some "36_to_55")]
            "token-for-alice" sample_database))
  = Ok [("movie_name", Some "Arrival"); ("book_name", None);
        ("place_name", None); ("age", Some "36_to_55"); ("gender", None)].
Proof.
  apply (save_then_get_preferences sample_verify_token
           [("movie_name", Some "Arrival"); ("age", Some "36_to_55")]
           "token-for-alice" sample_database "alice"
           {| User.id := 7; User.email := "a@x.com"; User.username := "alice";
              User.hashed_password := "hash-of-pw123" |});
    reflexivity.
Defined.

Lemma save_preferences_keeps_one_row_per_account_witness :
  List.length
    (preference_rows_of 7
       (snd (save_preferences sample_verify_token
               [("movie_name", Some "Arrival")] "token-for-alice"
               sample_database))) <= 1.
Proof.
  apply save_preferences_keeps_one_row_per_account.
  intros uid. unfold preference_rows_of, sample_database.
  cbn [user_preferences filter].
  destruct (_ =? uid)%Z; cbn [List.length]; lia.
Defined.

(* ===================================================================== *)
(** * Further properties of saved_items_routes.py *)
(* ===================================================================== *)

Lemma filter_head_find {A} (p : A -> bool) rows x rest :
  filter p rows = x :: rest -> find p rows = Some x.
Proof.
  induction rows as [| row rows IH]; cbn [filter find]; [discriminate |].
  destruct (p row); [now intros [= -> _] | exact IH].
Qed.

Lemma filter_update_first_other {A} (p q : A -> bool) (f : A -> A) rows :
  (forall y, p y = true -> q y = false) ->
  (forall y, q (f y) = q y) ->
  filter q (update_first p f rows) = filter q rows.
Proof.
  intros Hpq Hq. induction rows as [| row rest IH];
    cbn [update_first filter]; [reflexivity |].
  destruct (p row) eqn:Hp; cbn [filter].
  - now rewrite Hq, (Hpq row Hp).
  - now rewrite IH.
Qed.

Lemma filter_delete_first {A} (p : A -> bool) rows :
  filter p (delete_first p rows) = tl (filter p rows).
Proof.
  induction rows as [| row rest IH]; cbn [delete_first filter];
    [reflexivity |].
  destruct (p row) eqn:Hp; [reflexivity |].
  cbn [filter]. now rewrite Hp.
Qed.

Lemma filter_delete_first_other {A} (p q : A -> bool) rows :
  (forall y, p y = true -> q y = false) ->
  filter q (delete_first p rows) = filter q rows.
Proof.
  intros Hpq. induction rows as [| row rest IH];
    cbn [delete_first filter]; [reflexivity |].
  destruct (p row) eqn:Hp.
  - now rewrite (Hpq row Hp).
  - cbn [filter]. now rewrite IH.
Qed.

Lemma map_id_update_first p b rows :
  map SavedItem.id (update_first p (set_favorited b) rows)
  = map SavedItem.id rows.
Proof.
  induction rows as [| row rest IH]; cbn [update_first map]; [reflexivity |].
  destruct (p row); cbn [map]; [reflexivity | now rewrite IH].
Qed.

Lemma forallb_update_first {A} (p q : A -> bool) (f : A -> A) rows :
  (forall y, q (f y) = q y) ->
  forallb q (update_first p f rows) = forallb q rows.
Proof.
  intros Hq. induction rows as [| row rest IH];
    cbn [update_first forallb]; [reflexivity |].
  destruct (p row); cbn [forallb]; [now rewrite Hq | now rewrite IH].
Qed.

Lemma matches_other_pair uid iid uid' iid' row :
  uid' <> uid \/ iid' <> iid ->
  saved_item_matches uid iid row = true ->
  saved_item_matches uid' iid' row = false.
Proof.
  intros Hne H.
  destruct (saved_item_matches uid' iid' row) eqn:H'; [| reflexivity].
  destruct (matches_inj uid iid uid' iid' row H H'). tauto.
Qed.

Lemma filter_and_length {A} (f g : A -> bool) l :
  List.length (filter (fun x => f x && g x) l)
  = List.length (filter g (filter f l)).
Proof.
  induction l as [| x l IH]; cbn [filter]; [reflexivity |].
  destruct (f x); cbn [andb filter]; [| exact IH].
  destruct (g x); cbn [List.length]; congruence.
Qed.

(** The responses listed for rows that all have an item id. *)
Lemma listed_responses_returns rows :
  forallb has_item_id rows = true ->
  exists responses,
    listed_responses rows = Ok responses
    /\ Forall2 (fun row response =>
                  SavedItem.item_id row
                    = Some (SavedItemResponse.item_id response)
                  /\ SavedItem.favorited row
                     = SavedItemResponse.favorited response)
               rows responses.
Proof.
  induction rows as [| row rest IH]; intros H.
  - exists []. split; [reflexivity | constructor].
  - cbn [forallb] in H. apply andb_true_iff in H as [Hrow Hrest].
    destruct (IH Hrest) as (responses & Hresp & Hall).
    cbn [listed_responses]. unfold listed_response_of, has_item_id in *.
    destruct (SavedItem.item_id row) as [iid |] eqn:Hid; [| discriminate].
    cbn [rbind]. rewrite Hresp. cbn [rbind].
    eexists. split; [reflexivity |]. constructor; [| exact Hall].
    now split.
Qed.

Lemma listed_ids_count rows responses iid :
  Forall2 (fun row response =>
             SavedItem.item_id row
               = Some (SavedItemResponse.item_id response)
             /\ SavedItem.favorited row
                = SavedItemResponse.favorited response)
          rows responses ->
  count_occ string_dec (map SavedItemResponse.item_id responses) iid
  = List.length (filter (item_id_is iid) rows).
Proof.
  induction 1 as [| row response rows responses [Hid _] _ IH];
    [reflexivity |].
  cbn [map count_occ filter]. unfold item_id_is at 1. rewrite Hid.
  destruct (string_dec (SavedItemResponse.item_id response) iid) as [-> | Hne].
  - rewrite String.eqb_refl. cbn [List.length]. now rewrite IH.
  - apply String.eqb_neq in Hne. now rewrite Hne.
Qed.

Section saved_items_properties_continued.

Variable verify_token : string -> option string.

Local Abbreviation save := (save_item verify_token).
Local Abbreviation remove := (remove_saved_item verify_token).
Local Abbreviation check := (check_if_saved verify_token).
Local Abbreviation list_items := (get_saved_items verify_token).
Local Abbreviation resolve := (resolve_user verify_token).

Lemma resolve_user_ok token db user :
  resolve token db = Ok user <->
  exists username,
    verify_token token = Some username /\ query_user db username = Some user.
Proof.
  unfold resolve_user, unauthorized.
  destruct (verify_token token) as [username |].
  - destruct (query_user db username) as [u |] eqn:Hu.
    + split; [intros [= ->]; now exists username |].
      intros (username' & [= <-] & H). congruence.
    + split; [discriminate |]. intros (username' & [= <-] & H). congruence.
  - split; [discriminate | intros (username' & H & _); discriminate H].
Qed.

(** A save that is refused stores nothing. *)
Lemma save_item_refused item token now db e :
  fst (save item token now db) = Raise e -> snd (save item token now db) = db.
Proof.
  destruct (String.eqb_spec (SavedItemCreate.item_id item) "") as [Hid | Hid];
    [unfold save_item; now rewrite Hid |].
  destruct (String.eqb_spec (SavedItemCreate.item_name item) "")
    as [Hname | Hname];
    [unfold save_item; rewrite Hname, orb_true_r; reflexivity |].
  destruct (verify_token token) as [username |] eqn:Htoken.
  - destruct (query_user db username) as [user |] eqn:Huser.
    + destruct (save_item_accepted verify_token item token now db username
                  user Hid Hname Htoken Huser) as (_ & _ & r & Hr & _).
      rewrite Hr. discriminate.
    + apply String.eqb_neq in Hid, Hname.
      unfold save_item. now rewrite Hid, Hname, Htoken, Huser.
  - apply String.eqb_neq in Hid, Hname.
    unfold save_item. now rewrite Hid, Hname, Htoken.
Qed.

(** X22: [save_item] touches one pair only: the accounts, the preferences
    and the rows of every other pair (account, item id) are as before, and
    a save that is refused (status 400 or 401) stores nothing. *)
Theorem save_item_frame item token now db :
  let outcome := save item token now db in
  users (snd outcome) = users db
  /\ user_preferences (snd outcome) = user_preferences db
  /\ (forall e, fst outcome = Raise e -> snd outcome = db)
  /\ (forall user uid iid,
        resolve token db = Ok user ->
        uid <> User.id user \/ iid <> SavedItemCreate.item_id item ->
        filter (saved_item_matches uid iid) (saved_items (snd outcome))
        = filter (saved_item_matches uid iid) (saved_items db)).
Proof.
  intros outcome. subst outcome.
  split; [| split; [| split]].
  - unfold save_item.
    destruct (_ || _); [reflexivity |].
    destruct (verify_token token) as [username |]; [| reflexivity].
    destruct (query_user db username) as [user |]; [| reflexivity].
    destruct (query_saved_item _ _ _); [destruct (negb _) |]; reflexivity.
  - unfold save_item.
    destruct (_ || _); [reflexivity |].
    destruct (verify_token token) as [username |]; [| reflexivity].
    destruct (query_user db username) as [user |]; [| reflexivity].
    destruct (query_saved_item _ _ _); [destruct (negb _) |]; reflexivity.
  - apply save_item_refused.
  - intros user uid iid Hresolve Hother.
    apply resolve_user_ok in Hresolve as (username & Htoken & Huser).
    unfold save_item.
    destruct (_ || _); [reflexivity |].
    rewrite Htoken, Huser.
    destruct (query_saved_item _ _ _) as [existing |] eqn:Hq.
    + destruct (negb _); cbn [snd saved_items]; [| reflexivity].
      apply filter_update_first_other; [| reflexivity].
      intros y Hy. now apply (matches_other_pair _ _ uid iid y Hother).
    + cbn [snd saved_items]. rewrite filter_app. cbn [filter].
      match goal with
      | |- context [saved_item_matches uid iid ?row] =>
          assert (Hnew : saved_item_matches uid iid row = false)
      end.
      { apply (matches_other_pair (User.id user)
                 (SavedItemCreate.item_id item) uid iid _ Hother).
        unfold saved_item_matches, item_id_is.
        cbn [SavedItem.user_id SavedItem.item_id].
        now rewrite Z.eqb_refl, String.eqb_refl. }
      rewrite Hnew. apply app_nil_r.
Qed.

(** X23: [save_item] keeps the primary keys of the saved items pairwise
    distinct, and it keeps every stored row with a non-empty item id. *)
Theorem save_item_keeps_rows_well_formed item token now db :
  NoDup (map SavedItem.id (saved_items db)) ->
  all_have_item_id db = true ->
  NoDup (map SavedItem.id (saved_items (snd (save item token now db))))
  /\ all_have_item_id (snd (save item token now db)) = true.
Proof.
  intros Hids Hall. unfold all_have_item_id in *. unfold save_item.
  destruct (SavedItemCreate.item_id item =? "") eqn:Hid;
    [now split |].
  cbn [orb].
  destruct (SavedItemCreate.item_name item =? ""); [now split |].
  destruct (verify_token token) as [username |]; [| now split].
  destruct (query_user db username) as [user |]; [| now split].
  destruct (query_saved_item _ _ _) as [existing |].
  - destruct (negb _); cbn [snd saved_items]; [| now split].
    rewrite map_id_update_first. split; [exact Hids |].
    now rewrite forallb_update_first by reflexivity.
  - cbn [snd saved_items]. rewrite map_app, forallb_app.
    cbn [map SavedItem.id forallb]. split.
    + apply NoDup_snoc; [exact Hids | apply next_id_fresh].
    + rewrite Hall. unfold has_item_id. cbn [SavedItem.item_id].
      destruct (SavedItemCreate.item_id item); [discriminate Hid |].
      reflexivity.
Qed.

(** What [remove_saved_item] does for a resolved account. *)
Lemma remove_saved_item_spec item_id token db user :
  resolve token db = Ok user ->
  let mine := saved_item_matches (User.id user) item_id in
  match filter mine (saved_items db) with
  | [] =>
      remove item_id token db
      = (Raise (Exn (HTTPException 404) "Saved item not found"), db)
  | _ :: rest =>
      fst (remove item_id token db)
      = Ok (VDict [("message", VStr "Item removed from saved list")])
      /\ users (snd (remove item_id token db)) = users db
      /\ user_preferences (snd (remove item_id token db))
         = user_preferences db
      /\ filter mine (saved_items (snd (remove item_id token db))) = rest
      /\ forall uid iid,
           uid <> User.id user \/ iid <> item_id ->
           filter (saved_item_matches uid iid)
                  (saved_items (snd (remove item_id token db)))
           = filter (saved_item_matches uid iid) (saved_items db)
  end.
Proof.
  intros Hresolve mine. unfold remove_saved_item. rewrite Hresolve.
  unfold query_saved_item. fold mine.
  destruct (filter mine (saved_items db)) as [| x rest] eqn:Hfilter.
  - assert (Hnone : find mine (saved_items db) = None).
    { apply find_none_iff. intros y Hy.
      destruct (mine y) eqn:Hm; [| reflexivity].
      assert (Hin : In y (filter mine (saved_items db)))
        by (apply filter_In; now split).
      rewrite Hfilter in Hin. contradiction. }
    now rewrite Hnone.
  - rewrite (filter_head_find _ _ _ _ Hfilter). cbn [fst snd users
      user_preferences saved_items].
    repeat split.
    + now rewrite filter_delete_first, Hfilter.
    + intros uid iid Hother. apply filter_delete_first_other.
      intros y Hy. now apply (matches_other_pair _ _ uid iid y Hother).
Qed.


(** X25: the sequence save, check, remove, check.  On a store with at most
    one row for the pair, an accepted save makes [check_if_saved] answer
    [true]; the removal that follows succeeds, and [check_if_saved] then
    answers [false]. *)
Theorem save_check_remove_check item token now db username user :
  SavedItemCreate.item_id item <> "" ->
  SavedItemCreate.item_name item <> "" ->
  verify_token token = Some username ->
  query_user db username = Some user ->
  rows_for (User.id user) (SavedItemCreate.item_id item) db <= 1 ->
  let iid := SavedItemCreate.item_id item in
  let saved := snd (save item token now db) in
  let removed := snd (remove iid token saved) in
  check iid token saved = Ok (is_saved true)
  /\ fst (remove iid token saved)
     = Ok (VDict [("message", VStr "Item removed from saved list")])
  /\ check iid token removed = Ok (is_saved false).
Proof.
  intros Hid Hname Htoken Huser Hone iid saved removed.
  destruct (save_item_accepted verify_token item token now db username user
              Hid Hname Htoken Huser) as (Husers & Hrows & _).
  fold saved in Husers, Hrows. fold iid in Hrows. unfold rows_for in Hone.
  fold iid in Hone.
  assert (Hsingle : exists row,
             filter (saved_item_matches (User.id user) iid)
                    (saved_items saved) = [row]).
  { rewrite Hrows.
    destruct (filter _ (saved_items db)) as [| x [| y rest]];
      [now eexists | now eexists | cbn [List.length] in Hone; lia]. }
  destruct Hsingle as [row Hrow].
  assert (Hresolve : resolve token saved = Ok user).
  { apply resolve_user_ok. exists username. split; [exact Htoken |].
    unfold query_user. now rewrite Husers. }
  pose proof (remove_saved_item_spec iid token saved user Hresolve) as Hrem.
  cbv zeta in Hrem. rewrite Hrow in Hrem.
  destruct Hrem as (Hfst & Husers2 & _ & Hmine & _). fold removed in Husers2, Hmine.
  assert (Hresolve2 : resolve token removed = Ok user).
  { apply resolve_user_ok. exists username. split; [exact Htoken |].
    unfold query_user. rewrite Husers2, Husers. exact Huser. }
  split; [| split; [exact Hfst |]].
  - unfold check_if_saved. rewrite Hresolve. cbn [rbind].
    unfold query_saved_item. now rewrite (filter_head_find _ _ _ _ Hrow).
  - unfold check_if_saved. rewrite Hresolve2. cbn [rbind].
    unfold query_saved_item.
    assert (Hnone : find (saved_item_matches (User.id user) iid)
                         (saved_items removed) = None).
    { apply find_none_iff. intros y Hy.
      destruct (saved_item_matches (User.id user) iid y) eqn:Hm;
        [| reflexivity].
      assert (Hin : In y (filter (saved_item_matches (User.id user) iid)
                                 (saved_items removed)))
        by (apply filter_In; now split).
      rewrite Hmine in Hin. contradiction. }
    now rewrite Hnone.
Qed.

(** X26: on a store whose rows all have an item id, [get_saved_items]
    returns a list for every resolved account, and an item id occurs in the
    list as many times as the store has rows for the pair (account, item
    id): rows of other accounts are never listed. *)
Theorem get_saved_items_lists_own_rows token db user :
  resolve token db = Ok user ->
  all_have_item_id db = true ->
  exists responses,
    list_items token db = Ok responses
    /\ forall iid,
         count_occ string_dec
           (map SavedItemResponse.item_id responses) iid
         = rows_for (User.id user) iid db.
Proof.
  intros Hresolve Hall.
  unfold get_saved_items. rewrite Hresolve. cbn [rbind].
  set (own := filter _ (saved_items db)).
  assert (Hown : forallb has_item_id own = true).
  { unfold all_have_item_id in Hall. rewrite forallb_forall in *.
    intros x Hx. apply Hall. unfold own in Hx.
    now apply filter_In in Hx as [Hx _]. }
  destruct (listed_responses_returns own Hown) as (responses & -> & Hrel).
  exists responses. split; [reflexivity |].
  intros iid. rewrite (listed_ids_count own responses iid Hrel).
  unfold rows_for, own, saved_item_matches.
  now rewrite filter_and_length.
Qed.

End saved_items_properties_continued.

Lemma save_item_keeps_rows_well_formed_witness :
  NoDup (map SavedItem.id
           (saved_items (snd (save_item sample_verify_token (sample_item true)
                                "token-for-alice" 10 sample_database_two))))
  /\ all_have_item_id
       (snd (save_item sample_verify_token (sample_item true)
               "token-for-alice" 10 sample_database_two)) = true.
Proof.
  apply save_item_keeps_rows_well_formed; [| reflexivity].
  cbn. repeat constructor; cbn; intuition discriminate.
Defined.


Lemma save_check_remove_check_witness :
  check_if_saved sample_verify_token "m1" "token-for-alice"
    (snd (save_item sample_verify_token (sample_item false)
            "token-for-alice" 10 sample_database_two))
  = Ok (is_saved true)
  /\ check_if_saved sample_verify_token "m1" "token-for-alice"
       (snd (remove_saved_item sample_verify_token "m1" "token-for-alice"
               (snd (save_item sample_verify_token (sample_item false)
                       "token-for-alice" 10 sample_database_two))))
     = Ok (is_saved false).
Proof.
  destruct (save_check_remove_check sample_verify_token (sample_item false)
              "token-for-alice" 10 sample_database_two "alice"
              {| User.id := 7; User.email := "a@x.com";
                 User.username := "alice";
                 User.hashed_password := "hash-of-pw123" |})
    as (Hsaved & _ & Hremoved);
    try reflexivity; try discriminate.
  - cbv. lia.
  - now split.
Defined.

Lemma get_saved_items_lists_own_rows_witness :
  exists responses,
    get_saved_items sample_verify_token "token-for-alice"
      sample_database_two = Ok responses
    /\ count_occ string_dec (map SavedItemResponse.item_id responses) "m1"
       = 0
    /\ count_occ string_dec (map SavedItemResponse.item_id responses) "E9"
       = 1.
Proof.
  destruct (get_saved_items_lists_own_rows sample_verify_token
              "token-for-alice" sample_database_two
              {| User.id := 7; User.email := "a@x.com";
                 User.username := "alice";
                 User.hashed_password := "hash-of-pw123" |}
              eq_refl eq_refl) as (responses & Hlist & Hcount).
  exists responses. split; [exact Hlist |].
  split; rewrite Hcount; reflexivity.
Defined.

(* ===================================================================== *)
(** * Further properties of gemini_routes.py *)
(* ===================================================================== *)

Lemma map_error_status e :
  exists detail,
    map_error e = Exn (HTTPException 429) detail
    \/ map_error e = Exn (HTTPException 503) detail
    \/ map_error e = Exn (HTTPException 500) detail.
Proof.
  unfold map_error.
  destruct (_ || _); [eexists; left; reflexivity |].
  destruct (_ && _); eexists; right; [left | right]; reflexivity.
Qed.

Section gemini_properties_continued.

Variable json_loads : string -> option value.
Variable format : value -> string.
Variable model_available : bool.
Variable generate_content : GeminiQuery.t -> generation.
Variable validation_message : list (string * value) -> string.

Local Abbreviation convert :=
  (convert_natural_language json_loads format model_available
     generate_content validation_message).

(** What [validate] returns when it returns. *)
Lemma validate_inv loaded response :
  validate format validation_message loaded = Ok response ->
  exists d,
    loaded = VDict d
    /\ ((GeminiResponse.success response = false
         /\ GeminiResponse.entity_name response = VNone
         /\ GeminiResponse.entity_type response = VNone
         /\ GeminiResponse.confidence response = VNone)
        \/ (GeminiResponse.success response = true
            /\ dict_get d "entity_name"
               = Some (GeminiResponse.entity_name response)
            /\ truthy (GeminiResponse.entity_name response) = true
            /\ dict_get d "entity_type"
               = Some (GeminiResponse.entity_type response)
            /\ truthy (GeminiResponse.entity_type response) = true
            /\ lt_threshold (GeminiResponse.confidence response)
               = Ok false)).
Proof.
  destruct loaded as [| | | | | | d]; try discriminate.
  intros H. exists d. split; [reflexivity |].
  unfold validate, py_get, py_getitem, rbind in H.
  destruct (dict_get d "entity_name") as [name |] eqn:Hname;
    cbn [truthy negb] in H;
    [| injection H as <-; left; now repeat split].
  destruct (truthy name) eqn:Hn; cbn [negb] in H;
    [| injection H as <-; left; now repeat split].
  destruct (dict_get d "entity_type") as [type |] eqn:Htype;
    cbn [truthy negb] in H;
    [| injection H as <-; left; now repeat split].
  destruct (truthy type) eqn:Ht; cbn [negb] in H;
    [| injection H as <-; left; now repeat split].
  destruct (lt_threshold _) as [[|] | e] eqn:Hlow; try discriminate H.
  - injection H as <-. left. now repeat split.
  - destruct (rejected_fields _ _ _ _); [| discriminate H].
    injection H as <-. right. cbn. now repeat split.
Qed.

(** X27: whatever the service and the parser do, the only exceptions that
    leave [convert_natural_language] are [HTTPException]s with status 429,
    503 or 500. *)
Theorem convert_raises_only_http_errors query e :
  convert_natural_language json_loads format model_available
    generate_content validation_message query = Raise e ->
  exists status,
    kind e = HTTPException status
    /\ (status = 429 \/ status = 503 \/ status = 500)%Z.
Proof.
  unfold convert_natural_language.
  destruct model_available; cbn [negb].
  - destruct (convert_body _ _ _ _ _) as [r | e0]; [discriminate |].
    intros [= <-].
    destruct (map_error_status e0) as [detail [-> | [-> | ->]]];
      eexists; (split; [reflexivity | tauto]).
  - intros [= <-]. eexists. split; [reflexivity | tauto].
Qed.

(** X28: a response with [success=True] always carries the entity name and
    the entity type that the service's JSON object held, both truthy, and a
    confidence that is not below 0.3; a response with [success=False]
    carries no name, no type and no confidence. *)
Theorem convert_response_shape query response :
  convert query = Ok response ->
  (GeminiResponse.success response = false
   /\ GeminiResponse.entity_name response = VNone
   /\ GeminiResponse.entity_type response = VNone
   /\ GeminiResponse.confidence response = VNone)
  \/ (GeminiResponse.success response = true
      /\ truthy (GeminiResponse.entity_name response) = true
      /\ truthy (GeminiResponse.entity_type response) = true
      /\ lt_threshold (GeminiResponse.confidence response) = Ok false
      /\ exists text d,
           generate_content query = Text text
           /\ json_loads (unfence text) = Some (VDict d)
           /\ dict_get d "entity_name"
              = Some (GeminiResponse.entity_name response)
           /\ dict_get d "entity_type"
              = Some (GeminiResponse.entity_type response)).
Proof.
  unfold convert_natural_language, convert_body.
  destruct model_available; cbn [negb]; [| discriminate].
  destruct (generate_content query) as [e | e | text] eqn:Hgen;
    try discriminate.
  destruct (json_loads (unfence text)) as [loaded |] eqn:Hloads.
  - destruct (validate format validation_message loaded) as [r | e] eqn:Hv; [| discriminate].
    intros [= <-].
    destruct (validate_inv loaded r Hv) as (d & -> & [H | H]);
      [now left | right].
    destruct H as (Hs & Hn & Htn & Ht & Htt & Hc).
    repeat (split; [assumption |]).
    now exists text, d.
  - intros [= <-]. left. now repeat split.
Qed.

(** X29: the threshold is inclusive.  An object whose name and type are
    non-empty strings, whose confidence is a number that is not below 0.3
    (0.3 itself included) and that a float can hold, and whose explanation
    is a string or missing, is answered with [success=True], the name, the
    type and the confidence of the object, and its explanation, or the
    empty string when it has none. *)
Theorem convert_accepts_at_threshold query text d name type :
  model_available = true ->
  generate_content query = Text text ->
  json_loads (unfence text) = Some (VDict d) ->
  dict_get d "entity_name" = Some (VStr name) -> name <> "" ->
  dict_get d "entity_type" = Some (VStr type) -> type <> "" ->
  lt_threshold (match dict_get d "confidence" with
                | Some c => c
                | None => VInt 0
                end) = Ok false ->
  fits_float (match dict_get d "confidence" with
              | Some c => c
              | None => VInt 0
              end) = true ->
  isinstance_str (match dict_get d "explanation" with
                  | Some x => x
                  | None => VStr ""
                  end) = true ->
  convert query
  = Ok {| GeminiResponse.success := true;
          GeminiResponse.entity_name := VStr name;
          GeminiResponse.entity_type := VStr type;
          GeminiResponse.confidence :=
            match dict_get d "confidence" with
            | Some c => c
            | None => VInt 0
            end;
          GeminiResponse.explanation :=
            match dict_get d "explanation" with
            | Some x => x
            | None => VStr ""
            end |}.
Proof.
  intros Hmodel Hgen Hloads Hname Hn Htype Ht Hconf Hfits Hexpl.
  unfold convert_natural_language, convert_body. rewrite Hmodel.
  cbn [negb]. rewrite Hgen, Hloads.
  unfold validate, py_get, py_getitem, rbind.
  apply String.eqb_neq in Hn, Ht.
  rewrite Hname. cbn [truthy]. rewrite Hn. cbn [negb].
  rewrite Htype. cbn [truthy]. rewrite Ht. cbn [negb].
  rewrite Hconf. unfold rejected_fields.
  rewrite Hfits, Hexpl. reflexivity.
Qed.

(** An object whose name is truthy but not a string (a number, say) gets
    through the checks of the handler and is refused by the response model:
    the answer is an HTTP error, not [success=False]. *)
Lemma convert_non_string_name_is_http_error query text d name type :
  model_available = true ->
  generate_content query = Text text ->
  json_loads (unfence text) = Some (VDict d) ->
  dict_get d "entity_name" = Some name -> truthy name = true ->
  isinstance_str name = false ->
  dict_get d "entity_type" = Some type -> truthy type = true ->
  lt_threshold (match dict_get d "confidence" with
                | Some c => c
                | None => VInt 0
                end) = Ok false ->
  exists e, convert query = Raise e.
Proof.
  intros Hmodel Hgen Hloads Hname Hn Hstr Htype Ht Hconf.
  unfold convert_natural_language, convert_body. rewrite Hmodel.
  cbn [negb]. rewrite Hgen, Hloads.
  unfold validate, py_get, py_getitem, rbind.
  rewrite Hname, Hn. cbn [negb]. rewrite Htype, Ht. cbn [negb].
  rewrite Hconf. unfold rejected_fields. rewrite Hstr.
  cbn [app]. now eexists.
Qed.

(** X30: an object that has a name and a type but no confidence is
    refused: the missing confidence counts as 0, which is below the
    threshold. *)
Theorem convert_missing_confidence_is_failure query text d name type :
  model_available = true ->
  generate_content query = Text text ->
  json_loads (unfence text) = Some (VDict d) ->
  dict_get d "entity_name" = Some name -> truthy name = true ->
  dict_get d "entity_type" = Some type -> truthy type = true ->
  dict_get d "confidence" = None ->
  convert query
  = Ok (failure ("Low confidence (" ++ format (VInt 0)
                   ++ ") in the suggested entity")).
Proof.
  intros Hmodel Hgen Hloads Hname Hn Htype Ht Hconf.
  unfold convert_natural_language, convert_body. rewrite Hmodel.
  cbn [negb]. rewrite Hgen, Hloads.
  unfold validate, py_get, rbind.
  rewrite Hname, Hn. cbn [negb]. rewrite Htype, Ht. cbn [negb].
  now rewrite Hconf.
Qed.

End gemini_properties_continued.

Lemma convert_raises_only_http_errors_witness :
  exists status,
    kind (Exn (HTTPException 429)
            "Gemini API rate limit exceeded. Please try again later or use exact search mode.")
    = HTTPException status
    /\ (status = 429 \/ status = 503 \/ status = 500)%Z.
Proof.
  apply (convert_raises_only_http_errors sample_json_loads sample_format
           true sample_generation_quota sample_validation_message sample_query).
  reflexivity.
Defined.

Lemma convert_response_shape_witness :
  convert_natural_language sample_json_loads_answers sample_format true
    sample_generation_answer sample_validation_message sample_query
  = Ok {| GeminiResponse.success := true;
          GeminiResponse.entity_name := VStr "Friends";
          GeminiResponse.entity_type := VStr "tv_show";
          GeminiResponse.confidence := VFloat 0x1.3333333333333p-2%float;
          GeminiResponse.explanation :=
            VStr "A show about friends in New York" |}
  /\ truthy (VStr "Friends") = true.
Proof.
  split; [reflexivity |].
  destruct (convert_response_shape sample_json_loads_answers sample_format
              true sample_generation_answer sample_validation_message sample_query _ eq_refl)
    as [(H & _) | (_ & H & _)]; [discriminate H | exact H].
Defined.

Lemma convert_accepts_at_threshold_witness :
  convert_natural_language sample_json_loads_answers sample_format true
    sample_generation_answer sample_validation_message sample_query
  = Ok {| GeminiResponse.success := true;
          GeminiResponse.entity_name := VStr "Friends";
          GeminiResponse.entity_type := VStr "tv_show";
          GeminiResponse.confidence := VFloat 0x1.3333333333333p-2%float;
          GeminiResponse.explanation :=
            VStr "A show about friends in New York" |}.
Proof.
  apply (convert_accepts_at_threshold sample_json_loads_answers
           sample_format true sample_generation_answer sample_validation_message sample_query
           " answer " sample_answer "Friends" "tv_show");
    try reflexivity; discriminate.
Defined.

Lemma convert_missing_confidence_is_failure_witness :
  convert_natural_language sample_json_loads_answers sample_render true
    sample_generation_short_answer sample_validation_message sample_query
  = Ok (failure "Low confidence (0) in the suggested entity").
Proof.
  apply (convert_missing_confidence_is_failure sample_json_loads_answers
           sample_render true sample_generation_short_answer sample_validation_message sample_query
           "short answer" sample_answer_without_confidence
           (VStr "Friends") (VStr "tv_show"));
    reflexivity.
Defined.

Lemma get_popular_books_isolated_and_unpersonalized_witness :
  get_popular_books "https://hackathon.api.qloo.com" (Some "key")
    [VStr "E1"] (Some "35_and_younger") (Some "female") sample_upstream_down 0
  = (Ok (VList []), 1).
Proof.
  apply (proj1 (proj2 (get_popular_books_isolated_and_unpersonalized
                         "https://hackathon.api.qloo.com" (Some "key")
                         [VStr "E1"] (Some "35_and_younger") (Some "female")
                         sample_upstream_down 0))).
  intros req. unfold sample_upstream_down. constructor.
Defined.

Lemma register_conflict_iff_witness :
  register sample_get_password_hash sample_create_access_token 30
    {| UserCreate.username := "alice2"; UserCreate.email := "a@x.com";
       UserCreate.password := "pw" |} sample_database
  = (Raise (Exn (HTTPException 400) "Username or email already registered"),
     sample_database).
Proof.
  apply (proj1 (register_conflict_iff sample_get_password_hash
                  sample_create_access_token 30
                  {| UserCreate.username := "alice2";
                     UserCreate.email := "a@x.com";
                     UserCreate.password := "pw" |} sample_database)).
  eexists. split; [left; reflexivity | right; reflexivity].
Defined.

Lemma save_preferences_frame_witness :
  stored_preferences
    (snd (save_preferences sample_verify_token [("movie_name", Some "Arrival")]
            "token-for-alice" sample_database_two)) 9
  = stored_preferences sample_database_two 9.
Proof.
  refine (proj2 (proj2
    (proj2 (save_preferences_frame sample_verify_token
              [("movie_name", Some "Arrival")] "token-for-alice"
              sample_database_two)
           {| User.id := 7; User.email := "a@x.com"; User.username := "alice";
              User.hashed_password := "hash-of-pw123" |} eq_refl)) 9%Z _).
  discriminate.
Defined.

Lemma save_item_frame_witness :
  filter (saved_item_matches 9 "m1")
    (saved_items (snd (save_item sample_verify_token (sample_item true)
                         "token-for-alice" 10 sample_database_two)))
  = filter (saved_item_matches 9 "m1") (saved_items sample_database_two).
Proof.
  refine (proj2 (proj2 (proj2
    (save_item_frame sample_verify_token (sample_item true)
       "token-for-alice" 10 sample_database_two)))
    {| User.id := 7; User.email := "a@x.com"; User.username := "alice";
       User.hashed_password := "hash-of-pw123" |} 9%Z "m1" eq_refl _).
  left. discriminate.
Defined.
